(* ===== verification/_CoqProject ===== *)
-Q . S2P
Prelude.v
Digits.v
Binary64.v
Operations.v
PyStr.v
FloatRepr.v
FloatParse.v
Calculator.v
TestCalculator.v
TestOperations.v
