(* ===== verification/Prelude.v ===== *)
(** * A verification development of the REPL calculator (Cal888/assignment3)

    ** The program

    The repository is a command-line calculator in Python:
    - [src/app/operations/__init__.py], class [MathOperations]: four static
      methods [addition], [subtraction], [multiplication], [division] on
      [Number = int | float]; [division] turns Python's
      [ZeroDivisionError] into [ValueError("Division by zero is not
      allowed.")].
    - [src/app/calculator/__init__.py], function [calculator()]: builds
      the dictionary [operators] from the four symbols to the four methods,
      prints a banner, then loops: [input()] a line, [strip()] it, leave on
      [exit] in any case ([lower()]), otherwise [split()] it into three
      words, convert the outer ones with [float()], look the middle one up
      in [operators], call the method on the two floats and print
      [f"Result: {result}"] or the error message.
    - [src/tests/]: pytest suites for both modules.
    The loop calls the operations module only through the dictionary; the
    operations module calls nothing but Python's arithmetic.

    ** The files

    - [Prelude] (this file): Python exceptions [exn], the result of a call
      [result] with its bind notation [x <- r ;; k] (scope [py_scope]), the
      transition closure [star], the liveness combinator [eventually]
      (after coqutil's [OmniSmallstepCombinators]), the hint databases
      [py] and [pyrw], the
      tactic [py_simp], and lemmas on characters and strings.
    - [Digits], module [Digits]: the decimal text of integers as CPython
      writes it ([int.__repr__] and the digit buffer of [_Py_dg_dtoa]),
      its length and value.
    - [Binary64]: a Python [float] as the Standard Library's executable
      IEEE-754 model [SpecFloat.spec_float] at binary64 ([prec = 53],
      [emax = 1024]); the correctly rounded conversions of integers
      ([of_Z], [PyLong_AsDouble]) and of integer quotients ([div_Z],
      [long_true_divide]); a rounding toolkit following [binary_round]
      through its shifts, with exactness below [2^53], the exact overflow
      threshold [2^1024 - 2^970] of the conversion ([of_Z_inf_iff]), the
      invariance of one rounding under rescaling of the mantissa
      ([round_aux_rescale], [new_location_scale]), and from it correct
      rounding of [+ - * /] on integer-valued doubles ([fadd_of_Z] ...
      [fdiv_of_Z_div_Z]).
    - [Operations], module [Operations]: [Number] and its two types,
      CPython's [+ - * /] on [int | float] with their exceptions, the four
      methods and the class [MathOperations] as the record of them, and the
      contract [ArithContract] of spec 4.1 as a type class, discharged by
      the instance [math_operations_contract].
    - [PyStr], module [PyStr]: [str.isspace], [strip], [split] and
      [lower] on strings whose characters are Latin-1 code points.
    - [FloatRepr], module [FloatRepr]: [repr(x)], the shortest digits
      that read back as [x] ([_Py_dg_dtoa] mode 0) laid out as
      [format_float_short] does.
    - [FloatParse], module [FloatParse]: [float(s)] as CPython reads it
      (underscores, whitespace, [_Py_dg_strtod] with correct rounding,
      [inf] and [nan]).
    - [Calculator], module [Calculator]: the loop, over any four
      operations ([Section Loop]); the program [main] is its instance at
      [MathOperations].  Standard input is a list of lines, standard output
      a list of [Prompt]/[Print] events, and the end of the program an
      [outcome]: [Finished] or [Crashed e] for an escaping exception.  The
      loop is also a state machine [step] on [Running inputs] /
      [Terminated o] (spec 4.2), and the abstract session of spec 4.2 is
      [spec_session].
    - [TestCalculator], [TestOperations]: the two pytest suites: the
      input-mocking helper of [test_calculator.py] (no prompt printed, a
      crash propagated), and [round(x, 1)] and [int]/[float] equality as
      CPython computes them for [test_operations.py].

    ** What is proved

    - Refinement: the program produces exactly the session of the
      abstract specification ([Calculator.main_refines]); the
      loop keeps no state between lines ([Calculator.loop_stateless]) and
      reads nothing after the exit line ([Calculator.exit_stops_reading]).
    - Safety and the state machine: with any operations meeting the
      contract, the program ends normally exactly when a line is the exit
      keyword and otherwise dies with [EOFError]
      ([Calculator.calculator_outcome]); [TERMINATED] with [Finished] is
      reached only through the exit keyword
      ([Calculator.finished_only_by_exit]); the machine reaches
      [TERMINATED] from every state ([Calculator.machine_terminates]); on
      input with an exit line every run ends normally
      ([Calculator.exit_eventually_finishes], liveness).
    - Malformed lines: a wrong number of words, a word that is not a
      number (checked before the operator, so [five ^ one] gets the
      format message) and an unknown symbol get their messages
      ([Calculator.answer_wrong_word_count], [answer_bad_number],
      [answer_unknown_operator]).
    - Answers to integer input: a line [a op b] of integer literals
      below [2^53] is answered with the text of the double nearest to the
      exact sum, difference or product followed by [.0], while that
      double is below [10^16] ([Calculator.answer_sum],
      [answer_difference], [answer_product]: [9007199254740991 + 2]
      prints [9007199254740992.0]), and with the exact quotient when it is
      an integer ([Calculator.answer_quotient]); a zero product or
      quotient is signed ([0 * -3] prints [-0.0]); [a / 0] prints the
      division message ([Calculator.answer_division_by_zero]).
    - Operations: the type of each method's result, [int] for two
      [int]s under [+ - *] and [float] otherwise
      ([Operations.operations_result_type]); division on floats on both
      branches ([Operations.division_float]), the exceptions [division] can raise
      ([Operations.division_raises]), division by a zero of any type for
      every dividend, with the one [OverflowError] case of a huge [int]
      over [0.0] ([TestOperations.division_by_zero_any]), correct rounding of the four
      methods on integer-valued floats below [2^53]: [+ - *] return the
      float of the exact integer result rounded once, however large
      ([Operations.addition_subtraction_exact], [multiplication_exact]),
      and [/] returns exactly what [long_true_divide] returns for the two
      integers ([Operations.division_exact], an equivalence); [int / int]
      on an exact quotient on every branch, whatever the size of the
      operands, its [OverflowError] included
      ([Operations.division_int_exact]); the [OverflowError] of an [int]
      operand exactly from [2^1024 - 2^970] on
      ([Operations.addition_int_overflow]).
    - Printed lines: every line the program prints in answer to a line is
      one of the three messages or [Result: ] and the [repr] of a valid
      binary64 double ([valid_binary]: canonical mantissa, exponent in
      range), never an [int] text ([Calculator.answer_lines_valid], from
      [Binary64.round_aux_valid] and the validity of [float()]).
    - Strings: [split] gives nonempty words without whitespace and
      inverts joining with single spaces; the
      sixteen spellings of [exit] are exactly what [lower()] sends to
      ["exit"].
    - Numbers: integers below [2^53] convert exactly
      ([Binary64.of_Z_exact]); [float()] reads the text of every integer
      as its nearest double ([FloatParse.py_float_int_literal]); [repr]
      of every valid double whose value is an integer below [10^16] is
      its digits and [.0], the even integers above [2^53] included
      ([FloatRepr.float_repr_integral]), and that text reads back as
      the same double, signed zeros included
      ([Calculator.py_float_repr_integral]); [float()]
      skips an underscore between digits ([FloatParse.py_float_underscore])
      and reads a string without digits only as an infinity or a NaN
      ([FloatParse.py_float_no_digit]).
    - Tests: for any line followed by [exit], the helper
      [run_calculator_with_input] of [test_calculator.py] returns the
      banner, the program's answer and the exit notice, with no prompt
      since the mocked [input] prints none
      ([TestCalculator.run_single_line]); the seven tests are its
      instances.

    ** Bounds and fuel

    No loop needs fuel: [calculator()]'s [while True] is a recursion on the
    list of input lines, each pass consuming one line ([input()] on an
    empty list raises [EOFError]).  [FloatRepr] searches 1 to 17 digits
    (17 significant digits always read back for binary64; for an
    integer-valued double below [2^53] the search stops by its 16th
    digit, [shortest_from_int]).  [Digits] writes and counts decimal
    digits with the bit length as fuel (a number has no more decimal
    digits than bits, [Digits.pow10_size]).  [FloatParse] sends values
    of binary magnitude above [2^1100] to infinity and below [2^-1100] to zero
    without computing [10^e]: both lie far outside the range of doubles.

    ** Not modelled

    Code points above U+00FF in the input (the string methods and
    [float()] are modelled on Latin-1), the text of the tracebacks and of
    Python's internal error messages (nothing prints them), NaN payloads
    and signs (never printed), the [raise ... from e] chain, and
    [KeyboardInterrupt].  The pytest and monkeypatch machinery of the
    tests is modelled by its effect only (a list of lines in, the text
    written out). *)

From Stdlib Require Import ZArith List String Ascii Bool Lia.
Import ListNotations.

Declare Scope py_scope.
Delimit Scope py_scope with py.
Local Open Scope string_scope.

(** ** Python exceptions and the result of a Python call *)

(** The exceptions the modelled code raises, catches or lets escape.
    [EOFError] is raised by [input()] when standard input is exhausted. *)
Inductive exn : Type :=
| ValueError (msg : string)
| ZeroDivisionError (msg : string)
| OverflowError (msg : string)
| EOFError.

(** A Python expression either returns a value or raises. *)
Inductive result (A : Type) : Type :=
| Ok (a : A)
| Raise (e : exn).
Arguments Ok {A} a.
Arguments Raise {A} e.

Definition bind {A B : Type} (r : result A) (k : A -> result B) : result B :=
  match r with
  | Ok a => k a
  | Raise e => Raise e
  end.

Notation "x <- r ;; k" := (bind r (fun x => k))
  (at level 100, r at next level, right associativity) : py_scope.

(** [is_ok r] holds when the call returned normally. *)
Definition is_ok {A : Type} (r : result A) : bool :=
  match r with Ok _ => true | Raise _ => false end.

Definition exn_eq_dec (e1 e2 : exn) : {e1 = e2} + {e1 <> e2}.
Proof. decide equality; apply string_dec. Defined.

(** ** Sequences of steps of a transition relation *)

Inductive star {A : Type} (R : A -> A -> Prop) : A -> A -> Prop :=
| star_refl a : star R a a
| star_step a b c : R a b -> star R b c -> star R a c.

(** [eventually R P a]: every run of [R] from [a] reaches a state where
    [P] holds, and none gets stuck before: a state where [P] does not
    hold yet has a successor, and all its successors eventually satisfy
    [P].  The relational form of [eventually] in coqutil's
    [OmniSmallstepCombinators]. *)
Inductive eventually {A : Type} (R : A -> A -> Prop) (P : A -> Prop) : A -> Prop :=
| eventually_done a : P a -> eventually R P a
| eventually_step a :
    (exists b, R a b) -> (forall b, R a b -> eventually R P b) -> eventually R P a.

(** The 256 characters, for statements checked by evaluation. *)
Definition all_ascii : list ascii := map ascii_of_nat (seq 0 256).

(** ** Automation shared by the components *)

Create HintDb py discriminated.
Create Rewrite HintDb pyrw.

#[export] Hint Constructors star eventually : py.

(** [py_simp] rewrites the monad's and the strings' equations everywhere. *)
Ltac py_simp := autorewrite with pyrw in *.

(** ** The result monad *)

Lemma bind_Ok {A B : Type} (a : A) (k : A -> result B) : bind (Ok a) k = k a.
Proof. reflexivity. Qed.

Lemma bind_Raise {A B : Type} (e : exn) (k : A -> result B) :
  bind (Raise e) k = Raise e.
Proof. reflexivity. Qed.

Lemma bind_eq_Ok {A B : Type} (r : result A) (k : A -> result B) (b : B) :
  bind r k = Ok b <-> exists a, r = Ok a /\ k a = Ok b.
Proof.
  destruct r as [a|e]; simpl; split.
  - intros H. exists a. auto.
  - intros (a' & Ha & Hk). now injection Ha as ->.
  - discriminate.
  - intros (a' & Ha & _). discriminate.
Qed.

Lemma bind_eq_Raise {A B : Type} (r : result A) (k : A -> result B) (e : exn) :
  bind r k = Raise e <-> r = Raise e \/ exists a, r = Ok a /\ k a = Raise e.
Proof.
  destruct r as [a|e']; simpl; split.
  - intros H. right. exists a. auto.
  - intros [H | (a' & Ha & Hk)]; [discriminate | now injection Ha as ->].
  - intros H. left. congruence.
  - intros [H | (a' & Ha & _)]; [congruence | discriminate].
Qed.

#[export] Hint Rewrite @bind_Ok @bind_Raise : pyrw.

(** ** Characters and strings *)

Lemma in_all_ascii (c : ascii) : In c all_ascii.
Proof.
  unfold all_ascii. rewrite <- (ascii_nat_embedding c). apply in_map, in_seq.
  pose proof (nat_ascii_bounded c). lia.
Qed.

(** A boolean property of characters holds everywhere when it holds on
    the enumeration: the reflection step for per-character facts. *)
Lemma ascii_forall (P : ascii -> bool) :
  forallb P all_ascii = true -> forall c, P c = true.
Proof. intros H c. rewrite forallb_forall in H. apply H, in_all_ascii. Qed.

Lemma string_app_assoc (a b c : string) : (a ++ b) ++ c = a ++ (b ++ c).
Proof. induction a as [|x a IH]; simpl; congruence. Qed.

Lemma string_app_nil_r (a : string) : (a ++ EmptyString) = a.
Proof. induction a as [|x a IH]; simpl; congruence. Qed.

#[export] Hint Rewrite string_app_assoc string_app_nil_r : pyrw.

(** ** Runs of a transition relation *)

Lemma star_one {A : Type} (R : A -> A -> Prop) (a b : A) : R a b -> star R a b.
Proof. eauto with py. Qed.

Lemma star_trans {A : Type} (R : A -> A -> Prop) (a b c : A) :
  star R a b -> star R b c -> star R a c.
Proof. induction 1; eauto with py. Qed.

(** An eventuality is reached along some run. *)
Lemma eventually_star {A : Type} (R : A -> A -> Prop) (P : A -> Prop) (a : A) :
  eventually R P a -> exists b, star R a b /\ P b.
Proof.
  induction 1 as [a Ha | a [b Hb] _ IH]; [eauto with py|].
  destruct (IH b Hb) as (c & Hbc & Hc). eauto with py.
Qed.

Lemma eventually_weaken {A : Type} (R : A -> A -> Prop) (P Q : A -> Prop) (a : A) :
  (forall x, P x -> Q x) -> eventually R P a -> eventually R Q a.
Proof. intros HPQ. induction 1; eauto with py. Qed.
