(* ===== verification/Digits.v ===== *)
(** * Decimal text of integers

    The digits CPython writes for a nonnegative integer: [int.__repr__]
    for an [int] result, and the digit buffer [_Py_dg_dtoa] fills for a
    float, which [format_float_short] lays out with zeros around it.  The
    digits of [n > 0] are produced least significant first ([n % 10],
    then [n / 10]) in front of what is already written; [ndigits]
    counts them.  Both recursions take the bit length of [n] as fuel,
    which is enough because a number has no more decimal digits than
    bits ([pow10_size]).  The lemmas relate the text
    to the value: its length, the place of the decimal point
    ([ndigits_spec]), and the effect of multiplying by [10]. *)

From Stdlib Require Import ZArith Ascii String Bool Lia.
From S2P Require Import Prelude.

Local Open Scope string_scope.
Local Open Scope Z_scope.

Module Digits.

(** ['0' + d] for a digit [0 <= d < 10]. *)
Definition digit_char (d : Z) : ascii := ascii_of_nat (48 + Z.to_nat d).

(** Number of decimal digits of a positive integer. *)
Fixpoint ndigits_fuel (fuel : nat) (n : Z) : Z :=
  match fuel with
  | O => 0
  | S f => if n <? 10 then 1 else 1 + ndigits_fuel f (n / 10)
  end.

Definition ndigits (n : Z) : Z :=
  match n with
  | Zpos p => ndigits_fuel (Pos.to_nat (Pos.size p)) n
  | _ => 0
  end.

(** The digits of [n], the last one [n mod 10] first, in front of
    [acc]. *)
Fixpoint digits_fuel (fuel : nat) (n : Z) (acc : string) : string :=
  match fuel with
  | O => acc
  | S f =>
      let acc' := String (digit_char (n mod 10)) acc in
      if n <? 10 then acc' else digits_fuel f (n / 10) acc'
  end.

(** Decimal text of a nonnegative integer. *)
Definition digits_of (n : Z) : string :=
  match n with
  | Zpos p => digits_fuel (Pos.to_nat (Pos.size p)) n ""
  | _ => "0"
  end.

(** [int.__repr__]: a minus sign, then the digits of the magnitude. *)
Definition int_literal (n : Z) : string :=
  (if n <? 0 then "-" else "") ++ digits_of (Z.abs n).

Fixpoint zeros (n : nat) : string :=
  match n with O => "" | S n' => String "0" (zeros n') end.

Definition zeros_Z (n : Z) : string := zeros (Z.to_nat n).

(** Every character of [s] satisfies [P]. *)
Fixpoint str_forall (P : ascii -> bool) (s : string) : bool :=
  match s with
  | EmptyString => true
  | String c t => P c && str_forall P t
  end.

(** ** Counting digits *)

Lemma pow10_size (p : positive) : Zpos p < 10 ^ Z.of_nat (Pos.to_nat (Pos.size p)).
Proof.
  rewrite positive_nat_Z. pose proof (Pos.size_gt p) as H.
  apply Pos2Z.pos_lt_pos in H. rewrite Pos2Z.inj_pow in H.
  eapply Z.lt_le_trans; [exact H|]. apply Z.pow_le_mono_l. lia.
Qed.

Lemma div10_bound (n : Z) (f : nat) :
  10 <= n -> n < 10 ^ Z.of_nat (S f) -> 0 < n / 10 < 10 ^ Z.of_nat f.
Proof.
  intros H1 H2. split; [apply Z.div_str_pos; lia|].
  apply Z.div_lt_upper_bound; [lia|]. rewrite <- Z.pow_succ_r by lia.
  now rewrite <- Nat2Z.inj_succ.
Qed.

Lemma pow10_succ (d : Z) : 0 <= d -> 10 ^ (1 + d) = 10 * 10 ^ d.
Proof. intros Hd. rewrite Z.add_comm. apply Z.pow_succ_r, Hd. Qed.

Lemma ndigits_fuel_spec (f : nat) (n : Z) :
  0 < n < 10 ^ Z.of_nat f ->
  1 <= ndigits_fuel f n /\ 10 ^ (ndigits_fuel f n - 1) <= n < 10 ^ ndigits_fuel f n.
Proof.
  revert n. induction f as [|f IH]; intros n [Hn Hf]; [simpl in Hf; lia|].
  cbn [ndigits_fuel]. destruct (Z.ltb_spec n 10); [cbn; lia|].
  destruct (IH (n / 10) (div10_bound n f ltac:(lia) Hf)) as (H1 & H2 & H3).
  set (d := ndigits_fuel f (n / 10)) in *.
  replace (1 + d - 1) with (1 + (d - 1)) by lia.
  rewrite !pow10_succ by lia.
  pose proof (Z.div_mod n 10). pose proof (Z.mod_pos_bound n 10). lia.
Qed.

Lemma ndigits_spec (n : Z) :
  0 < n -> 1 <= ndigits n /\ 10 ^ (ndigits n - 1) <= n < 10 ^ ndigits n.
Proof.
  intros Hn. destruct n as [|p|p]; try lia.
  apply ndigits_fuel_spec. split; [lia | apply pow10_size].
Qed.

(** The number of digits is the exponent of the enclosing powers of
    ten. *)
Lemma ndigits_unique (n d : Z) : 1 <= d -> 10 ^ (d - 1) <= n < 10 ^ d -> ndigits n = d.
Proof.
  intros Hd Hn. assert (Hp : 0 < n) by (pose proof (Z.pow_pos_nonneg 10 (d - 1)); lia).
  destruct (ndigits_spec n Hp) as (H1 & H2 & H3).
  destruct (Z.lt_trichotomy (ndigits n) d) as [Hl|[He|Hl]]; [| exact He |].
  - pose proof (Z.pow_le_mono_r 10 (ndigits n) (d - 1) ltac:(lia) ltac:(lia)). lia.
  - pose proof (Z.pow_le_mono_r 10 d (ndigits n - 1) ltac:(lia) ltac:(lia)). lia.
Qed.

Lemma ndigits_mul_pow10 (n k : Z) :
  0 < n -> 0 <= k -> ndigits (n * 10 ^ k) = ndigits n + k.
Proof.
  intros Hn Hk. destruct (ndigits_spec n Hn) as (H1 & H2 & H3).
  apply ndigits_unique; [lia|].
  replace (ndigits n + k - 1) with ((ndigits n - 1) + k) by lia.
  rewrite !Z.pow_add_r by lia. pose proof (Z.pow_pos_nonneg 10 k). nia.
Qed.

(** ** The digit text *)

Lemma digits_fuel_app (f : nat) (n : Z) (acc rest : string) :
  digits_fuel f n (acc ++ rest) = digits_fuel f n acc ++ rest.
Proof.
  revert n acc. induction f as [|f IH]; intros n acc; simpl; [reflexivity|].
  destruct (n <? 10); [reflexivity|]. apply (IH (n / 10) (String _ acc)).
Qed.

(** Any fuel above the number of digits gives the same text. *)
Lemma digits_fuel_enough (f f' : nat) (n : Z) (acc : string) :
  0 < n < 10 ^ Z.of_nat f -> n < 10 ^ Z.of_nat f' -> digits_fuel f n acc = digits_fuel f' n acc.
Proof.
  revert f' n acc. induction f as [|f IH]; intros [|f'] n acc Hf Hf';
    [simpl in *; lia .. |].
  cbn [digits_fuel]. destruct (Z.ltb_spec n 10); [reflexivity|].
  apply IH; [apply div10_bound; lia | apply (div10_bound n f'); lia].
Qed.

Lemma digits_of_fuel (f : nat) (n : Z) :
  0 < n < 10 ^ Z.of_nat f -> digits_of n = digits_fuel f n "".
Proof.
  intros Hn. destruct n as [|p|p]; try lia. apply digits_fuel_enough; [| lia].
  split; [lia | apply pow10_size].
Qed.

Lemma digits_of_mul10 (n : Z) : 0 < n -> digits_of (n * 10) = digits_of n ++ "0".
Proof.
  intros Hn. destruct n as [|p|p]; try lia.
  set (f := Pos.to_nat (Pos.size p)). pose proof (pow10_size p) as Hf.
  rewrite (digits_of_fuel (S f)).
  2:{ rewrite Nat2Z.inj_succ, Z.pow_succ_r by lia. fold f in Hf. lia. }
  cbn [digits_fuel]. replace (Zpos p * 10 <? 10) with false by (symmetry; apply Z.ltb_ge; lia).
  rewrite Z.mod_mul, Z.div_mul by lia.
  exact (digits_fuel_app f (Zpos p) "" "0").
Qed.

Lemma zeros_snoc (k : nat) : zeros k ++ "0" = String "0" (zeros k).
Proof. induction k as [|k IH]; simpl; congruence. Qed.

Lemma digits_of_mul_pow10 (n : Z) (k : nat) :
  0 < n -> digits_of (n * 10 ^ Z.of_nat k) = digits_of n ++ zeros k.
Proof.
  intros Hn. induction k as [|k IH]; [now rewrite Z.mul_1_r, string_app_nil_r|].
  replace (n * 10 ^ Z.of_nat (S k)) with (n * 10 ^ Z.of_nat k * 10)
    by (rewrite Nat2Z.inj_succ, Z.pow_succ_r by lia; ring).
  pose proof (Z.pow_pos_nonneg 10 (Z.of_nat k)).
  rewrite digits_of_mul10, IH, string_app_assoc, zeros_snoc by lia. reflexivity.
Qed.

Lemma length_digits_fuel (f : nat) (n : Z) (acc : string) :
  0 < n < 10 ^ Z.of_nat f ->
  Z.of_nat (String.length (digits_fuel f n acc)) = ndigits_fuel f n + Z.of_nat (String.length acc).
Proof.
  revert n acc. induction f as [|f IH]; intros n acc Hn; [simpl in Hn; lia|].
  cbn [digits_fuel ndigits_fuel]. destruct (Z.ltb_spec n 10);
    [cbn [String.length]; rewrite Nat2Z.inj_succ; lia|].
  rewrite IH by (apply div10_bound; lia). cbn [String.length]. rewrite Nat2Z.inj_succ. lia.
Qed.

Lemma length_digits_of (n : Z) : 0 < n -> Z.of_nat (String.length (digits_of n)) = ndigits n.
Proof.
  intros Hn. destruct n as [|p|p]; try lia. unfold digits_of, ndigits.
  rewrite length_digits_fuel by (split; [lia | apply pow10_size]). simpl. lia.
Qed.

Lemma str_forall_app (P : ascii -> bool) (a b : string) :
  str_forall P (a ++ b) = andb (str_forall P a) (str_forall P b).
Proof. induction a as [|c a IH]; simpl; [reflexivity|]. rewrite IH. apply andb_assoc. Qed.

Lemma str_forall_impl (P Q : ascii -> bool) (s : string) :
  (forall c, P c = true -> Q c = true) -> str_forall P s = true -> str_forall Q s = true.
Proof.
  intros HPQ. induction s as [|c t IH]; simpl; [reflexivity|].
  rewrite !andb_true_iff. intros [Hc Ht]. auto.
Qed.

(** A property of characters checked on the ten digits. *)
Lemma digit_char_forall (P : ascii -> bool) :
  str_forall P "0123456789" = true -> forall d, 0 <= d < 10 -> P (digit_char d) = true.
Proof.
  intros H d Hd. simpl in H. rewrite !andb_true_iff in H.
  assert (exists k, d = Z.of_nat k /\ (k < 10)%nat) as (k & -> & Hk) by (exists (Z.to_nat d); lia).
  do 10 (destruct k as [|k]; [tauto|]). lia.
Qed.

Lemma digits_of_nonempty (n : Z) : digits_of n <> "".
Proof.
  destruct n as [|p|p]; try discriminate. intros E.
  pose proof (length_digits_of (Zpos p) ltac:(lia)) as H. rewrite E in H.
  pose proof (ndigits_spec (Zpos p) ltac:(lia)). cbn [String.length Z.of_nat] in H. lia.
Qed.

Section Chars.

Variable P : ascii -> bool.
Hypothesis P_digits : forall d, 0 <= d < 10 -> P (digit_char d) = true.

Lemma digits_fuel_forall (f : nat) (n : Z) (acc : string) :
  str_forall P acc = true -> str_forall P (digits_fuel f n acc) = true.
Proof.
  revert n acc. induction f as [|f IH]; intros n acc Hacc; simpl; [exact Hacc|].
  assert (Hc : str_forall P (String (digit_char (n mod 10)) acc) = true)
    by (simpl; rewrite P_digits by (apply Z.mod_pos_bound; lia); exact Hacc).
  destruct (n <? 10); [exact Hc | apply IH, Hc].
Qed.

Lemma digits_of_forall (n : Z) : str_forall P (digits_of n) = true.
Proof.
  destruct n as [|p|p]; [| apply digits_fuel_forall; reflexivity |];
    simpl; rewrite Bool.andb_true_r; exact (P_digits 0 ltac:(lia)).
Qed.

End Chars.

End Digits.
