(* ===== verification/Binary64.v ===== *)
(** * Python's [float]: IEEE-754 binary64 arithmetic

    A CPython [float] is a C [double].  It is modelled by the Standard
    Library's executable IEEE-754 specification [SpecFloat.spec_float] at
    precision 53 and maximal exponent 1024, the parameters of binary64; the
    four operations of [float.__add__], [__sub__], [__mul__], [__truediv__]
    are [SFadd], [SFsub], [SFmul], [SFdiv] in round-to-nearest-even, the
    mode CPython runs in.  NaN carries no sign or payload here: no modelled
    output depends on them ([repr] prints every NaN as [nan]). *)

From Stdlib Require Import ZArith Floats.SpecFloat Lia.
From S2P Require Import Prelude.

Open Scope Z_scope.

Module Binary64.

Definition prec : Z := 53.
Definition emax : Z := 1024.

(** A C [double]. *)
Abbreviation float := spec_float.

Definition fadd (x y : float) : float := SFadd prec emax x y.
Definition fsub (x y : float) : float := SFsub prec emax x y.
Definition fmul (x y : float) : float := SFmul prec emax x y.
Definition fdiv (x y : float) : float := SFdiv prec emax x y.

(** The literal [0.0]. *)
Definition fzero : float := S754_zero false.

(** C's [==] on doubles: IEEE equality, so [-0.0 == 0.0] and
    [nan != nan]. *)
Definition feq (x y : float) : bool := SFeqb x y.

(** Correctly rounded conversion of the binary number [m * 2^e]
    (round to nearest, ties to even); an exact zero is [+0.0]. *)
Definition round_Z2 (m e : Z) : float := binary_normalize prec emax m e false.

(** Correctly rounded conversion of an integer, as [PyLong_AsDouble]
    computes it before the overflow test. *)
Definition of_Z (n : Z) : float := round_Z2 n 0.

(** Correctly rounded quotient [a / b] of two integers, [b <> 0], as
    [long_true_divide] computes it: the exact quotient rounded once, its
    sign the exclusive or of the operands' signs (so [0 / -5] is
    [-0.0]). *)
Definition div_Z (a b : Z) : float :=
  let s := xorb (a <? 0) (b <? 0) in
  match Z.abs a with
  | Z0 => S754_zero s
  | Zpos pa =>
      let '(mz, ez, lz) := SFdiv_core_binary prec emax (Zpos pa) 0 (Z.abs b) 0 in
      binary_round_aux prec emax s mz ez lz
  | Zneg _ => S754_nan
  end.

Definition is_zero (x : float) : bool :=
  match x with S754_zero _ => true | _ => false end.

Definition is_inf (x : float) : bool :=
  match x with S754_infinity _ => true | _ => false end.

Definition is_nan (x : float) : bool :=
  match x with S754_nan => true | _ => false end.

(** The integer a float stands for, when it is finite and integral. *)
Definition int_value (x : float) : option Z :=
  match x with
  | S754_zero _ => Some 0
  | S754_finite s m e =>
      let n := cond_Zopp s (Zpos m) in
      if 0 <=? e then Some (n * 2 ^ e)
      else if Zpos m mod 2 ^ (- e) =? 0 then Some (n / 2 ^ (- e))
      else None
  | _ => None
  end.

(** ** Basic facts *)

Lemma feq_zero_iff (y : float) : feq y fzero = true <-> is_zero y = true.
Proof. destruct y as [[] | [] | | [] m e]; cbv; split; congruence. Qed.

Lemma is_zero_iff (y : float) : is_zero y = true <-> exists s, y = S754_zero s.
Proof.
  destruct y; simpl; split; intros H; try discriminate; try (eexists; reflexivity);
    destruct H; discriminate.
Qed.

(** ** Rounding toolkit

    The lemmas below follow [binary_round] through its shifts
    ([shr_fexp]) and its rounding step ([round_nearest_even]) for an
    integer mantissa: up to 53 bits nothing is lost; beyond, the result
    lands at an exponent of at least the number of bits minus 53. *)

Lemma digits2_pos_size p : digits2_pos p = Pos.size p.
Proof. induction p; simpl; congruence. Qed.

Lemma iter_pos_iter {A : Type} (f : A -> A) (p : positive) (x : A) :
  iter_pos f p x = Pos.iter f x p.
Proof.
  revert x. induction p as [p IH|p IH|]; intros x; simpl; rewrite ?IH; try reflexivity.
  now rewrite !Pos.iter_swap.
Qed.

Lemma shr_1_m (r : shr_record) : 0 <= shr_m r -> shr_m (shr_1 r) = shr_m r / 2.
Proof.
  destruct r as [m rr ss]; simpl. intros Hm.
  destruct m as [|[p|p|]|p]; simpl; try reflexivity; try lia.
  - rewrite Pos2Z.inj_xI. rewrite Z.add_comm, Z.mul_comm, Z.div_add by lia. reflexivity.
  - rewrite Pos2Z.inj_xO. rewrite Z.mul_comm, Z.div_mul by lia. reflexivity.
Qed.

Lemma shr_m_iter (r : shr_record) (p : positive) :
  0 <= shr_m r -> shr_m (Pos.iter shr_1 r p) = shr_m r / 2 ^ Zpos p.
Proof.
  intros Hm. induction p as [|p IH] using Pos.peano_ind.
  - simpl. now apply shr_1_m.
  - rewrite Pos.iter_succ, shr_1_m.
    + rewrite IH, Pos2Z.inj_succ, Z.pow_succ_r by lia.
      rewrite Z.div_div by lia. f_equal. lia.
    + rewrite IH. apply Z.div_pos; lia.
Qed.

Lemma shr_spec (r : shr_record) (e n : Z) :
  0 <= shr_m r ->
  shr_m (fst (shr r e n)) = shr_m r / 2 ^ Z.max 0 n /\ snd (shr r e n) = e + Z.max 0 n.
Proof.
  intros Hm. unfold shr. destruct n as [|p|p]; simpl.
  - rewrite Z.div_1_r. split; [reflexivity | lia].
  - rewrite iter_pos_iter, shr_m_iter by exact Hm. split; reflexivity.
  - rewrite Z.div_1_r. split; [reflexivity | lia].
Qed.

Lemma round_nearest_even_bounds (m : Z) (l : location) :
  m <= round_nearest_even m l <= m + 1.
Proof.
  destruct l as [|[]]; simpl; try lia. destruct (Z.even m); lia.
Qed.

Lemma pos_iter_xO (p n : positive) : Zpos (Pos.iter xO p n) = Zpos p * 2 ^ Zpos n.
Proof.
  induction n as [|n IH] using Pos.peano_ind.
  - simpl. lia.
  - rewrite Pos.iter_succ, Pos2Z.inj_xO, IH, Pos2Z.inj_succ, Z.pow_succ_r by lia. lia.
Qed.

Lemma size_bounds (p : positive) : 2 ^ (Zpos (Pos.size p) - 1) <= Zpos p < 2 ^ Zpos (Pos.size p).
Proof.
  pose proof (Pos.size_le p) as H1. pose proof (Pos.size_gt p) as H2.
  apply Pos2Z.pos_le_pos in H1. apply Pos2Z.pos_lt_pos in H2.
  rewrite Pos2Z.inj_pow, (Pos2Z.inj_xO p) in H1. rewrite Pos2Z.inj_pow in H2.
  split; [|exact H2].
  replace (Zpos (Pos.size p)) with (Z.succ (Zpos (Pos.size p) - 1)) in H1 by lia.
  rewrite Z.pow_succ_r in H1 by lia. lia.
Qed.


Lemma fexp_normal (x : Z) : -1021 <= x -> fexp prec emax x = x - prec.
Proof. intros H. unfold fexp, emin, prec, emax. lia. Qed.

Lemma Zdigits2_pos (p : positive) : Zdigits2 (Zpos p) = Zpos (Pos.size p).
Proof. simpl. now rewrite digits2_pos_size. Qed.

Lemma size_iter_xO (p k : positive) : Pos.size (Pos.iter xO p k) = (Pos.size p + k)%positive.
Proof.
  induction k as [|k IH] using Pos.peano_ind.
  - simpl. lia.
  - rewrite Pos.iter_succ. simpl. rewrite IH. lia.
Qed.

(** No rounding happens when the mantissa already sits at the exponent
    [fexp] asks for. *)
Lemma round_aux_exact (s : bool) (m : positive) (e : Z) :
  fexp prec emax (Zdigits2 (Zpos m) + e) = e -> e <= emax - prec ->
  binary_round_aux prec emax s (Zpos m) e loc_Exact = S754_finite s m e.
Proof.
  intros Hf He. unfold binary_round_aux, shr_fexp.
  rewrite Hf, Z.sub_diag. cbn [shr shr_record_of_loc loc_of_shr_record round_nearest_even shr_m]. rewrite Hf, Z.sub_diag. cbn [shr shr_m].
  apply Z.leb_le in He. now rewrite He.
Qed.

Lemma round_int_small (s : bool) (p : positive) :
  Zpos (Pos.size p) <= prec ->
  exists m, binary_round prec emax s p 0 = S754_finite s m (Zpos (Pos.size p) - prec)
         /\ Zpos m = Zpos p * 2 ^ (prec - Zpos (Pos.size p)).
Proof.
  intros Hd. unfold binary_round. rewrite digits2_pos_size, Z.add_0_r.
  pose proof (Pos2Z.is_pos (Pos.size p)) as Hpos.
  rewrite fexp_normal by (unfold prec in *; lia).
  unfold shl_align. destruct (Zpos (Pos.size p) - prec - 0) as [|k|k] eqn:Hk.
  - exists p. rewrite round_aux_exact; unfold prec, emax in *.
    + split; [f_equal; lia | ]. replace (53 - Zpos (Pos.size p)) with 0 by lia. lia.
    + rewrite Zdigits2_pos, fexp_normal; unfold prec; lia.
    + lia.
  - unfold prec in *. lia.
  - exists (Pos.iter xO p k). rewrite round_aux_exact.
    + split; [f_equal; lia|]. rewrite pos_iter_xO. f_equal. f_equal. lia.
    + rewrite Zdigits2_pos, size_iter_xO, fexp_normal; unfold prec in *; lia.
    + unfold prec, emax in *. lia.
Qed.

Lemma pow2_le_pos (p : positive) (k : Z) : k <= Zpos (Pos.size p) - 1 -> 2 ^ k <= Zpos p.
Proof.
  intros Hk. destruct (Z.neg_nonneg_cases k) as [Hn|Hn].
  - rewrite Z.pow_neg_r by exact Hn. lia.
  - pose proof (size_bounds p) as [Hlo _].
    eapply Z.le_trans; [apply Z.pow_le_mono_r; [lia | exact Hk] | exact Hlo].
Qed.

Lemma round_int_large (s : bool) (p : positive) :
  prec < Zpos (Pos.size p) ->
  exists m e, Zpos (Pos.size p) - prec <= e /\
    binary_round prec emax s p 0 =
    if e <=? emax - prec then S754_finite s m e else S754_infinity s.
Proof.
  intros Hd.
  assert (Hf : fexp prec emax (Zpos (digits2_pos p) + 0) = Zpos (Pos.size p) - prec)
    by (rewrite digits2_pos_size, Z.add_0_r, fexp_normal; unfold prec in *; lia).
  unfold binary_round. rewrite Hf.
  unfold shl_align. destruct (Zpos (Pos.size p) - prec - 0) as [|k|k] eqn:Hk; try lia.
  unfold binary_round_aux, shr_fexp.
  assert (Hf1 : fexp prec emax (Zdigits2 (Zpos p) + 0) - 0 = Zpos (Pos.size p) - prec)
    by (rewrite Zdigits2_pos, Z.add_0_r, fexp_normal; unfold prec in *; lia).
  rewrite Hf1.
  destruct (shr (shr_record_of_loc (Zpos p) loc_Exact) 0 (Zpos (Pos.size p) - prec)) as [r1 e1] eqn:H1.
  destruct (shr_spec (shr_record_of_loc (Zpos p) loc_Exact) 0 (Zpos (Pos.size p) - prec)) as [Hm1 He1];
    [simpl; lia|]. rewrite H1 in Hm1, He1. cbn [fst snd shr_m shr_record_of_loc] in Hm1, He1.
  assert (Hmx : Z.max 0 (Zpos (Pos.size p) - prec) = Zpos (Pos.size p) - prec) by (unfold prec in *; lia).
  rewrite Hmx in Hm1, He1.
  assert (Hpos1 : 0 < shr_m r1).
  { rewrite Hm1. apply Z.div_str_pos. split; [apply Z.pow_pos_nonneg; unfold prec in *; lia|].
    apply pow2_le_pos. unfold prec in *. lia. }
  pose proof (round_nearest_even_bounds (shr_m r1) (loc_of_shr_record r1)) as Hb.
  destruct (round_nearest_even (shr_m r1) (loc_of_shr_record r1)) as [|q|q] eqn:Hq; try lia.
  rewrite Zdigits2_pos.
  destruct (shr_spec (shr_record_of_loc (Zpos q) loc_Exact) e1
              (fexp prec emax (Zpos (Pos.size q) + e1) - e1)) as [Hm3 He3]; [simpl; lia|].
  destruct (shr (shr_record_of_loc (Zpos q) loc_Exact) e1
              (fexp prec emax (Zpos (Pos.size q) + e1) - e1)) as [r2 e2] eqn:H2.
  cbn [fst snd shr_m shr_record_of_loc] in Hm3, He3.
  assert (Hf2 : fexp prec emax (Zpos (Pos.size q) + e1) - e1 = Zpos (Pos.size q) - prec)
    by (rewrite fexp_normal; unfold prec in *; lia).
  rewrite Hf2 in Hm3, He3.
  assert (Hpos2 : 0 < shr_m r2).
  { rewrite Hm3. apply Z.div_str_pos. split; [apply Z.pow_pos_nonneg; lia|].
    apply pow2_le_pos. unfold prec in *. lia. }
  destruct (shr_m r2) as [|m|m]; try lia.
  exists m, e2. split; [lia | reflexivity].
Qed.

(** ** Conversion of integers *)

Lemma size_lt_of_pow (p : positive) (k : Z) :
  0 <= k -> 2 ^ k <= Zpos p -> k < Zpos (Pos.size p).
Proof.
  intros Hk Hle. pose proof (size_bounds p) as [_ Hhi].
  apply (Z.pow_lt_mono_r_iff 2); lia.
Qed.

Lemma size_le_of_pow (p : positive) (k : Z) :
  0 <= k -> Zpos p < 2 ^ k -> Zpos (Pos.size p) <= k.
Proof.
  intros Hk Hlt. pose proof (size_bounds p) as [Hlo _].
  assert (Zpos (Pos.size p) - 1 < k) by (apply (Z.pow_lt_mono_r_iff 2); lia). lia.
Qed.

(** [binary_round] does not shift left a mantissa that already has at
    least as many bits as the target exponent asks for. *)
Lemma binary_round_wide_at (s : bool) (p : positive) (e : Z) :
  e <= fexp prec emax (Zpos (Pos.size p) + e) ->
  binary_round prec emax s p e = binary_round_aux prec emax s (Zpos p) e loc_Exact.
Proof.
  intros H. unfold binary_round, shl_align. rewrite digits2_pos_size.
  destruct (fexp prec emax (Zpos (Pos.size p) + e) - e) eqn:E; [reflexivity | reflexivity | lia].
Qed.

Lemma binary_round_wide (s : bool) (p : positive) :
  prec <= Zpos (Pos.size p) -> binary_round prec emax s p 0 = binary_round_aux prec emax s (Zpos p) 0 loc_Exact.
Proof. intros H. apply binary_round_wide_at. rewrite Z.add_0_r, fexp_normal; unfold prec in *; lia. Qed.

(** The round bit of a right shift by [k] bits is bit [k - 1] of the
    mantissa, and an odd mantissa rounds up exactly when that bit is set. *)
Lemma shr_r_one (r : shr_record) : 0 <= shr_m r -> shr_r (shr_1 r) = Z.odd (shr_m r).
Proof. destruct r as [m rr ss]; simpl. intros Hm. destruct m as [|[p|p|]|p]; reflexivity || lia. Qed.

Lemma shr_r_iter (r : shr_record) (k : positive) :
  0 <= shr_m r -> shr_r (Pos.iter shr_1 r k) = Z.odd (shr_m r / 2 ^ (Zpos k - 1)).
Proof.
  intros Hm. destruct (Pos.succ_pred_or k) as [->|Hk].
  - simpl. rewrite Z.div_1_r. now apply shr_r_one.
  - rewrite <- Hk, Pos.iter_succ, shr_r_one, shr_m_iter by (rewrite ?shr_m_iter; try apply Z.div_pos; lia).
    f_equal. f_equal. f_equal. lia.
Qed.

Lemma round_odd (m : Z) (r : shr_record) : Z.odd m = true ->
  round_nearest_even m (loc_of_shr_record r) = m + (if shr_r r then 1 else 0).
Proof.
  intros Ho. destruct r as [mm [] []]; cbn; try lia.
  rewrite <- Z.negb_odd, Ho. reflexivity.
Qed.

Lemma div_size_bounds (p : positive) (k : Z) : 0 <= k <= Zpos (Pos.size p) - 1 ->
  2 ^ (Zpos (Pos.size p) - 1 - k) <= Zpos p / 2 ^ k < 2 ^ (Zpos (Pos.size p) - k).
Proof.
  intros Hk. pose proof (size_bounds p) as [Hlo Hhi].
  assert (E1 : 2 ^ (Zpos (Pos.size p) - 1) = 2 ^ (Zpos (Pos.size p) - 1 - k) * 2 ^ k)
    by (rewrite <- Z.pow_add_r by lia; f_equal; lia).
  assert (E2 : 2 ^ Zpos (Pos.size p) = 2 ^ (Zpos (Pos.size p) - k) * 2 ^ k)
    by (rewrite <- Z.pow_add_r by lia; f_equal; lia).
  pose proof (Z.pow_pos_nonneg 2 k ltac:(lia) ltac:(lia)).
  split; [apply Z.div_le_lower_bound | apply Z.div_lt_upper_bound]; lia.
Qed.

(** [binary_round] of an integer of more than 53 bits, made precise: the
    first shift keeps the top 53 bits [p / 2^K], rounding adds at most
    one (exactly the round bit when they are odd), and the result's
    exponent is [K], or [K + 1] when rounding carried into a 54th bit. *)
Lemma round_int_large_spec (s : bool) (p : positive) :
  prec < Zpos (Pos.size p) ->
  exists q : positive,
    Zpos p / 2 ^ (Zpos (Pos.size p) - prec) <= Zpos q <= Zpos p / 2 ^ (Zpos (Pos.size p) - prec) + 1 /\
    (Z.odd (Zpos p / 2 ^ (Zpos (Pos.size p) - prec)) = true ->
     Zpos q = Zpos p / 2 ^ (Zpos (Pos.size p) - prec)
              + (if Z.odd (Zpos p / 2 ^ (Zpos (Pos.size p) - prec - 1)) then 1 else 0)) /\
    exists m, binary_round prec emax s p 0 =
      if Zpos (Pos.size p) + Zpos (Pos.size q) - 2 * prec <=? emax - prec
      then S754_finite s m (Zpos (Pos.size p) + Zpos (Pos.size q) - 2 * prec) else S754_infinity s.
Proof.
  intros Hd. pose proof (div_size_bounds p (Zpos (Pos.size p) - prec)) as Hm1.
  replace (Zpos (Pos.size p) - 1 - (Zpos (Pos.size p) - prec)) with 52 in Hm1 by (unfold prec; lia).
  replace (Zpos (Pos.size p) - (Zpos (Pos.size p) - prec)) with 53 in Hm1 by (unfold prec; lia).
  specialize (Hm1 ltac:(unfold prec in *; lia)).
  rewrite binary_round_wide by lia. unfold binary_round_aux, shr_fexp.
  rewrite Zdigits2_pos, Z.add_0_r, fexp_normal, Z.sub_0_r by (unfold prec in *; lia).
  destruct (Zpos (Pos.size p) - prec) as [|k0|k0] eqn:HK; [unfold prec in *; lia | | unfold prec in *; lia].
  cbn [shr shr_record_of_loc]. rewrite iter_pos_iter.
  set (r1 := Pos.iter shr_1 {| shr_m := Zpos p; shr_r := false; shr_s := false |} k0).
  assert (Hr1m : shr_m r1 = Zpos p / 2 ^ Zpos k0) by (unfold r1; rewrite shr_m_iter by (simpl; lia); reflexivity).
  assert (Hr1r : shr_r r1 = Z.odd (Zpos p / 2 ^ (Zpos k0 - 1))) by (unfold r1; rewrite shr_r_iter by (simpl; lia); reflexivity).
  pose proof (round_nearest_even_bounds (shr_m r1) (loc_of_shr_record r1)) as Hb.
  assert (Hodd : Z.odd (shr_m r1) = true ->
    round_nearest_even (shr_m r1) (loc_of_shr_record r1) = shr_m r1 + (if shr_r r1 then 1 else 0))
    by (intros Ho; apply round_odd; exact Ho).
  destruct (round_nearest_even (shr_m r1) (loc_of_shr_record r1)) as [|q|q] eqn:Hq; try lia.
  exists q. rewrite <- Hr1m, <- Hr1r. split; [lia|]. split; [exact Hodd|].
  assert (Hsq : 52 < Zpos (Pos.size q)) by (apply size_lt_of_pow; lia).
  rewrite Zdigits2_pos, fexp_normal by lia.
  destruct (shr_spec {| shr_m := Zpos q; shr_r := false; shr_s := false |} (0 + Zpos k0)
              (Zpos (Pos.size q) + (0 + Zpos k0) - prec - (0 + Zpos k0))) as [Hm3 He3]; [simpl; lia|].
  destruct (shr {| shr_m := Zpos q; shr_r := false; shr_s := false |} (0 + Zpos k0)
              (Zpos (Pos.size q) + (0 + Zpos k0) - prec - (0 + Zpos k0))) as [r2 e2] eqn:H2.
  cbn [fst snd shr_m] in Hm3, He3.
  assert (Hpos2 : 0 < shr_m r2).
  { rewrite Hm3. apply Z.div_str_pos. split; [apply Z.pow_pos_nonneg; lia|].
    apply pow2_le_pos. unfold prec in *. lia. }
  destruct (shr_m r2) as [|m|m]; try lia.
  exists m. replace e2 with (Zpos (Pos.size p) + Zpos (Pos.size q) - 2 * prec) by (unfold prec in *; lia).
  reflexivity.
Qed.

Lemma of_Z_pos_neg (n : Z) :
  of_Z n = match n with
           | Z0 => S754_zero false
           | Zpos p => binary_round prec emax false p 0
           | Zneg p => binary_round prec emax true p 0
           end.
Proof. now destruct n. Qed.

(** A nonzero integer never converts to a zero. *)
Lemma of_Z_zero_iff (n : Z) : is_zero (of_Z n) = true <-> n = 0.
Proof.
  rewrite of_Z_pos_neg. destruct n as [|p|p]; [simpl; tauto| |];
  match goal with |- context [binary_round _ _ ?s p 0] =>
    destruct (Z_le_gt_dec (Zpos (Pos.size p)) prec) as [Hs|Hl];
    [ destruct (round_int_small s p Hs) as (m & -> & _)
    | destruct (round_int_large s p (Z.gt_lt _ _ Hl)) as (m & e & _ & ->);
      destruct (e <=? emax - prec) ]
  end; simpl; split; congruence.
Qed.

(** An integer of magnitude at least [2^1024] rounds to the infinity of
    its sign. *)
Lemma of_Z_infinity (n : Z) : 2 ^ 1024 <= Z.abs n -> of_Z n = S754_infinity (n <? 0).
Proof.
  intros Hn. rewrite of_Z_pos_neg.
  destruct n as [|p|p]; [simpl in Hn; lia| |];
  (assert (Hs : 1024 < Zpos (Pos.size p)) by (apply size_lt_of_pow; simpl in Hn; lia);
   match goal with |- context [binary_round _ _ ?s p 0] =>
     destruct (round_int_large s p) as (m & e & He & ->); [unfold prec; lia|] end;
   replace (e <=? emax - prec) with false by (symmetry; apply Z.leb_gt; unfold prec, emax in *; lia);
   reflexivity).
Qed.

(** [PyLong_AsDouble] then raises [OverflowError]. *)
Lemma of_Z_overflow (n : Z) : 2 ^ 1024 <= Z.abs n -> is_inf (of_Z n) = true.
Proof. intros Hn. now rewrite of_Z_infinity. Qed.

(** The overflow threshold of the conversion, exactly: the largest
    double is [(2^53 - 1) * 2^971 = 2^1024 - 2^971], and an integer
    rounds to infinity from the midpoint [2^1024 - 2^970] up (the tie
    goes to the even [2^1024]). *)
Lemma binary_round_inf_iff (s : bool) (p : positive) :
  is_inf (binary_round prec emax s p 0) = true <-> 2 ^ 1024 - 2 ^ 970 <= Zpos p.
Proof.
  pose proof (size_bounds p) as [Hlo Hhi].
  destruct (Z_le_gt_dec (Zpos (Pos.size p)) prec) as [Hs|Hl].
  { destruct (round_int_small s p Hs) as (m & -> & _). cbn. split; [discriminate|].
    assert (2 ^ Zpos (Pos.size p) <= 2 ^ 53) by (apply Z.pow_le_mono_r; unfold prec in *; lia). lia. }
  destruct (round_int_large_spec s p ltac:(lia)) as (q & Hq & Hodd & m & ->).
  set (m1 := Zpos p / 2 ^ (Zpos (Pos.size p) - prec)) in *.
  pose proof (div_size_bounds p (Zpos (Pos.size p) - prec) ltac:(unfold prec in *; lia)) as Hm1.
  replace (Zpos (Pos.size p) - 1 - (Zpos (Pos.size p) - prec)) with 52 in Hm1 by (unfold prec; lia).
  replace (Zpos (Pos.size p) - (Zpos (Pos.size p) - prec)) with 53 in Hm1 by (unfold prec; lia).
  assert (Hsq : 52 < Zpos (Pos.size q)) by (apply size_lt_of_pow; lia).
  assert (Hsq' : Zpos (Pos.size q) <= 54) by (apply size_le_of_pow; lia).
  assert (Hq53 : Zpos (Pos.size q) = 54 <-> Zpos q = 2 ^ 53).
  { split; intros H; [|apply (f_equal Z.to_pos) in H; simpl in H; subst q; reflexivity].
    pose proof (size_bounds q) as [Hq1 _]. rewrite H in Hq1. lia. }
  unfold emax, prec in *.
  destruct (Z.lt_total (Zpos (Pos.size p)) 1024) as [Hp|[Hp|Hp]].
  - replace (_ <=? _) with true by (symmetry; apply Z.leb_le; lia). cbn. split; [discriminate|].
    assert (2 ^ Zpos (Pos.size p) <= 2 ^ 1023) by (apply Z.pow_le_mono_r; lia). lia.
  - unfold m1 in *; clear m1. rewrite Hp in *.
    change (1024 - 53) with 971 in *. change (971 - 1) with 970 in *.
    set (t := Zpos p / 2 ^ 970) in *.
    assert (Et : Zpos p / 2 ^ 971 = t / 2) by (unfold t; rewrite Z.div_div by lia; reflexivity).
    rewrite Et in *. set (m1 := t / 2) in *.
    pose proof (Z.div_mod (Zpos p) (2 ^ 970) ltac:(lia)) as Ep.
    pose proof (Z.mod_pos_bound (Zpos p) (2 ^ 970) ltac:(lia)) as Er.
    pose proof (Z.div_mod t 2 ltac:(lia)) as Et2. pose proof (Z.mod_pos_bound t 2 ltac:(lia)) as Et3.
    fold t in Ep.
    destruct (Z.eq_dec (Zpos q) (2 ^ 53)) as [Hq2|Hq2].
    + replace (Zpos (Pos.size q)) with 54 by (symmetry; apply Hq53; exact Hq2).
      replace (_ <=? _) with false by reflexivity. split; [intros _ | reflexivity].
      specialize (Hodd ltac:(replace m1 with (2 ^ 53 - 1) by lia; reflexivity)).
      destruct (Z.odd t) eqn:Ho; [|lia]. rewrite Zodd_mod in Ho. apply Z.eqb_eq in Ho. lia.
    + replace (Zpos (Pos.size q)) with 53 by (assert (Zpos (Pos.size q) <> 54) by (rewrite Hq53; exact Hq2); lia).
      replace (_ <=? _) with true by reflexivity. split; [discriminate | intros Hp'; exfalso].
      assert (Ht : t = 2 ^ 54 - 1) by lia. assert (Hm : m1 = 2 ^ 53 - 1) by lia.
      specialize (Hodd ltac:(rewrite Hm; reflexivity)). rewrite Ht in Hodd. cbn in Hodd. lia.
  - replace (_ <=? _) with false by (symmetry; apply Z.leb_gt; lia). cbn. split; [|reflexivity].
    intros _. assert (2 ^ 1024 <= 2 ^ (Zpos (Pos.size p) - 1)) by (apply Z.pow_le_mono_r; lia). lia.
Qed.

Lemma of_Z_inf_iff (n : Z) : is_inf (of_Z n) = true <-> 2 ^ 1024 - 2 ^ 970 <= Z.abs n.
Proof.
  rewrite of_Z_pos_neg. destruct n as [|p|p]; [cbn; split; [discriminate | lia] | |];
    apply binary_round_inf_iff.
Qed.

Lemma round_int_small_value (s : bool) (p : positive) :
  Zpos (Pos.size p) <= prec ->
  int_value (binary_round prec emax s p 0) = Some (cond_Zopp s (Zpos p)).
Proof.
  intros Hs. destruct (round_int_small s p Hs) as (m & -> & Hm). cbn [int_value].
  pose proof (Pos2Z.is_pos (Pos.size p)) as Hpos.
  assert (Hk : 0 <= prec - Zpos (Pos.size p)) by lia.
  assert (Hnz : 2 ^ (prec - Zpos (Pos.size p)) <> 0) by (apply Z.pow_nonzero; lia).
  destruct (Z.leb_spec 0 (Zpos (Pos.size p) - prec)) as [H0|H0].
  - assert (Hd : Zpos (Pos.size p) = prec) by lia.
    rewrite Hd, Z.sub_diag, Z.pow_0_r, Z.mul_1_r in *. injection Hm as ->.
    destruct s; reflexivity.
  - replace (- (Zpos (Pos.size p) - prec)) with (prec - Zpos (Pos.size p)) by lia.
    rewrite Hm, Z.mod_mul by exact Hnz. rewrite Z.eqb_refl. f_equal.
    destruct s; cbn [cond_Zopp].
    + rewrite <- Z.mul_opp_l, Z.div_mul by exact Hnz. reflexivity.
    + rewrite Z.div_mul by exact Hnz. reflexivity.
Qed.

(** ** Exact arithmetic on integer-valued doubles

    An integer below [2^53] is a double [S754_finite s m e] whose mantissa
    [m] has exactly 53 bits ([of_Z_shape]).  When the exact sum,
    difference, product or quotient of two such integers is again an
    integer below [2^53], [binary_round_aux] only shifts out zero bits
    ([round_aux_scaled]) and the operation returns the conversion of the
    exact integer result. *)


Lemma shr_1_even (q : Z) : 0 <= q ->
  shr_1 (Build_shr_record (2 * q) false false) = Build_shr_record q false false.
Proof. intros Hq. destruct q as [|p|p]; [reflexivity|reflexivity|lia]. Qed.

Lemma shr_exact (m : Z) (k : positive) (e : Z) : 0 <= m ->
  shr (Build_shr_record (m * 2 ^ Zpos k) false false) e (Zpos k) =
  (Build_shr_record m false false, e + Zpos k).
Proof.
  intros Hm. unfold shr. rewrite iter_pos_iter. f_equal.
  revert m Hm. induction k as [|k IH] using Pos.peano_ind; intros m Hm.
  - simpl. rewrite Z.mul_comm. apply shr_1_even. exact Hm.
  - rewrite Pos.iter_succ_r, Pos2Z.inj_succ, Z.pow_succ_r by lia.
    replace (m * (2 * 2 ^ Zpos k)) with (2 * (m * 2 ^ Zpos k)) by ring.
    rewrite shr_1_even by (apply Z.mul_nonneg_nonneg; lia).
    apply IH. exact Hm.
Qed.

Lemma Zdigits2_scaled (p : positive) (k : Z) : 0 <= k ->
  exists q, Zpos p * 2 ^ k = Zpos q /\ Zdigits2 (Zpos q) = Zpos (Pos.size p) + k.
Proof.
  intros Hk. destruct k as [|k|k]; [| | lia].
  - exists p. rewrite Z.mul_1_r, Zdigits2_pos. split; [reflexivity | lia].
  - exists (Pos.iter xO p k). rewrite Zdigits2_pos, size_iter_xO, pos_iter_xO. split; [reflexivity | lia].
Qed.

Lemma Zdigits2_mul_pow (p q : positive) (k : Z) : 0 <= k -> Zpos q = Zpos p * 2 ^ k ->
  Zdigits2 (Zpos q) = Zpos (Pos.size p) + k.
Proof.
  intros Hk Hq. destruct (Zdigits2_scaled p k Hk) as (q' & Hq' & Hd).
  rewrite <- Hq in Hq'. injection Hq' as ->. exact Hd.
Qed.

(** Shifting out [k] zero bits and then [d] more is shifting [d] bits
    out of the mantissa without its zeros. *)
Lemma shr_split (m : Z) (k d : positive) (e : Z) : 0 <= m ->
  shr (Build_shr_record (m * 2 ^ Zpos k) false false) e (Zpos k + Zpos d) =
  shr (Build_shr_record m false false) (e + Zpos k) (Zpos d).
Proof.
  intros Hm.
  assert (H : Pos.iter shr_1 (Build_shr_record (m * 2 ^ Zpos k) false false) k = Build_shr_record m false false)
    by (pose proof (shr_exact m k e Hm) as H; unfold shr in H; rewrite iter_pos_iter in H; congruence).
  unfold shr. change (Zpos k + Zpos d) with (Zpos (k + d)).
  rewrite !iter_pos_iter, (Pos.add_comm k d), Pos.iter_add, H. f_equal. lia.
Qed.

(** [binary_round_aux] does not see [k] trailing zero bits of an exact
    mantissa when it shifts at least as far as the mantissa without them:
    both representations round to the same float. *)
Lemma round_aux_rescale (s : bool) (p : positive) (k e : Z) :
  0 <= k -> e <= fexp prec emax (Zpos (Pos.size p) + e) ->
  binary_round_aux prec emax s (Zpos p * 2 ^ k) (e - k) loc_Exact =
  binary_round_aux prec emax s (Zpos p) e loc_Exact.
Proof.
  intros Hk He. destruct (Zdigits2_scaled p k Hk) as (q & Hq & Hdq).
  assert (Hs : shr_fexp prec emax (Zpos p * 2 ^ k) (e - k) loc_Exact =
               shr_fexp prec emax (Zpos p) e loc_Exact).
  { unfold shr_fexp. rewrite Hq, Hdq, Zdigits2_pos, <- Hq.
    replace (Zpos (Pos.size p) + k + (e - k)) with (Zpos (Pos.size p) + e) by lia.
    set (F := fexp prec emax (Zpos (Pos.size p) + e)) in *. cbn [shr_record_of_loc].
    destruct k as [|k|k]; [rewrite Z.pow_0_r, Z.mul_1_r, Z.sub_0_r; reflexivity | | lia].
    destruct (F - e) as [|d|d] eqn:Hd; [| | lia].
    - replace (F - (e - Zpos k)) with (Zpos k) by lia.
      rewrite shr_exact by lia. cbn [shr]. f_equal. lia.
    - replace (F - (e - Zpos k)) with (Zpos k + Zpos d) by lia.
      rewrite shr_split by lia. f_equal. lia. }
  unfold binary_round_aux. rewrite Hs. reflexivity.
Qed.

(** A mantissa that is an exact power-of-two multiple of a 53-bit-or-less
    integer [p], at the matching exponent, rounds to the float of [p]. *)
Lemma round_aux_scaled_small (s : bool) (p q : positive) (k : Z) :
  Zpos (Pos.size p) <= prec -> prec <= Zpos (Pos.size p) + k -> Zpos q = Zpos p * 2 ^ k ->
  binary_round_aux prec emax s (Zpos q) (- k) loc_Exact = binary_round prec emax s p 0.
Proof.
  intros Hd Hk Hq.
  destruct (round_int_small s p Hd) as (m & Hr & Hm). rewrite Hr.
  pose proof (Pos2Z.is_pos (Pos.size p)) as Hpos.
  assert (Hdq : Zdigits2 (Zpos q) = Zpos (Pos.size p) + k) by (apply (Zdigits2_mul_pow p); [lia | exact Hq]).
  assert (Hdm : Zdigits2 (Zpos m) = prec) by (rewrite (Zdigits2_mul_pow p m (prec - Zpos (Pos.size p))); [lia|lia|exact Hm]).
  assert (Hfm : fexp prec emax (Zdigits2 (Zpos m) + (Zpos (Pos.size p) - prec)) = Zpos (Pos.size p) - prec)
    by (rewrite Hdm, fexp_normal; unfold prec in *; lia).
  rewrite <- round_aux_exact by (exact Hfm || (unfold prec, emax in *; lia)).
  assert (Hs : shr_fexp prec emax (Zpos q) (- k) loc_Exact =
               shr_fexp prec emax (Zpos m) (Zpos (Pos.size p) - prec) loc_Exact).
  { unfold shr_fexp. rewrite Hdq, Hfm, Z.sub_diag.
    replace (Zpos (Pos.size p) + k + - k) with (Zpos (Pos.size p)) by lia.
    rewrite fexp_normal by (unfold prec in *; lia).
    simpl shr_record_of_loc.
    destruct (Zpos (Pos.size p) - prec - - k) as [|n|n] eqn:Hn; [| | lia].
    - replace k with (prec - Zpos (Pos.size p)) in Hq by lia. rewrite <- Hm in Hq.
      injection Hq as ->. cbn [shr]. f_equal. lia.
    - assert (Hqm : Zpos q = Zpos m * 2 ^ Zpos n).
      { rewrite Hq, Hm, <- Z.mul_assoc, <- Z.pow_add_r by lia. f_equal. f_equal. lia. }
      rewrite Hqm, (shr_exact (Zpos m) n (- k)) by lia.
      cbn [shr]. f_equal. lia. }
  unfold binary_round_aux. rewrite Hs. reflexivity.
Qed.

(** The same for any [p]: one rounding of the exact value, whatever the
    scaling of its mantissa, provided the mantissa has at least 53 bits. *)
Lemma round_aux_scaled (s : bool) (p q : positive) (k : Z) :
  prec <= Zpos (Pos.size p) + k -> Zpos q = Zpos p * 2 ^ k ->
  binary_round_aux prec emax s (Zpos q) (- k) loc_Exact = binary_round prec emax s p 0.
Proof.
  intros Hk Hq. destruct (Z_le_gt_dec (Zpos (Pos.size p)) prec) as [Hd|Hd];
    [apply round_aux_scaled_small; assumption|].
  assert (Hk0 : 0 <= k) by (destruct (Z.neg_nonneg_cases k) as [Hn|Hn];
    [rewrite Z.pow_neg_r in Hq by exact Hn; lia | exact Hn]).
  rewrite Hq, binary_round_wide by lia. replace (- k) with (0 - k) by lia.
  apply round_aux_rescale; [exact Hk0|]. rewrite fexp_normal; unfold prec in *; lia.
Qed.

Lemma binary_round_scaled_small (s : bool) (p q : positive) (k : Z) :
  Zpos (Pos.size p) <= prec -> 0 <= k -> Zpos q = Zpos p * 2 ^ k ->
  binary_round prec emax s q (- k) = binary_round prec emax s p 0.
Proof.
  intros Hd Hk Hq. pose proof (Pos2Z.is_pos (Pos.size p)) as Hpos.
  unfold binary_round at 1.
  assert (Hdq : Zpos (digits2_pos q) = Zpos (Pos.size p) + k)
    by (rewrite <- (Zdigits2_mul_pow p q k Hk Hq); reflexivity).
  rewrite Hdq. replace (Zpos (Pos.size p) + k + - k) with (Zpos (Pos.size p)) by lia.
  rewrite fexp_normal by (unfold prec in *; lia).
  unfold shl_align. destruct (Zpos (Pos.size p) - prec - - k) as [|n|n] eqn:Hn.
  - apply round_aux_scaled_small; [exact Hd | lia | exact Hq].
  - apply round_aux_scaled_small; [exact Hd | lia | exact Hq].
  - replace (Zpos (Pos.size p) - prec) with (- (prec - Zpos (Pos.size p))) by lia.
    apply round_aux_scaled_small; [exact Hd | lia |].
    rewrite pos_iter_xO, Hq, <- Z.mul_assoc, <- Z.pow_add_r by lia. f_equal. f_equal. lia.
Qed.

(** Rounding [p * 2^k] at exponent [-k] is rounding [p]: the float of
    the exact value does not depend on how it is scaled. *)
Lemma binary_round_scaled (s : bool) (p q : positive) (k : Z) :
  0 <= k -> Zpos q = Zpos p * 2 ^ k ->
  binary_round prec emax s q (- k) = binary_round prec emax s p 0.
Proof.
  intros Hk Hq. destruct (Z_le_gt_dec (Zpos (Pos.size p)) prec) as [Hd|Hd];
    [apply binary_round_scaled_small; assumption|].
  rewrite binary_round_wide_at.
  - apply round_aux_scaled; [lia | exact Hq].
  - rewrite (Zdigits2_mul_pow p q k Hk Hq) at 1 by exact Hq.
    rewrite fexp_normal; unfold prec in *; lia.
Qed.

Lemma binary_normalize_scaled (n k : Z) (sz : bool) :
  n <> 0 -> 0 <= k ->
  binary_normalize prec emax (n * 2 ^ k) (- k) sz = of_Z n.
Proof.
  intros Hn Hk. rewrite of_Z_pos_neg.
  destruct n as [|p|p]; [congruence| |]; destruct (Zdigits2_scaled p k Hk) as (q & Hq & _).
  - rewrite Hq. apply binary_round_scaled; auto.
  - replace (Zneg p * 2 ^ k) with (Zneg q) by (change (Zneg p) with (- Zpos p); rewrite Z.mul_opp_l, Hq; reflexivity).
    apply binary_round_scaled; auto.
Qed.

(** The canonical float of a nonzero integer below [2^53]. *)
Lemma of_Z_shape (n : Z) : n <> 0 -> Z.abs n < 2 ^ 53 ->
  exists m e, of_Z n = S754_finite (n <? 0) m e /\ Zpos m = Z.abs n * 2 ^ (- e)
    /\ -53 < e <= 0 /\ Zdigits2 (Zpos m) = prec
    /\ e = Zpos (Pos.size (Z.to_pos (Z.abs n))) - prec.
Proof.
  intros Hn Hb. rewrite of_Z_pos_neg.
  destruct n as [|p|p]; [congruence| |];
    (assert (Hs : Zpos (Pos.size p) <= prec) by (apply size_le_of_pow; simpl in Hb; unfold prec; lia);
     pose proof (Pos2Z.is_pos (Pos.size p));
     match goal with |- context [binary_round _ _ ?s p 0] =>
       destruct (round_int_small s p Hs) as (m & -> & Hm) end;
     exists m, (Zpos (Pos.size p) - prec); split; [reflexivity|];
     split; [replace (- (Zpos (Pos.size p) - prec)) with (prec - Zpos (Pos.size p)) by lia; rewrite Hm; reflexivity|];
     split; [unfold prec in *; lia|];
     split; [rewrite (Zdigits2_mul_pow p m (prec - Zpos (Pos.size p))); [lia|lia|exact Hm]|];
     reflexivity).
Qed.

Lemma aligned_value (n : Z) (m : positive) (e ez : Z) :
  Zpos m = Z.abs n * 2 ^ (- e) -> ez <= e -> e <= 0 ->
  cond_Zopp (n <? 0) (Zpos (fst (shl_align m e ez))) = n * 2 ^ (- ez).
Proof.
  intros Hm Hez He.
  assert (Hf : Zpos (fst (shl_align m e ez)) = Zpos m * 2 ^ (e - ez)).
  { unfold shl_align. destruct (ez - e) as [|d|d] eqn:Hd; simpl fst.
    - replace (e - ez) with 0 by lia. lia.
    - lia.
    - rewrite pos_iter_xO. f_equal. f_equal. lia. }
  rewrite Hf, Hm, <- Z.mul_assoc, <- Z.pow_add_r by lia.
  replace (- e + (e - ez)) with (- ez) by lia.
  destruct n as [|p|p]; cbv [cond_Zopp Z.ltb Z.compare Z.abs]; lia.
Qed.

Lemma normalize_sum (n ez : Z) :
  ez <= 0 -> binary_normalize prec emax (n * 2 ^ (- ez)) ez false = of_Z n.
Proof.
  intros Hez. destruct (Z.eq_dec n 0) as [->|Hn]; [reflexivity|].
  replace ez with (- - ez) at 2 by lia. apply binary_normalize_scaled; lia.
Qed.

Lemma fadd_of_Z (a b : Z) :
  Z.abs a < 2 ^ 53 -> Z.abs b < 2 ^ 53 ->
  fadd (of_Z a) (of_Z b) = of_Z (a + b).
Proof.
  intros Ha Hb. unfold fadd.
  destruct (Z.eq_dec a 0) as [->|Ha0]; destruct (Z.eq_dec b 0) as [->|Hb0]; [reflexivity| | |].
  - destruct (of_Z_shape b Hb0 Hb) as (mb & eb & Hob & _). simpl Z.add. now rewrite Hob.
  - destruct (of_Z_shape a Ha0 Ha) as (ma & ea & Hoa & _). rewrite Z.add_0_r. now rewrite Hoa.
  - destruct (of_Z_shape a Ha0 Ha) as (ma & ea & Hoa & Hma & Hea & _).
    destruct (of_Z_shape b Hb0 Hb) as (mb & eb & Hob & Hmb & Heb & _).
    rewrite Hoa, Hob. cbn [SFadd].
    rewrite (aligned_value a ma ea), (aligned_value b mb eb) by lia.
    rewrite <- Z.mul_add_distr_r. apply normalize_sum; lia.
Qed.

Lemma fsub_of_Z (a b : Z) :
  Z.abs a < 2 ^ 53 -> Z.abs b < 2 ^ 53 ->
  fsub (of_Z a) (of_Z b) = of_Z (a - b).
Proof.
  intros Ha Hb. unfold fsub.
  destruct (Z.eq_dec a 0) as [->|Ha0]; destruct (Z.eq_dec b 0) as [->|Hb0]; [reflexivity| | |].
  - destruct (of_Z_shape b Hb0 Hb) as (mb & eb & Hob & Hmb & _ & _ & Heb).
    assert (Hb' : - b <> 0) by lia. assert (Hbb : Z.abs (- b) < 2 ^ 53) by lia.
    destruct (of_Z_shape (- b) Hb' Hbb) as (mb' & eb' & Hob' & Hmb' & _ & _ & Heb').
    rewrite Z.abs_opp in Hmb', Heb'. assert (eb' = eb) as -> by congruence.
    assert (mb' = mb) as -> by congruence.
    rewrite Z.sub_0_l, Hob, Hob'. cbn [SFsub]. f_equal.
    destruct b; [congruence | reflexivity | reflexivity].
  - destruct (of_Z_shape a Ha0 Ha) as (ma & ea & Hoa & _). rewrite Z.sub_0_r. now rewrite Hoa.
  - destruct (of_Z_shape a Ha0 Ha) as (ma & ea & Hoa & Hma & Hea & _).
    destruct (of_Z_shape b Hb0 Hb) as (mb & eb & Hob & Hmb & Heb & _).
    rewrite Hoa, Hob. cbn [SFsub].
    rewrite (aligned_value a ma ea), (aligned_value b mb eb) by lia.
    rewrite <- Z.mul_sub_distr_r. apply normalize_sum; lia.
Qed.

Lemma of_Z_nonzero (n : Z) : n <> 0 ->
  of_Z n = binary_round prec emax (n <? 0) (Z.to_pos (Z.abs n)) 0.
Proof. intros Hn. destruct n; [congruence | reflexivity | reflexivity]. Qed.

Lemma sign_mul (x y : Z) : x <> 0 -> y <> 0 -> (x * y <? 0) = xorb (x <? 0) (y <? 0).
Proof. intros Hx Hy. destruct x, y; try congruence; reflexivity. Qed.

Lemma size_abs_bound (n : Z) : n <> 0 -> Z.abs n < 2 ^ 53 ->
  Zpos (Pos.size (Z.to_pos (Z.abs n))) <= prec.
Proof.
  intros Hn Hb. apply size_le_of_pow; unfold prec; [lia|]. rewrite Z2Pos.id by lia. exact Hb.
Qed.

Lemma size_mul_lower (p q : positive) :
  Zpos (Pos.size p) + Zpos (Pos.size q) - 1 <= Zpos (Pos.size (p * q)).
Proof.
  pose proof (size_bounds p) as [Hp _]. pose proof (size_bounds q) as [Hq _].
  assert (H : 2 ^ (Zpos (Pos.size p) + Zpos (Pos.size q) - 2) <= Zpos (p * q)).
  { replace (Zpos (Pos.size p) + Zpos (Pos.size q) - 2)
      with ((Zpos (Pos.size p) - 1) + (Zpos (Pos.size q) - 1)) by lia.
    rewrite Z.pow_add_r, Pos2Z.inj_mul by lia. apply Z.mul_le_mono_nonneg; lia. }
  apply size_lt_of_pow in H; lia.
Qed.

Lemma fmul_of_Z (a b : Z) :
  Z.abs a < 2 ^ 53 -> Z.abs b < 2 ^ 53 ->
  fmul (of_Z a) (of_Z b) =
  if a * b =? 0 then S754_zero (xorb (a <? 0) (b <? 0)) else of_Z (a * b).
Proof.
  intros Ha Hb. unfold fmul.
  destruct (Z.eq_dec a 0) as [->|Ha0]; destruct (Z.eq_dec b 0) as [->|Hb0]; [reflexivity| | |].
  - destruct (of_Z_shape b Hb0 Hb) as (mb & eb & Hob & _). now rewrite Hob.
  - destruct (of_Z_shape a Ha0 Ha) as (ma & ea & Hoa & _). rewrite Z.mul_0_r. now rewrite Hoa.
  - assert (Hab0 : a * b <> 0) by (apply Z.neq_mul_0; auto).
    replace (a * b =? 0) with false by (symmetry; apply Z.eqb_neq; exact Hab0).
    destruct (of_Z_shape a Ha0 Ha) as (ma & ea & Hoa & Hma & Hea & Hda & Hea').
    destruct (of_Z_shape b Hb0 Hb) as (mb & eb & Hob & Hmb & Heb & Hdb & Heb').
    rewrite Hoa, Hob, of_Z_nonzero by exact Hab0. cbn [SFmul].
    rewrite <- sign_mul by assumption.
    replace (ea + eb) with (- (- ea - eb)) by lia.
    apply round_aux_scaled.
    + rewrite Z.abs_mul, Z2Pos.inj_mul by lia.
      pose proof (size_mul_lower (Z.to_pos (Z.abs a)) (Z.to_pos (Z.abs b))). unfold prec in *. lia.
    + rewrite Z2Pos.id by lia. rewrite Pos2Z.inj_mul, Hma, Hmb, Z.abs_mul.
      replace (- ea - eb) with (- ea + - eb) by lia. rewrite Z.pow_add_r by lia. ring.
Qed.

(** The division core on two canonical mantissas: a 53-bit left shift,
    then an integer division. *)
Lemma div_core_canonical (ma mb : positive) (ea eb : Z) :
  Zdigits2 (Zpos ma) = prec -> Zdigits2 (Zpos mb) = prec ->
  -53 < ea <= 0 -> -53 < eb <= 0 ->
  SFdiv_core_binary prec emax (Zpos ma) ea (Zpos mb) eb =
  (Zpos ma * 2 ^ 53 / Zpos mb, ea - eb - 53,
   new_location (Zpos mb) (Zpos ma * 2 ^ 53 mod Zpos mb)).
Proof.
  intros Hda Hdb Hea Heb. unfold SFdiv_core_binary. rewrite Hda, Hdb.
  replace (prec + ea - (prec + eb)) with (ea - eb) by lia.
  rewrite fexp_normal by lia.
  replace (Z.min (ea - eb - prec) (ea - eb)) with (ea - eb - 53) by (unfold prec; lia).
  replace (ea - eb - (ea - eb - 53)) with 53 by lia.
  rewrite Z.shiftl_mul_pow2 by lia.
  unfold Z.div, Z.modulo. destruct (Z.div_eucl (Zpos ma * 2 ^ 53) (Zpos mb)). reflexivity.
Qed.

(** The division core when its left shift is not negative. *)
Lemma div_core_shift (m1 m2 e1 e2 e' : Z) :
  e' = Z.min (fexp prec emax (Zdigits2 m1 + e1 - (Zdigits2 m2 + e2))) (e1 - e2) ->
  0 <= e1 - e2 - e' ->
  SFdiv_core_binary prec emax m1 e1 m2 e2 =
  (m1 * 2 ^ (e1 - e2 - e') / m2, e', new_location m2 (m1 * 2 ^ (e1 - e2 - e') mod m2)).
Proof.
  intros He Hs. unfold SFdiv_core_binary. rewrite <- He.
  destruct (e1 - e2 - e') as [|k|k] eqn:Hk; [| |lia].
  - rewrite Z.mul_1_r. unfold Z.div, Z.modulo. destruct (Z.div_eucl m1 m2). reflexivity.
  - rewrite Z.shiftl_mul_pow2 by lia. unfold Z.div, Z.modulo. destruct (Z.div_eucl _ m2). reflexivity.
Qed.

Lemma new_location_exact (nb : Z) : new_location nb 0 = loc_Exact.
Proof. unfold new_location. destruct (Z.even nb); reflexivity. Qed.

Lemma size_mul_upper (p q : positive) :
  Zpos (Pos.size (p * q)) <= Zpos (Pos.size p) + Zpos (Pos.size q).
Proof.
  pose proof (size_bounds p) as [_ Hp]. pose proof (size_bounds q) as [_ Hq].
  apply size_le_of_pow; [lia|]. rewrite Pos2Z.inj_mul, Z.pow_add_r by lia.
  apply Z.mul_lt_mono_nonneg; lia.
Qed.

Lemma fdiv_of_Z (a b q : Z) :
  Z.abs a < 2 ^ 53 -> Z.abs b < 2 ^ 53 -> b <> 0 -> a = q * b ->
  fdiv (of_Z a) (of_Z b) = if a =? 0 then S754_zero (b <? 0) else of_Z q.
Proof.
  intros Ha Hb Hb0 Hq. unfold fdiv.
  destruct (of_Z_shape b Hb0 Hb) as (mb & eb & Hob & Hmb & Heb & Hdb & Heb').
  destruct (Z.eq_dec a 0) as [->|Ha0]; [now rewrite Hob|].
  replace (a =? 0) with false by (symmetry; apply Z.eqb_neq; exact Ha0).
  assert (Hq0 : q <> 0) by (intros ->; lia).
  assert (Hqa : Z.abs q <= Z.abs a) by (rewrite Hq, Z.abs_mul; nia).
  destruct (of_Z_shape a Ha0 Ha) as (ma & ea & Hoa & Hma & Hea & Hda & Hea').
  rewrite Hoa, Hob, (of_Z_nonzero q Hq0). cbn [SFdiv].
  rewrite div_core_canonical by assumption.
  assert (Hm : Zpos ma * 2 ^ 53 = (Z.abs q * 2 ^ (53 - ea + eb)) * Zpos mb).
  { rewrite Hma, Hmb, Hq, Z.abs_mul.
    assert (E1 : 2 ^ (- ea) * 2 ^ 53 = 2 ^ (53 - ea)) by (rewrite <- Z.pow_add_r by lia; f_equal; lia).
    assert (E2 : 2 ^ (53 - ea + eb) * 2 ^ (- eb) = 2 ^ (53 - ea)) by (rewrite <- Z.pow_add_r by lia; f_equal; lia).
    transitivity (Z.abs q * Z.abs b * (2 ^ (- ea) * 2 ^ 53)); [ring|]. rewrite E1, <- E2. ring. }
  rewrite Hm, Z.div_mul, Z.mod_mul, new_location_exact by lia.
  destruct (Zdigits2_scaled (Z.to_pos (Z.abs q)) (53 - ea + eb)) as (qq & Hqq & _); [lia|].
  rewrite Z2Pos.id in Hqq by lia. rewrite Hqq.
  replace (xorb (a <? 0) (b <? 0)) with (q <? 0)
    by (rewrite Hq, sign_mul, Bool.xorb_assoc_reverse, Bool.xorb_nilpotent, Bool.xorb_false_r by assumption;
        reflexivity).
  replace (ea - eb - 53) with (- (53 - ea + eb)) by lia.
  apply round_aux_scaled.
  - pose proof (size_mul_upper (Z.to_pos (Z.abs q)) (Z.to_pos (Z.abs b))) as Hs.
    rewrite <- Z2Pos.inj_mul, <- Z.abs_mul, <- Hq in Hs by lia.
    rewrite Hea', Heb'. unfold prec in *. lia.
  - rewrite Z2Pos.id by lia. symmetry. exact Hqq.
Qed.

(** [long_true_divide] on an exact quotient [a = q * b] returns the
    conversion of [q], whatever the size of [a] and [b]. *)
Lemma div_Z_exact (a b q : Z) : b <> 0 -> a = q * b ->
  div_Z a b = if a =? 0 then S754_zero (xorb (a <? 0) (b <? 0)) else of_Z q.
Proof.
  intros Hb Hq. unfold div_Z.
  destruct (Z.eq_dec a 0) as [->|Ha0]; [reflexivity|].
  replace (a =? 0) with false by (symmetry; apply Z.eqb_neq; exact Ha0).
  assert (Hq0 : q <> 0) by (intros ->; lia).
  destruct (Z.abs a) as [|pa|pa] eqn:Ea; [lia| |lia].
  set (pb := Z.to_pos (Z.abs b)). set (pq := Z.to_pos (Z.abs q)).
  assert (Epb : Z.abs b = Zpos pb) by (unfold pb; rewrite Z2Pos.id; lia).
  assert (Epq : Z.abs q = Zpos pq) by (unfold pq; rewrite Z2Pos.id; lia).
  assert (Hpa : pa = (pq * pb)%positive) by (apply Pos2Z.inj; rewrite Pos2Z.inj_mul, <- Epb, <- Epq, <- Ea, Hq, Z.abs_mul; reflexivity).
  rewrite Epb, of_Z_nonzero, Epq by exact Hq0. change (Z.to_pos (Zpos pq)) with pq.
  replace (xorb (a <? 0) (b <? 0)) with (q <? 0)
    by (rewrite Hq, sign_mul, Bool.xorb_assoc_reverse, Bool.xorb_nilpotent, Bool.xorb_false_r by assumption;
        reflexivity).
  pose proof (size_mul_upper pq pb) as Hup. pose proof (size_mul_lower pq pb) as Hlo.
  rewrite <- Hpa in Hup, Hlo.
  set (da := Zpos (Pos.size pa)) in *. set (db := Zpos (Pos.size pb)) in *. set (dq := Zpos (Pos.size pq)) in *.
  set (e' := Z.min (fexp prec emax (da + 0 - (db + 0))) (0 - 0)).
  assert (He' : e' = Z.min (da - db - prec) 0) by (unfold e'; rewrite fexp_normal by lia; f_equal; lia).
  rewrite (div_core_shift (Zpos pa) (Zpos pb) 0 0 e') by (rewrite ?Zdigits2_pos; reflexivity || lia).
  replace (Zpos pa * 2 ^ (0 - 0 - e')) with (Zpos pq * 2 ^ (- e') * Zpos pb)
    by (rewrite Hpa, Pos2Z.inj_mul; replace (0 - 0 - e') with (- e') by lia; ring).
  pose proof (Z.pow_pos_nonneg 2 (- e') ltac:(lia) ltac:(lia)).
  rewrite Z.div_mul, Z.mod_mul, new_location_exact by lia.
  destruct (Z.lt_ge_cases (da - db) prec) as [Hs|Hs].
  - destruct (Zdigits2_scaled pq (- e') ltac:(lia)) as (qq & Hqq & _). rewrite Hqq.
    rewrite <- (Z.opp_involutive e'). apply round_aux_scaled; [unfold prec in *; lia | symmetry; exact Hqq].
  - replace e' with 0 in * by lia. rewrite Z.mul_1_r, binary_round_wide by (unfold prec in *; lia). reflexivity.
Qed.

(** The location of a remainder in its divisor does not change when
    both are doubled: [new_location] only compares [2 * r] with [d]. *)
Lemma new_location_double (d r : Z) : 0 < d -> 0 <= r < d ->
  new_location (d * 2) (r * 2) = new_location d r.
Proof.
  intros Hd Hr. unfold new_location, new_location_even, new_location_odd.
  replace (Z.even (d * 2)) with true by (rewrite Z.even_mul, Bool.orb_comm; reflexivity).
  destruct (Z.even d) eqn:Ev; cbv beta;
    destruct (Z.eqb_spec (r * 2) 0), (Z.eqb_spec r 0); try lia; try reflexivity; f_equal.
  - destruct (Z.compare_spec (2 * (r * 2)) (d * 2)), (Z.compare_spec (2 * r) d); lia || reflexivity.
  - assert (Hodd : Z.odd d = true) by (rewrite <- Z.negb_even, Ev; reflexivity).
    apply Z.odd_spec in Hodd as [t ->].
    destruct (Z.compare_spec (2 * (r * 2)) ((2 * t + 1) * 2)), (Z.compare_spec (2 * r + 1) (2 * t + 1));
      lia || reflexivity.
Qed.

Lemma new_location_scale (d r j : Z) : 0 < d -> 0 <= r < d -> 0 <= j ->
  new_location (d * 2 ^ j) (r * 2 ^ j) = new_location d r.
Proof.
  intros Hd Hr. revert j. apply natlike_ind; [rewrite Z.pow_0_r, !Z.mul_1_r; reflexivity|].
  intros j Hj IH. rewrite Z.pow_succ_r, (Z.mul_comm 2 (2 ^ j)), !Z.mul_assoc, new_location_double by (nia || lia).
  exact IH.
Qed.

(** Float division of two integers below [2^53] is [long_true_divide]:
    [float(a) / float(b)] and [a / b] are the same double, the exact
    quotient rounded once.  The two division cores see the operands with
    different power-of-two scalings, which changes neither the quotient,
    the exponent nor the location of the remainder. *)
Lemma fdiv_of_Z_div_Z (a b : Z) :
  Z.abs a < 2 ^ 53 -> Z.abs b < 2 ^ 53 -> b <> 0 ->
  fdiv (of_Z a) (of_Z b) = div_Z a b.
Proof.
  intros Ha Hb Hb0. unfold fdiv, div_Z.
  destruct (of_Z_shape b Hb0 Hb) as (mb & eb & -> & Hmb & Heb & Hdb & Heb').
  destruct (Z.eq_dec a 0) as [->|Ha0]; [reflexivity|].
  destruct (of_Z_shape a Ha0 Ha) as (ma & ea & -> & Hma & Hea & Hda & Hea'). cbn [SFdiv].
  rewrite div_core_canonical by assumption.
  pose proof (size_abs_bound a Ha0 Ha) as Hsa. pose proof (size_abs_bound b Hb0 Hb) as Hsb.
  destruct (Z.abs a) as [|pa|pa] eqn:Ea; [lia| |lia].
  set (pb := Z.to_pos (Z.abs b)) in *.
  assert (Epb : Z.abs b = Zpos pb) by (unfold pb; rewrite Z2Pos.id; lia).
  change (Z.to_pos (Zpos pa)) with pa in Hea', Hsa. rewrite Epb in Hmb |- *.
  rewrite (div_core_shift (Zpos pa) (Zpos pb) 0 0 (ea - eb - 53))
    by (rewrite ?Zdigits2_pos, ?fexp_normal; unfold prec in *; lia).
  assert (Hc : 0 < 2 ^ (- eb)) by (apply Z.pow_pos_nonneg; lia).
  assert (Hx : Zpos ma * 2 ^ 53 = Zpos pa * 2 ^ (0 - 0 - (ea - eb - 53)) * 2 ^ (- eb)).
  { rewrite Hma, <- !Z.mul_assoc, <- !Z.pow_add_r by lia. f_equal. f_equal. lia. }
  rewrite Hx, Hmb, Z.div_mul_cancel_r, Z.mul_mod_distr_r, new_location_scale by
    (lia || apply Z.mod_pos_bound; lia).
  reflexivity.
Qed.

(** ** Validity of computed doubles

    [valid_binary] is SpecFloat's well-formedness of a double: a finite
    [m * 2^e] has the canonical exponent [fexp (digits m + e) = e] (53
    bits of mantissa, or fewer at the smallest exponent) and
    [e <= emax - prec].  [binary_round_aux] returns a valid double
    whenever its mantissa does not sit above the exponent [fexp] asks for
    ([round_aux_valid]); every operation establishes that precondition. *)

Lemma Zdigits2_bounds (m : Z) : 0 <= m ->
  m < 2 ^ Zdigits2 m /\ (0 < m -> 2 ^ (Zdigits2 m - 1) <= m).
Proof.
  intros H. destruct m as [|p|p]; [cbn; lia | | lia].
  rewrite Zdigits2_pos. pose proof (size_bounds p). lia.
Qed.

Lemma Zdigits2_pos_ge1 (m : Z) : 0 < m -> 1 <= Zdigits2 m.
Proof. destruct m as [|p|p]; intros H; [lia | rewrite Zdigits2_pos; lia | lia]. Qed.

Lemma valid_finite_iff (s : bool) (m : positive) (e : Z) :
  valid_binary prec emax (S754_finite s m e) = true <->
  fexp prec emax (Zpos (Pos.size m) + e) = e /\ e <= emax - prec.
Proof.
  unfold valid_binary, bounded, canonical_mantissa.
  rewrite digits2_pos_size, Bool.andb_true_iff, Z.eqb_eq, Z.leb_le. reflexivity.
Qed.

(** The second half of [binary_round_aux]: a rounded mantissa of 53
    bits (or [2^53], which carries), or of at most 53 bits at the
    smallest exponent, gives a valid double. *)
Lemma round_finish_valid (s : bool) (q e1 : Z) :
  0 <= q -> -1074 <= e1 -> (2 ^ 52 <= q <= 2 ^ 53 \/ (q <= 2 ^ 52 /\ e1 = -1074)) ->
  valid_binary prec emax
    (let '(mrs'', e'') := shr_fexp prec emax q e1 loc_Exact in
     match shr_m mrs'' with
     | Z0 => S754_zero s
     | Zpos m => if e'' <=? emax - prec then S754_finite s m e'' else S754_infinity s
     | Zneg _ => S754_nan
     end) = true.
Proof.
  intros Hq He1 Hc. unfold shr_fexp.
  destruct q as [|qq|qq]; [| | lia].
  { cbn [shr_record_of_loc Zdigits2 Z.add].
    destruct (shr_spec (Build_shr_record 0 false false) e1 (fexp prec emax e1 - e1)) as [Hm0 _]; [cbn; lia|].
    destruct (shr _ _ _) as [r0 e0]. cbn [fst shr_m] in Hm0. rewrite Z.div_0_l in Hm0 by (apply Z.pow_nonzero; lia).
    rewrite Hm0. reflexivity. }
  rewrite Zdigits2_pos. pose proof (size_bounds qq) as [Hs1 Hs2].
  assert (HQ : Zpos (Pos.size qq) <= 54) by (apply size_le_of_pow; lia).
  assert (HQ' : 2 ^ 52 <= Zpos qq -> 53 <= Zpos (Pos.size qq)) by (intros; enough (52 < Zpos (Pos.size qq)) by lia; apply size_lt_of_pow; lia).
  assert (HQs : Zpos qq <= 2 ^ 52 -> Zpos (Pos.size qq) <= 53) by (intros; apply size_le_of_pow; lia).
  set (t := fexp prec emax (Zpos (Pos.size qq) + e1) - e1).
  assert (Ht : 0 <= t <= 1 /\ (t = 1 -> Zpos qq = 2 ^ 53) /\ (e1 = -1074 -> Zpos qq <= 2 ^ 52 -> t = 0)).
  { unfold t, fexp, emin, prec, emax. split; [|split].
    - destruct Hc as [Hc|[Hc ->]]; [specialize (HQ' (proj1 Hc)) | specialize (HQs Hc)]; lia.
    - intros Ht1. destruct Hc as [Hc|[Hc ->]]; [|specialize (HQs Hc); lia].
      assert (Zpos (Pos.size qq) = 54) by lia.
      assert (2 ^ 53 <= Zpos qq) by (replace 53 with (Zpos (Pos.size qq) - 1) by lia; exact Hs1). lia.
    - intros -> Hle. specialize (HQs Hle). lia. }
  destruct (shr_spec (shr_record_of_loc (Zpos qq) loc_Exact) e1 t) as [Hm2 He2]; [cbn; lia|].
  destruct (shr (shr_record_of_loc (Zpos qq) loc_Exact) e1 t) as [r2 e2] eqn:H2.
  cbn [fst snd shr_m shr_record_of_loc] in Hm2, He2. replace (Z.max 0 t) with t in * by lia.
  assert (Hm2b : (2 ^ 52 <= shr_m r2 < 2 ^ 53 /\ e2 = e1 + t) \/ (0 < shr_m r2 <= 2 ^ 52 /\ e2 = -1074)).
  { destruct (Z.eq_dec t 1) as [E|E].
    - left. rewrite Hm2, E, (proj1 (proj2 Ht) E). split; [cbn; lia | lia].
    - assert (t = 0) as E0 by lia. rewrite Hm2, E0, Z.div_1_r.
      destruct Hc as [Hc|[Hc ->]]; [|right; lia].
      destruct (Z.eq_dec (Zpos qq) (2 ^ 53)) as [Eq|Neq]; [|left; lia].
      exfalso. unfold t, fexp, emin, prec, emax in E0. rewrite Eq in Hs2.
      assert (Zpos (Pos.size qq) = 54) by (enough (53 < Zpos (Pos.size qq)) by lia; apply size_lt_of_pow; lia). lia. }
  destruct (shr_m r2) as [|mm|mm]; [lia | | lia].
  destruct (Z.leb_spec e2 (emax - prec)); [|reflexivity].
  apply valid_finite_iff. split; [|assumption]. pose proof (size_bounds mm) as [Hb1 Hb2].
  unfold fexp, emin, prec, emax in *.
  destruct Hm2b as [[Hb He]|[Hb He]].
  - assert (Zpos (Pos.size mm) = 53) by (enough (52 < Zpos (Pos.size mm) <= 53) by lia;
      split; [apply size_lt_of_pow | apply size_le_of_pow]; lia).
    assert (Zpos (Pos.size qq) - 53 = t \/ e1 = -1074) by lia. lia.
  - assert (Zpos (Pos.size mm) <= 53) by (apply size_le_of_pow; lia). lia.
Qed.

Lemma pow2_split (a b : Z) : 0 <= a -> 0 <= b -> 2 ^ (a + b) = 2 ^ a * 2 ^ b.
Proof. intros. apply Z.pow_add_r; lia. Qed.

(** [binary_round_aux] returns a valid double when its mantissa needs no
    shift to the left. *)
Lemma round_aux_valid (s : bool) (m e : Z) (l : location) :
  0 <= m -> e <= fexp prec emax (Zdigits2 m + e) ->
  valid_binary prec emax (binary_round_aux prec emax s m e l) = true.
Proof.
  intros Hm He. unfold binary_round_aux. unfold shr_fexp at 1.
  remember (fexp prec emax (Zdigits2 m + e)) as F1 eqn:HF.
  assert (Hr0 : shr_m (shr_record_of_loc m l) = m) by (destruct l as [|[]]; reflexivity).
  destruct (shr_spec (shr_record_of_loc m l) e (F1 - e)) as [Hm1 He1]; [lia|].
  destruct (shr (shr_record_of_loc m l) e (F1 - e)) as [r1 e1] eqn:H1. cbn [fst snd] in Hm1, He1.
  rewrite Hr0 in Hm1. replace (Z.max 0 (F1 - e)) with (F1 - e) in * by lia.
  pose proof (round_nearest_even_bounds (shr_m r1) (loc_of_shr_record r1)) as Hb.
  destruct (Zdigits2_bounds m Hm) as [Hd1 Hd2].
  unfold fexp, emin, prec, emax in HF.
  assert (Hk : 0 <= F1 - e) by lia. pose proof (Z.pow_pos_nonneg 2 (F1 - e) ltac:(lia) Hk) as Hp.
  assert (Hm1p : 0 <= shr_m r1) by (rewrite Hm1; apply Z.div_pos; lia).
  apply round_finish_valid; [lia | lia |].
  destruct (Z_le_gt_dec (-1074) (Zdigits2 m + e - 53)) as [Hn|Hs].
  - left. assert (E : F1 = Zdigits2 m + e - 53) by lia.
    assert (Hm0 : 0 < m) by (destruct (Z.eq_dec m 0) as [->|]; [cbn in E; lia | lia]).
    specialize (Hd2 Hm0).
    assert (Hlo : 2 ^ 52 * 2 ^ (F1 - e) <= m) by (rewrite <- pow2_split by lia; replace (52 + (F1 - e)) with (Zdigits2 m - 1) by lia; exact Hd2).
    assert (Hhi : m < 2 ^ 53 * 2 ^ (F1 - e)) by (rewrite <- pow2_split by lia; replace (53 + (F1 - e)) with (Zdigits2 m) by lia; exact Hd1).
    assert (2 ^ 52 <= shr_m r1 < 2 ^ 53) by (rewrite Hm1; split; [apply Z.div_le_lower_bound | apply Z.div_lt_upper_bound]; lia).
    lia.
  - right. assert (E : F1 = -1074) by lia. split; [|lia].
    assert (Hhi : m < 2 ^ 52 * 2 ^ (F1 - e)).
    { rewrite <- pow2_split by lia. eapply Z.lt_le_trans; [exact Hd1|].
      apply Z.pow_le_mono_r; lia. }
    assert (shr_m r1 < 2 ^ 52) by (rewrite Hm1; apply Z.div_lt_upper_bound; lia). lia.
Qed.

Lemma fexp_mono (x y : Z) : x <= y -> fexp prec emax x <= fexp prec emax y.
Proof. unfold fexp. lia. Qed.

(** [binary_round] first shifts the mantissa left to the exponent [fexp]
    asks for, so its result is always valid. *)
Lemma binary_round_valid (s : bool) (p : positive) (e : Z) :
  valid_binary prec emax (binary_round prec emax s p e) = true.
Proof.
  unfold binary_round, shl_align. rewrite digits2_pos_size.
  destruct (fexp prec emax (Zpos (Pos.size p) + e) - e) as [|d|d] eqn:Ed;
    apply round_aux_valid; try lia; rewrite Zdigits2_pos; [lia | lia|].
  rewrite size_iter_xO, Pos2Z.inj_add. apply Z.eq_le_incl. f_equal. lia.
Qed.

Lemma binary_normalize_valid (m e : Z) (sz : bool) :
  valid_binary prec emax (binary_normalize prec emax m e sz) = true.
Proof. destruct m; [reflexivity | apply binary_round_valid ..]. Qed.

(** The division core picks an exponent at or below the one [fexp] asks
    for the quotient, so the rounded quotient is valid. *)
Lemma div_core_valid (s : bool) (m1 e1 m2 e2 : Z) : 0 < m1 -> 0 < m2 ->
  valid_binary prec emax
    (let '(mz, ez, lz) := SFdiv_core_binary prec emax m1 e1 m2 e2 in
     binary_round_aux prec emax s mz ez lz) = true.
Proof.
  intros H1 H2. unfold SFdiv_core_binary.
  set (X := Zdigits2 m1 + e1 - (Zdigits2 m2 + e2)).
  set (e' := Z.min (fexp prec emax X) (e1 - e2)).
  assert (Hs : 0 <= e1 - e2 - e') by (unfold e'; lia).
  assert (Hm' : match e1 - e2 - e' with Zpos _ => Z.shiftl m1 (e1 - e2 - e') | Z0 => m1 | Zneg _ => 0 end
                = m1 * 2 ^ (e1 - e2 - e')).
  { destruct (e1 - e2 - e') eqn:E; [lia | apply Z.shiftl_mul_pow2; lia | lia]. }
  rewrite Hm'. set (k := e1 - e2 - e') in *.
  pose proof (Z_div_mod (m1 * 2 ^ k) m2 ltac:(lia)) as Hdm.
  destruct (Z.div_eucl (m1 * 2 ^ k) m2) as [q r] eqn:Hq. destruct Hdm as [Heq Hr].
  destruct (Zdigits2_bounds m1 ltac:(lia)) as [_ Hd1]. specialize (Hd1 H1).
  destruct (Zdigits2_bounds m2 ltac:(lia)) as [Hd2 _].
  pose proof (Zdigits2_pos_ge1 m1 H1). pose proof (Zdigits2_pos_ge1 m2 H2).
  assert (Hq0 : 0 <= q) by nia.
  apply round_aux_valid; [exact Hq0|].
  apply (Z.le_trans _ (fexp prec emax X)); [unfold e'; lia|]. apply fexp_mono.
  destruct (Zdigits2_bounds q Hq0) as [Hdq _].
  destruct (Z_le_gt_dec (Zdigits2 m1 + k - Zdigits2 m2) 0) as [Hj|Hj].
  - assert (0 <= Zdigits2 q) by (destruct (Z.neg_nonneg_cases (Zdigits2 q)) as [Hn|]; [rewrite Z.pow_neg_r in Hdq by exact Hn; lia | assumption]).
    unfold X, k in *. lia.
  - set (j := Zdigits2 m1 + k - 1 - Zdigits2 m2).
    assert (Hj0 : 0 <= j) by (unfold j; lia).
    assert (Hpj : 2 ^ j * 2 ^ Zdigits2 m2 = 2 ^ (Zdigits2 m1 - 1) * 2 ^ k)
      by (rewrite <- !pow2_split by (unfold j in *; lia); f_equal; unfold j; lia).
    assert (Hqj : 2 ^ j <= q).
    { pose proof (Z.pow_pos_nonneg 2 j ltac:(lia) Hj0). pose proof (Z.pow_pos_nonneg 2 k ltac:(lia) ltac:(lia)). nia. }
    pose proof (Zdigits2_pos_ge1 q ltac:(pose proof (Z.pow_pos_nonneg 2 j ltac:(lia) Hj0); lia)).
    assert (j < Zdigits2 q) by (apply (Z.pow_lt_mono_r_iff 2); lia).
    unfold X, j, k in *. lia.
Qed.

(** The four operations map valid doubles to valid doubles. *)
Lemma fadd_valid (x y : float) : valid_binary prec emax x = true -> valid_binary prec emax y = true ->
  valid_binary prec emax (fadd x y) = true.
Proof.
  intros Hx Hy. unfold fadd, SFadd.
  destruct x as [[]|[]| |sx mx ex], y as [[]|[]| |sy my ey]; try assumption; try reflexivity.
  all: apply binary_normalize_valid.
Qed.

Lemma fsub_valid (x y : float) : valid_binary prec emax x = true -> valid_binary prec emax y = true ->
  valid_binary prec emax (fsub x y) = true.
Proof.
  intros Hx Hy. unfold fsub, SFsub.
  destruct x as [[]|[]| |sx mx ex], y as [[]|[]| |sy my ey]; try assumption; try reflexivity.
  all: apply binary_normalize_valid.
Qed.

Lemma fmul_valid (x y : float) : valid_binary prec emax x = true -> valid_binary prec emax y = true ->
  valid_binary prec emax (fmul x y) = true.
Proof.
  intros Hx Hy. unfold fmul, SFmul.
  destruct x as [[]|[]| |sx mx ex], y as [[]|[]| |sy my ey]; try reflexivity.
  apply valid_finite_iff in Hx as [Hx _], Hy as [Hy _].
  apply round_aux_valid; [lia|]. rewrite Zdigits2_pos.
  pose proof (size_mul_lower mx my). pose proof (Pos2Z.is_pos (Pos.size my)).
  pose proof (Pos2Z.is_pos (Pos.size mx)). unfold fexp, emin, prec, emax in *. lia.
Qed.

Lemma fdiv_valid (x y : float) : valid_binary prec emax x = true -> valid_binary prec emax y = true ->
  valid_binary prec emax (fdiv x y) = true.
Proof.
  intros Hx Hy. unfold fdiv, SFdiv.
  destruct x as [[]|[]| |sx mx ex], y as [[]|[]| |sy my ey]; try reflexivity.
  all: apply div_core_valid; lia.
Qed.

Lemma of_Z_valid (n : Z) : valid_binary prec emax (of_Z n) = true.
Proof. apply binary_normalize_valid. Qed.

Lemma div_Z_valid (a b : Z) : b <> 0 -> valid_binary prec emax (div_Z a b) = true.
Proof.
  intros Hb. unfold div_Z. destruct (Z.abs a) eqn:Ea; [reflexivity | | reflexivity].
  apply div_core_valid; lia.
Qed.

(** [PyLong_AsDouble] is exact on every integer a double holds: the
    conversion of the integer value of a valid finite double is that
    double. *)
Lemma of_Z_int_value (s : bool) (m : positive) (e N : Z) :
  valid_binary prec emax (S754_finite s m e) = true -> int_value (S754_finite s m e) = Some N ->
  of_Z N = S754_finite s m e.
Proof.
  intros Hv HN. apply valid_finite_iff in Hv as [Hc Hemax]. cbn [int_value] in HN.
  assert (Hexact : binary_round_aux prec emax s (Zpos m) e loc_Exact = S754_finite s m e)
    by (apply round_aux_exact; [rewrite Zdigits2_pos; exact Hc | exact Hemax]).
  destruct (Z.leb_spec 0 e) as [He|He].
  - injection HN as <-.
    assert (Hsz : Zpos (Pos.size m) = 53) by (unfold fexp, emin, prec, emax in Hc; lia).
    destruct (Zdigits2_scaled m e He) as (q & Hq & Hdq).
    replace (cond_Zopp s (Zpos m) * 2 ^ e) with (cond_Zopp s (Zpos q))
      by (rewrite <- Hq; destruct s; cbn [cond_Zopp]; ring).
    replace (of_Z (cond_Zopp s (Zpos q))) with (binary_round prec emax s q 0) by (destruct s; reflexivity).
    rewrite binary_round_wide by (rewrite Zdigits2_pos in Hdq; unfold prec; lia).
    rewrite <- Hq, <- Hexact, <- (round_aux_rescale s m e e He) by (rewrite Hc; lia).
    rewrite Z.sub_diag. reflexivity.
  - replace (0 <=? e) with false in HN by (symmetry; apply Z.leb_gt; lia).
    destruct (Z.eqb_spec (Zpos m mod 2 ^ (- e)) 0) as [Hd|]; [|discriminate]. injection HN as <-.
    pose proof (Z.pow_pos_nonneg 2 (- e) ltac:(lia) ltac:(lia)).
    pose proof (Z.div_mod (Zpos m) (2 ^ (- e)) ltac:(lia)) as Em. rewrite Hd, Z.add_0_r in Em.
    assert (HA : 0 < Zpos m / 2 ^ (- e)) by nia.
    set (A := Z.to_pos (Zpos m / 2 ^ (- e))).
    assert (EA : Zpos A = Zpos m / 2 ^ (- e)) by (unfold A; rewrite Z2Pos.id; lia).
    replace (cond_Zopp s (Zpos m) / 2 ^ (- e)) with (cond_Zopp s (Zpos A))
      by (rewrite EA; destruct s; cbn [cond_Zopp]; [rewrite Z.div_opp_l_z by lia|]; lia).
    replace (of_Z (cond_Zopp s (Zpos A))) with (binary_round prec emax s A 0) by (destruct s; reflexivity).
    rewrite <- (binary_round_scaled s A m (- e)) by (lia || (rewrite EA; lia)).
    rewrite Z.opp_involutive, binary_round_wide_at by (rewrite Hc; lia). exact Hexact.
Qed.

(** An integer below [2^53] converts to a finite double. *)
Lemma of_Z_finite (n : Z) : Z.abs n < 2 ^ 53 -> is_inf (of_Z n) = false.
Proof.
  intros Hn. destruct (Z.eq_dec n 0) as [->|Hn0]; [reflexivity|].
  destruct (of_Z_shape n Hn0 Hn) as (m & e & -> & _). reflexivity.
Qed.

(** C32 (bounds): an integer of magnitude below [2^53] converts to a
    float exactly, as [PyLong_AsDouble] and [float("...")] compute it. *)
Theorem of_Z_exact (n : Z) : Z.abs n < 2 ^ 53 -> int_value (of_Z n) = Some n.
Proof.
  intros Hn. rewrite of_Z_pos_neg.
  destruct n as [|p|p]; [reflexivity| |];
    rewrite round_int_small_value by (apply size_le_of_pow; simpl in Hn; unfold prec; lia);
    reflexivity.
Qed.

Lemma of_Z_exact_witness : int_value (of_Z 3) = Some 3.
Proof. apply of_Z_exact. lia. Defined.

End Binary64.
