(* ===== verification/Operations.v ===== *)
(** * [app/operations]: the [MathOperations] class

    [Number = int | float] is the inductive [Number]; the four static
    methods are [addition], [subtraction], [multiplication] and [division].
    Their bodies are Python's [a + b], [a - b], [a * b], [a / b], whose
    meaning on [int] and [float] operands is CPython's: two [int]s stay
    exact integers ([Z]) except for true division, which rounds the exact
    quotient once; a mixed pair converts its [int] to a [float] first,
    which raises [OverflowError] when the integer is too large for a
    double.  [division] turns [ZeroDivisionError] into
    [ValueError("Division by zero is not allowed.")] and lets every other
    exception through. *)

From Stdlib Require Import ZArith String Floats.SpecFloat Lia.
From S2P Require Import Prelude Binary64.
Import Binary64.

Open Scope Z_scope.
Open Scope py_scope.

Module Operations.

(** [Number = int | float] *)
Inductive Number : Type :=
| PyInt (n : Z)
| PyFloat (f : float).

(** [CONVERT_TO_DOUBLE] of [floatobject.c]: an [int] operand of a float
    operation goes through [PyLong_AsDouble]. *)
Definition to_double (v : Number) : result float :=
  match v with
  | PyFloat f => Ok f
  | PyInt n =>
      let f := of_Z n in
      if is_inf f then Raise (OverflowError "int too large to convert to float")
      else Ok f
  end.

(** A float operation on two numbers: both are converted, left first. *)
Definition float_binop (op : float -> float -> float) (a b : Number) : result Number :=
  x <- to_double a ;; y <- to_double b ;; Ok (PyFloat (op x y)).

(** [a + b], [a - b], [a * b] on [int | float]. *)
Definition py_add (a b : Number) : result Number :=
  match a, b with
  | PyInt x, PyInt y => Ok (PyInt (x + y))
  | _, _ => float_binop fadd a b
  end.

Definition py_sub (a b : Number) : result Number :=
  match a, b with
  | PyInt x, PyInt y => Ok (PyInt (x - y))
  | _, _ => float_binop fsub a b
  end.

Definition py_mul (a b : Number) : result Number :=
  match a, b with
  | PyInt x, PyInt y => Ok (PyInt (x * y))
  | _, _ => float_binop fmul a b
  end.

(** [a / b]: [long_true_divide] on two [int]s, [float_div] otherwise.
    [float_div] converts both operands before it tests [b == 0.0]. *)
Definition py_truediv (a b : Number) : result Number :=
  match a, b with
  | PyInt x, PyInt y =>
      if y =? 0 then Raise (ZeroDivisionError "division by zero")
      else
        let q := div_Z x y in
        if is_inf q
        then Raise (OverflowError "integer division result too large for a float")
        else Ok (PyFloat q)
  | _, _ =>
      x <- to_double a ;; y <- to_double b ;;
      if feq y fzero then Raise (ZeroDivisionError "float division by zero")
      else Ok (PyFloat (fdiv x y))
  end.

Definition division_by_zero_message : string := "Division by zero is not allowed.".

(** ** [class MathOperations] *)

Definition addition (a b : Number) : result Number := py_add a b.

Definition subtraction (a b : Number) : result Number := py_sub a b.

Definition multiplication (a b : Number) : result Number := py_mul a b.

(** [try: return a / b
     except ZeroDivisionError as e:
         raise ValueError("Division by zero is not allowed.") from e] *)
Definition division (a b : Number) : result Number :=
  match py_truediv a b with
  | Raise (ZeroDivisionError _) => Raise (ValueError division_by_zero_message)
  | r => r
  end.

(** [class MathOperations]: the class holds no state and its four
    static methods are the record of its methods; [MathOperations.addition]
    in the calculator is the projection [op_addition MathOperations]. *)
Record arith_ops : Type := {
  op_addition : Number -> Number -> result Number;
  op_subtraction : Number -> Number -> result Number;
  op_multiplication : Number -> Number -> result Number;
  op_division : Number -> Number -> result Number
}.

Definition MathOperations : arith_ops := {|
  op_addition := addition;
  op_subtraction := subtraction;
  op_multiplication := multiplication;
  op_division := division
|}.

(** ** The contract of the module, as the calculator relies on it *)

(** Spec 4.1: on two floats, [add], [sub] and [mul] never fail; [div]
    fails with the fixed [ValueError] exactly when the divisor is a zero
    and returns a value otherwise.  This is the interface between the
    operations module and the loop of [Calculator]. *)
Class ArithContract (add sub mul div : Number -> Number -> result Number) : Prop := {
  ac_add : forall x y, exists r, add (PyFloat x) (PyFloat y) = Ok r;
  ac_sub : forall x y, exists r, sub (PyFloat x) (PyFloat y) = Ok r;
  ac_mul : forall x y, exists r, mul (PyFloat x) (PyFloat y) = Ok r;
  ac_div_zero : forall x y, is_zero y = true ->
    div (PyFloat x) (PyFloat y) = Raise (ValueError division_by_zero_message);
  ac_div_nonzero : forall x y, is_zero y = false ->
    exists r, div (PyFloat x) (PyFloat y) = Ok r
}.

(** Whether [b] is a zero: [b == 0] for an [int], [b == 0.0] for a
    [float] (both [0.0] and [-0.0]). *)
Definition is_zero_number (b : Number) : bool :=
  match b with
  | PyInt n => n =? 0
  | PyFloat f => is_zero f
  end.

(** ** The types of [Number = int | float] *)

Inductive py_type : Type := TInt | TFloat.

Definition type_of (v : Number) : py_type :=
  match v with PyInt _ => TInt | PyFloat _ => TFloat end.

(** The type of [a + b], [a - b], [a * b]: an [int] for two [int]s, a
    [float] as soon as one operand is a float. *)
Definition arith_type (t1 t2 : py_type) : py_type :=
  match t1, t2 with TInt, TInt => TInt | _, _ => TFloat end.

(** ** Functional behaviour *)

Lemma to_double_float (f : float) : to_double (PyFloat f) = Ok f.
Proof. reflexivity. Qed.

Lemma to_double_raises (v : Number) (e : exn) :
  to_double v = Raise e -> exists m, e = OverflowError m.
Proof.
  destruct v as [n|f]; simpl; [|discriminate].
  destruct (is_inf (of_Z n)); intros H; [|discriminate].
  injection H as <-. eauto.
Qed.

#[export] Hint Rewrite to_double_float : pyrw.

Lemma py_truediv_float (x y : float) :
  py_truediv (PyFloat x) (PyFloat y) =
  if is_zero y then Raise (ZeroDivisionError "float division by zero")
  else Ok (PyFloat (fdiv x y)).
Proof.
  simpl. destruct (is_zero y) eqn:Hz.
  - apply feq_zero_iff in Hz. now rewrite Hz.
  - destruct (feq y fzero) eqn:Hf; [apply feq_zero_iff in Hf; congruence | reflexivity].
Qed.

(** C16 (functional, error): [MathOperations.division] on two floats
    raises [ValueError("Division by zero is not allowed.")] when the
    divisor is [0.0] or [-0.0], and otherwise returns the IEEE-754
    quotient, whatever the dividend (infinities and NaN included). *)
Theorem division_float (x y : float) :
  division (PyFloat x) (PyFloat y) =
  if is_zero y then Raise (ValueError division_by_zero_message)
  else Ok (PyFloat (fdiv x y)).
Proof.
  unfold division. rewrite py_truediv_float. now destruct (is_zero y).
Qed.

(** [MathOperations] implements the interface: this instance is what
    the calculator's theorems are applied with. *)
#[export] Instance math_operations_contract :
  ArithContract addition subtraction multiplication division.
Proof.
  split; intros x y; try (eexists; reflexivity); intros Hz;
    unfold division; rewrite py_truediv_float, Hz; eauto.
Qed.

Lemma to_double_zero (v : Number) (f : float) :
  to_double v = Ok f -> feq f fzero = true -> is_zero_number v = true.
Proof.
  intros Hv Hz. apply feq_zero_iff in Hz. destruct v as [n|g]; simpl in Hv |- *.
  - destruct (is_inf (of_Z n)); [discriminate|]. injection Hv as <-.
    apply Z.eqb_eq, of_Z_zero_iff, Hz.
  - congruence.
Qed.

(** What [a / b] may raise: [ZeroDivisionError] on a zero divisor, or
    [OverflowError]. *)
Lemma py_truediv_raises (a b : Number) (e : exn) :
  py_truediv a b = Raise e ->
  (exists m, e = ZeroDivisionError m /\ is_zero_number b = true)
  \/ exists m, e = OverflowError m.
Proof.
  intros H.
  assert (Hfl : forall x y : Number,
             (x0 <- to_double x ;; y0 <- to_double y ;;
              if feq y0 fzero then Raise (ZeroDivisionError "float division by zero")
              else Ok (PyFloat (fdiv x0 y0))) = Raise e ->
             (exists m, e = ZeroDivisionError m /\ is_zero_number y = true)
             \/ exists m, e = OverflowError m).
  { intros x y Hxy. apply bind_eq_Raise in Hxy as [Hx | (fx & _ & Hxy)];
      [right; eapply to_double_raises; eauto|].
    apply bind_eq_Raise in Hxy as [Hy | (fy & Hy & Hxy)];
      [right; eapply to_double_raises; eauto|].
    destruct (feq fy fzero) eqn:Hz; [|discriminate].
    injection Hxy as <-. left. eexists. split; [reflexivity|].
    eapply to_double_zero; eauto. }
  destruct a as [x|x], b as [y|y];
    [| exact (Hfl (PyInt x) (PyFloat y) H) | exact (Hfl (PyFloat x) (PyInt y) H)
     | exact (Hfl (PyFloat x) (PyFloat y) H)].
  simpl in H. destruct (Z.eqb_spec y 0) as [->|Hy].
  - injection H as <-. left. eexists. split; reflexivity.
  - destruct (is_inf (div_Z x y)); [|discriminate].
    injection H as <-. right. eauto.
Qed.

(** C17 (error): [division] never lets [ZeroDivisionError] escape; the
    only exceptions it raises are the fixed [ValueError], and then the
    divisor is a zero ([0], [0.0] or [-0.0]), or the [OverflowError] of an
    [int] operand too large for a float. *)
Theorem division_raises (a b : Number) (e : exn) :
  division a b = Raise e ->
  (e = ValueError division_by_zero_message /\ is_zero_number b = true)
  \/ exists m, e = OverflowError m.
Proof.
  unfold division. destruct (py_truediv a b) as [r|e0] eqn:H; [discriminate|].
  destruct (py_truediv_raises a b e0 H) as [(m & -> & Hz) | (m & ->)]; intros He;
    injection He as <-; eauto.
Qed.

(** C31 (bounds): spec 4.1 says addition never fails, but
    [MathOperations.addition] of an [int] and a [float] raises
    [OverflowError] exactly when the integer's magnitude is at least
    [2^1024 - 2^970]: [PyLong_AsDouble] rounds the integer to nearest-even
    and refuses it when the rounding reaches [2^1024]; every smaller
    integer converts, the largest ones to [DBL_MAX]. *)
Theorem addition_int_overflow (n : Z) (x : float) :
  addition (PyInt n) (PyFloat x) = Raise (OverflowError "int too large to convert to float") <->
  2 ^ 1024 - 2 ^ 970 <= Z.abs n.
Proof.
  unfold addition, py_add, float_binop. cbn [to_double]. rewrite <- of_Z_inf_iff.
  destruct (is_inf (of_Z n)); split; intros H; reflexivity || discriminate.
Qed.

(** C22 (functional): [MathOperations.addition] and [subtraction] on two
    integer-valued floats below [2^53] return the float of the exact
    integer sum and difference, rounded once to nearest-even: exact while
    the result stays below [2^53] (spec 8: [3 + 5] gives [8.0]), the
    nearest double beyond it ([2^53 - 1 + 2] gives [2^53 + 2]). *)
Theorem addition_subtraction_exact (a b : Z) :
  Z.abs a < 2 ^ 53 -> Z.abs b < 2 ^ 53 ->
  addition (PyFloat (of_Z a)) (PyFloat (of_Z b)) = Ok (PyFloat (of_Z (a + b))) /\
  subtraction (PyFloat (of_Z a)) (PyFloat (of_Z b)) = Ok (PyFloat (of_Z (a - b))).
Proof.
  intros Ha Hb. unfold addition, subtraction, py_add, py_sub, float_binop.
  rewrite !to_double_float. cbn [bind]. now rewrite fadd_of_Z, fsub_of_Z.
Qed.

(** C23 (functional): [MathOperations.multiplication] of two
    integer-valued floats below [2^53] is the float of the exact integer
    product, rounded once, however large the product; a zero product is
    the IEEE zero whose sign is the exclusive or of the operands' signs,
    so [0 * -3] is [-0.0]. *)
Theorem multiplication_exact (a b : Z) :
  Z.abs a < 2 ^ 53 -> Z.abs b < 2 ^ 53 ->
  multiplication (PyFloat (of_Z a)) (PyFloat (of_Z b)) =
  Ok (PyFloat (if a * b =? 0 then S754_zero (xorb (a <? 0) (b <? 0)) else of_Z (a * b))).
Proof.
  intros Ha Hb. unfold multiplication, py_mul, float_binop.
  rewrite !to_double_float. cbn [bind]. now rewrite fmul_of_Z.
Qed.

(** C21 (equivalence): [MathOperations.division] of two integer-valued
    floats below [2^53] is the correctly rounded quotient of the two
    integers, the double [long_true_divide] computes for [int / int]:
    converting the operands to [float] first, as [calculator] does,
    changes no quotient. *)
Theorem division_exact (a b : Z) :
  Z.abs a < 2 ^ 53 -> Z.abs b < 2 ^ 53 -> b <> 0 ->
  division (PyFloat (of_Z a)) (PyFloat (of_Z b)) = Ok (PyFloat (div_Z a b)).
Proof.
  intros Ha Hb Hb0. unfold division. rewrite py_truediv_float.
  destruct (is_zero (of_Z b)) eqn:Hz; [apply of_Z_zero_iff in Hz; congruence|].
  now rewrite fdiv_of_Z_div_Z.
Qed.

(** C24 (functional): [MathOperations.division] of two [int]s whose
    quotient is an integer [q], on every branch and whatever the size of
    the operands: a zero dividend gives the zero with the divisor's sign;
    otherwise [long_true_divide] rounds the exact quotient once, so
    [10**400 / 10**399] is [10.0] although neither operand converts to a
    float, and it raises [OverflowError] exactly when [|q|] reaches
    [2^1024 - 2^970] (spec 4.1 says division fails only on a zero
    divisor). *)
Theorem division_int_exact (a b q : Z) :
  b <> 0 -> a = q * b ->
  division (PyInt a) (PyInt b) =
  if a =? 0 then Ok (PyFloat (S754_zero (b <? 0)))
  else if 2 ^ 1024 - 2 ^ 970 <=? Z.abs q
  then Raise (OverflowError "integer division result too large for a float")
  else Ok (PyFloat (of_Z q)).
Proof.
  intros Hb Hq. unfold division, py_truediv.
  replace (b =? 0) with false by (symmetry; apply Z.eqb_neq; exact Hb).
  rewrite (div_Z_exact a b q) by assumption.
  destruct (Z.eqb_spec a 0) as [->|Ha]; [reflexivity|].
  destruct (Z.leb_spec (2 ^ 1024 - 2 ^ 970) (Z.abs q)) as [Hq'|Hq'].
  - now rewrite (proj2 (of_Z_inf_iff q) Hq').
  - destruct (is_inf (of_Z q)) eqn:Hi; [apply of_Z_inf_iff in Hi; lia | reflexivity].
Qed.

(** A float operation returns a float. *)
Lemma float_binop_type (op : float -> float -> float) (a b r : Number) :
  float_binop op a b = Ok r -> type_of r = TFloat.
Proof.
  unfold float_binop. destruct (to_double a), (to_double b); simpl; try discriminate.
  intros H. now injection H as <-.
Qed.

Lemma py_truediv_type (a b r : Number) : py_truediv a b = Ok r -> type_of r = TFloat.
Proof.
  destruct a as [x|x], b as [y|y]; cbn [py_truediv]; intros H.
  1: { destruct (y =? 0); [discriminate|]. destruct (is_inf (div_Z x y)); [discriminate|].
       now injection H as <-. }
  all: apply bind_eq_Ok in H as (u & _ & H); apply bind_eq_Ok in H as (v & _ & H);
       destruct (feq v fzero); [discriminate | now injection H as <-].
Qed.

(** C19 (type): the [-> Number] of the four methods, made precise: when
    it returns, [addition], [subtraction] and [multiplication] give an
    [int] exactly for two [int]s and a [float] otherwise, and [division]
    always gives a [float]. *)
Theorem operations_result_type (a b r : Number) :
  (addition a b = Ok r -> type_of r = arith_type (type_of a) (type_of b)) /\
  (subtraction a b = Ok r -> type_of r = arith_type (type_of a) (type_of b)) /\
  (multiplication a b = Ok r -> type_of r = arith_type (type_of a) (type_of b)) /\
  (division a b = Ok r -> type_of r = TFloat).
Proof.
  unfold addition, subtraction, multiplication, division.
  repeat split; intros H.
  1-3: destruct a, b; simpl in H |- *;
       [injection H as <-; reflexivity | eapply float_binop_type; exact H ..].
  destruct (py_truediv a b) as [r'|[]] eqn:E; try discriminate.
  injection H as <-. eapply py_truediv_type; exact E.
Qed.

Lemma division_raises_witness :
  division (PyFloat (S754_finite false 1 0)) (PyFloat fzero) =
    Raise (ValueError division_by_zero_message) /\
  ((ValueError division_by_zero_message = ValueError division_by_zero_message
    /\ is_zero_number (PyFloat fzero) = true)
   \/ exists m, ValueError division_by_zero_message = OverflowError m).
Proof.
  split; [reflexivity|].
  apply (division_raises (PyFloat (S754_finite false 1 0)) (PyFloat fzero)). reflexivity.
Defined.

Lemma addition_int_overflow_witness :
  addition (PyInt (2 ^ 1024 - 2 ^ 970)) (PyFloat fzero) =
    Raise (OverflowError "int too large to convert to float") /\
  addition (PyInt (2 ^ 1024 - 2 ^ 970 - 1)) (PyFloat fzero) <>
    Raise (OverflowError "int too large to convert to float").
Proof.
  split; [apply addition_int_overflow; lia|].
  intros H. apply addition_int_overflow in H. lia.
Defined.

Lemma addition_subtraction_exact_witness :
  addition (PyFloat (of_Z (2 ^ 53 - 1))) (PyFloat (of_Z 2)) = Ok (PyFloat (of_Z (2 ^ 53 + 1))) /\
  subtraction (PyFloat (of_Z 3)) (PyFloat (of_Z 5)) = Ok (PyFloat (of_Z (-2))).
Proof.
  split; [exact (proj1 (addition_subtraction_exact (2 ^ 53 - 1) 2 ltac:(lia) ltac:(lia)))
         | exact (proj2 (addition_subtraction_exact 3 5 ltac:(lia) ltac:(lia)))].
Defined.

Lemma multiplication_exact_witness :
  multiplication (PyFloat (of_Z 0)) (PyFloat (of_Z (-3))) = Ok (PyFloat (S754_zero true)).
Proof. apply (multiplication_exact 0 (-3)); lia. Defined.

Lemma division_exact_witness :
  division (PyFloat (of_Z 1)) (PyFloat (of_Z 3)) = Ok (PyFloat (div_Z 1 3)).
Proof. apply (division_exact 1 3); lia. Defined.

Lemma division_int_exact_witness :
  division (PyInt (10 ^ 400)) (PyInt (10 ^ 399)) = Ok (PyFloat (of_Z 10)) /\
  division (PyInt (2 ^ 1024)) (PyInt 1) =
    Raise (OverflowError "integer division result too large for a float").
Proof.
  split; [rewrite (division_int_exact (10 ^ 400) (10 ^ 399) 10) by (reflexivity || lia)
         | rewrite (division_int_exact (2 ^ 1024) 1 (2 ^ 1024)) by (reflexivity || lia)];
    reflexivity.
Defined.

Lemma operations_result_type_witness : type_of (PyInt 5) = TInt.
Proof. apply (proj1 (operations_result_type (PyInt 2) (PyInt 3) (PyInt 5))). reflexivity. Defined.

End Operations.
