(* ===== verification/PyStr.v ===== *)
(** * Python [str] methods used by the loop: [strip], [split], [lower]

    A Python [str] is a sequence of code points; here a [string] whose
    8-bit characters stand for the code points U+0000..U+00FF (Latin-1),
    the range in which these methods are modelled exactly.
    [str.isspace] (CPython's [Py_UNICODE_ISSPACE]) holds on that range
    for U+0009..U+000D, U+001C..U+0020, U+0085 and U+00A0; [str.lower]
    maps A..Z and U+00C0..U+00DE except U+00D7 to their lowercase letters,
    32 code points up. *)

From Stdlib Require Import Ascii String List Bool Lia.
From S2P Require Import Prelude.
Import ListNotations.

Local Open Scope string_scope.


Module PyStr.

(** [Py_UNICODE_ISSPACE] on U+0000..U+00FF. *)
Definition isspace (c : ascii) : bool :=
  let n := nat_of_ascii c in
  (Nat.leb 9 n && Nat.leb n 13) || (Nat.leb 28 n && Nat.leb n 32)
  || Nat.eqb n 133 || Nat.eqb n 160.

(** [str.lstrip()]: drop the leading whitespace. *)
Fixpoint lstrip (s : string) : string :=
  match s with
  | EmptyString => EmptyString
  | String c t => if isspace c then lstrip t else s
  end.

(** [str.rstrip()]: drop the trailing whitespace. *)
Fixpoint rstrip (s : string) : string :=
  match s with
  | EmptyString => EmptyString
  | String c t =>
      let t' := rstrip t in
      match t' with
      | EmptyString => if isspace c then EmptyString else String c EmptyString
      | _ => String c t'
      end
  end.

(** [str.strip()] ([do_strip]): both ends. *)
Definition strip (s : string) : string := rstrip (lstrip s).

(** [str.split()] with no separator ([split_whitespace]): runs of
    whitespace separate the words, leading and trailing whitespace give
    no empty word.  [word] is the word read so far, [str[j:i]] of the C
    loop. *)
Fixpoint split_from (s : string) (word : string) : list string :=
  match s with
  | EmptyString =>
      match word with EmptyString => [] | _ => [word] end
  | String c t =>
      if isspace c then
        match word with
        | EmptyString => split_from t EmptyString
        | _ => word :: split_from t EmptyString
        end
      else split_from t (word ++ String c EmptyString)
  end.

Definition split (s : string) : list string := split_from s EmptyString.

(** [Py_UNICODE_TOLOWER] on U+0000..U+00FF. *)
Definition lower_char (c : ascii) : ascii :=
  let n := nat_of_ascii c in
  if (Nat.leb 65 n && Nat.leb n 90) || (Nat.leb 192 n && Nat.leb n 222 && negb (Nat.eqb n 215))
  then ascii_of_nat (n + 32) else c.

(** [str.lower()]. *)
Fixpoint lower (s : string) : string :=
  match s with
  | EmptyString => EmptyString
  | String c t => String (lower_char c) (lower t)
  end.

(** Whether a string contains a whitespace character. *)
Fixpoint has_space (s : string) : bool :=
  match s with
  | EmptyString => false
  | String c t => isspace c || has_space t
  end.

(** A word of [split]'s result: nonempty, without whitespace. *)
Definition word_ok (w : string) : Prop := w <> EmptyString /\ has_space w = false.

(** [" ".join(ws)] *)
Definition join_space (ws : list string) : string := String.concat " " ws.

(** ** [strip] *)

Lemma strip_no_space (s : string) : has_space s = false -> strip s = s.
Proof.
  intros Hs. unfold strip.
  assert (Hl : lstrip s = s) by (destruct s as [|c t]; simpl in *; [reflexivity|];
    apply orb_false_iff in Hs as [-> _]; reflexivity).
  rewrite Hl. clear Hl. induction s as [|c t IH]; simpl in *; [reflexivity|].
  apply orb_false_iff in Hs as [Hc Ht]. rewrite IH by exact Ht.
  destruct t; [rewrite Hc|]; reflexivity.
Qed.

(** ** [split] *)

Lemma has_space_app (a b : string) : has_space (a ++ b) = has_space a || has_space b.
Proof. induction a as [|c a IH]; simpl; [reflexivity|]. rewrite IH. apply orb_assoc. Qed.

Lemma split_from_words (s w : string) :
  has_space w = false -> Forall word_ok (split_from s w).
Proof.
  revert w. induction s as [|c t IH]; intros w Hw; simpl.
  - destruct w; constructor; [split; [discriminate | exact Hw] | constructor].
  - destruct (isspace c) eqn:Hc.
    + destruct w; [apply IH; reflexivity|].
      constructor; [split; [discriminate | exact Hw] | apply IH; reflexivity].
    + apply IH. rewrite has_space_app, Hw. simpl. now rewrite Hc.
Qed.

(** C30 (invariant): every word [str.split()] returns is nonempty and
    free of whitespace. *)
Theorem split_words (s : string) : Forall word_ok (split s).
Proof. apply split_from_words. reflexivity. Qed.

Lemma split_from_word (w t acc : string) :
  has_space w = false -> split_from (w ++ t) acc = split_from t (acc ++ w).
Proof.
  revert acc. induction w as [|c w IH]; intros acc Hw; simpl in *.
  - now rewrite string_app_nil_r.
  - apply orb_false_iff in Hw as [Hc Hw]. rewrite Hc, IH by exact Hw.
    now rewrite string_app_assoc.
Qed.

(** C29 (roundtrip): splitting words joined by single spaces gives the
    words back: [" ".join(ws).split() == ws] for words without
    whitespace. *)
Theorem split_join (ws : list string) :
  Forall word_ok ws -> split (join_space ws) = ws.
Proof.
  unfold split, join_space. induction 1 as [|w ws [Hne Hw] Hws IH]; [reflexivity|].
  simpl. destruct ws as [|w' ws'].
  - pose proof (split_from_word w "" "" Hw) as H. rewrite string_app_nil_r in H.
    rewrite H. simpl. destruct w; [congruence | reflexivity].
  - rewrite split_from_word by exact Hw. simpl. destruct w; [congruence|]. simpl in IH. now rewrite IH.
Qed.

(** ** [strip] does not change what [split] returns *)

Lemma split_from_lstrip (s : string) : split_from (lstrip s) EmptyString = split_from s EmptyString.
Proof. induction s as [|c t IH]; simpl; [reflexivity|]. destruct (isspace c) eqn:Hc; [exact IH | simpl; now rewrite Hc]. Qed.

Lemma rstrip_empty_split (t acc : string) :
  rstrip t = EmptyString -> split_from t acc = split_from EmptyString acc.
Proof.
  revert acc. induction t as [|c t IH]; intros acc H; [reflexivity|]. simpl in H |- *.
  destruct (rstrip t) eqn:Ht; [|discriminate].
  destruct (isspace c); [|discriminate].
  destruct acc; rewrite IH by reflexivity; reflexivity.
Qed.

Lemma split_from_rstrip (s acc : string) : split_from (rstrip s) acc = split_from s acc.
Proof.
  revert acc. induction s as [|c t IH]; intros acc; [reflexivity|].
  simpl rstrip. destruct (rstrip t) as [|a r] eqn:Ht.
  - pose proof (rstrip_empty_split t) as Hempty. simpl split_from at 2.
    destruct (isspace c) eqn:Hc.
    + simpl. destruct acc; rewrite Hempty by exact Ht; reflexivity.
    + simpl. rewrite Hc, Hempty by exact Ht. reflexivity.
  - simpl split_from. rewrite <- !IH. destruct (isspace c); reflexivity.
Qed.

Lemma split_of_strip (s : string) : split (strip s) = split s.
Proof. unfold split, strip. now rewrite split_from_rstrip, split_from_lstrip. Qed.

(** ** [lower] *)

(** A lowercase ASCII letter [x] has exactly two preimages under
    [lower_char], [x] and its capital [X], when the enumeration says so. *)
Lemma lower_char_preimage (x X : ascii) :
  forallb (fun c => Bool.eqb (Ascii.eqb (lower_char c) x) (Ascii.eqb c x || Ascii.eqb c X))
          all_ascii = true ->
  forall c, lower_char c = x <-> c = x \/ c = X.
Proof.
  intros H c. pose proof (ascii_forall _ H c) as Hc. simpl in Hc.
  destruct (Ascii.eqb_spec (lower_char c) x), (Ascii.eqb_spec c x), (Ascii.eqb_spec c X);
    simpl in Hc; intuition congruence.
Qed.

Lemma lower_char_e (c : ascii) : lower_char c = "e"%char <-> c = "e"%char \/ c = "E"%char.
Proof. apply lower_char_preimage. vm_compute. reflexivity. Qed.

Lemma lower_char_x (c : ascii) : lower_char c = "x"%char <-> c = "x"%char \/ c = "X"%char.
Proof. apply lower_char_preimage. vm_compute. reflexivity. Qed.

Lemma lower_char_i (c : ascii) : lower_char c = "i"%char <-> c = "i"%char \/ c = "I"%char.
Proof. apply lower_char_preimage. vm_compute. reflexivity. Qed.

Lemma lower_char_t (c : ascii) : lower_char c = "t"%char <-> c = "t"%char \/ c = "T"%char.
Proof. apply lower_char_preimage. vm_compute. reflexivity. Qed.

(** [lower()] keeps whitespace and everything else apart. *)
Lemma isspace_lower_char (c : ascii) : isspace (lower_char c) = isspace c.
Proof.
  apply Bool.eqb_prop.
  exact (ascii_forall (fun c => Bool.eqb (isspace (lower_char c)) (isspace c))
           ltac:(vm_compute; reflexivity) c).
Qed.

Lemma has_space_lower (s : string) : has_space (lower s) = has_space s.
Proof. induction s as [|c t IH]; simpl; [reflexivity|]. now rewrite isspace_lower_char, IH. Qed.

Lemma split_single (w : string) : w <> EmptyString -> has_space w = false -> split w = [w].
Proof.
  intros Hne Hw. unfold split. pose proof (split_from_word w "" "" Hw) as H.
  rewrite string_app_nil_r in H. rewrite H. simpl. destruct w; [congruence | reflexivity].
Qed.

(** A line that lowercases to [exit] is one word. *)
Lemma split_lower_exit (s : string) : lower s = "exit" -> split s = [s].
Proof.
  intros H. apply split_single.
  - intros ->. discriminate.
  - rewrite <- has_space_lower, H. reflexivity.
Qed.

(** C28 (functional): [s.lower() == 'exit'] holds exactly for the sixteen
    spellings of "exit" in upper and lower case: no other Latin-1
    character lowercases to one of its letters. *)
Theorem lower_eq_exit (s : string) :
  lower s = "exit" <->
  exists a b c d, s = String a (String b (String c (String d EmptyString)))
    /\ (a = "e" \/ a = "E")%char /\ (b = "x" \/ b = "X")%char
    /\ (c = "i" \/ c = "I")%char /\ (d = "t" \/ d = "T")%char.
Proof.
  split.
  - intros H. destruct s as [|a [|b [|c [|d [|e s]]]]]; simpl in H; try discriminate.
    injection H as Ha Hb Hc Hd.
    exists a, b, c, d. rewrite <- lower_char_e, <- lower_char_x, <- lower_char_i, <- lower_char_t.
    auto.
  - intros (a & b & c & d & -> & Ha & Hb & Hc & Hd).
    rewrite <- lower_char_e in Ha. rewrite <- lower_char_x in Hb.
    rewrite <- lower_char_i in Hc. rewrite <- lower_char_t in Hd.
    simpl. now rewrite Ha, Hb, Hc, Hd.
Qed.

Lemma split_join_witness : split (join_space ["3"; "+"; "3"]) = ["3"; "+"; "3"].
Proof.
  apply split_join.
  repeat constructor; try reflexivity; discriminate.
Defined.

End PyStr.
