(* ===== verification/FloatRepr.v ===== *)
(** * [repr(x)] / [str(x)] of a float, as [f"Result: {result}"] prints it

    [float_repr] calls [PyOS_double_to_string(x, 'r', 0,
    Py_DTSF_ADD_DOT_0)], which asks [_Py_dg_dtoa] in mode 0 for the
    shortest digit string that reads back as [x] (among the shortest, the
    one nearest to [x], ties to an even last digit) and lays the digits
    out in [format_float_short]: positional notation with at least one
    digit after the point when the decimal point position [decpt]
    satisfies [-4 < decpt <= 16], scientific notation [d.ddde+XX]
    otherwise.

    The shortest digits are computed exactly on integers: [x = m * 2^e]
    reads back as [x] when it lies in the rounding interval of [x], which
    is [x +- 2^(e-1)] (closer below a power of two that is not the
    smallest normal), closed when [m] is even (ties go to the even
    mantissa).  For [n = 1 .. 17] digits the two [n]-digit candidates
    around [x] are tested; 17 digits always suffice for binary64. *)

From Stdlib Require Import ZArith Ascii String List Bool DecimalString Floats.SpecFloat Lia.
From S2P Require Import Prelude Binary64 Digits.
Import Binary64 Digits.

Local Open Scope string_scope.
Local Open Scope Z_scope.

Module FloatRepr.

(** [D * 10^k] compared with [N * 2^f], exactly. *)
Definition cmp_dec_bin (D k N f : Z) : comparison :=
  Z.compare (D * 10 ^ Z.max k 0 * 2 ^ Z.max (- f) 0)
            (N * 2 ^ Z.max f 0 * 10 ^ Z.max (- k) 0).

(** The position of the decimal point of [x = m * 2^e]: the [p] with
    [10^(p-1) <= x < 10^p]. *)
Definition decpt_of (m : positive) (e : Z) : Z :=
  let a := Zpos m * 2 ^ Z.max e 0 in
  let b := 2 ^ Z.max (- e) 0 in
  if b <=? a then ndigits (a / b)
  else 1 - ndigits ((b + a - 1) / a - 1).

(** Whether [D * 10^k] reads back as [m * 2^e] (round to nearest, ties
    to even), in units of [2^(e-2)]: [x] is [4m], the upper bound [4m+2],
    the lower bound [4m-2], or [4m-1] when the predecessor of [x] has a
    smaller exponent. *)
Definition in_interval (m : positive) (e D k : Z) : bool :=
  let lo := if (Zpos m =? 2 ^ 52) && (-1074 <? e) then 4 * Zpos m - 1 else 4 * Zpos m - 2 in
  let hi := 4 * Zpos m + 2 in
  let closed := Z.even (Zpos m) in
  let above_lo := match cmp_dec_bin D k lo (e - 2) with
                  | Gt => true | Eq => closed | Lt => false end in
  let below_hi := match cmp_dec_bin D k hi (e - 2) with
                  | Lt => true | Eq => closed | Gt => false end in
  above_lo && below_hi.

(** The [n]-digit candidates [D_lo * 10^k <= x < (D_lo + 1) * 10^k],
    [k = decpt - n]; the one that reads back and is nearest wins. *)
Definition candidate (m : positive) (e p n : Z) : option (Z * Z) :=
  let k := p - n in
  let num := Zpos m * 2 ^ Z.max e 0 * 10 ^ Z.max (- k) 0 in
  let den := 2 ^ Z.max (- e) 0 * 10 ^ Z.max k 0 in
  let dlo := num / den in
  let dhi := dlo + 1 in
  match in_interval m e dlo k, in_interval m e dhi k with
  | true, true =>
      match cmp_dec_bin (2 * dlo + 1) k (8 * Zpos m) (e - 2) with
      | Gt => Some (dlo, k)
      | Lt => Some (dhi, k)
      | Eq => Some (if Z.even dlo then dlo else dhi, k)
      end
  | true, false => Some (dlo, k)
  | false, true => Some (dhi, k)
  | false, false => None
  end.

Fixpoint shortest_from (m : positive) (e p n : Z) (fuel : nat) : Z * Z :=
  match fuel with
  | O => ((Zpos m * 2 ^ Z.max e 0 * 10 ^ Z.max (17 - p) 0)
          / (2 ^ Z.max (- e) 0 * 10 ^ Z.max (p - 17) 0), p - 17)
  | S f =>
      match candidate m e p n with
      | Some r => r
      | None => shortest_from m e p (n + 1) f
      end
  end.

(** Drop the trailing zeros of [D * 10^k]. *)
Fixpoint strip_zeros (fuel : nat) (D k : Z) : Z * Z :=
  match fuel with
  | O => (D, k)
  | S f => if (0 <? D) && (D mod 10 =? 0) then strip_zeros f (D / 10) (k + 1) else (D, k)
  end.

(** [_Py_dg_dtoa(x, 0, ...)] for [x = m * 2^e > 0]: the digit string and
    [decpt], the value being [0.digits * 10^decpt]. *)
Definition dtoa_shortest (m : positive) (e : Z) : string * Z :=
  let p := decpt_of m e in
  let '(D0, k0) := shortest_from m e p 1 17 in
  let '(D, k) := strip_zeros 20 D0 k0 in
  (digits_of D, k + ndigits D).

(** [sprintf("%+.02d", exp)] *)
Definition exponent_text (x : Z) : string :=
  (if x <? 0 then "-" else "+") ++
  (if Z.abs x <? 10 then "0" else "") ++ digits_of (Z.abs x).

(** [if (p[-1] == decimal_point && !use_alt_formatting) p--;] *)
Definition drop_trailing_dot (s : string) : string :=
  match String.length s with
  | O => s
  | S n =>
      match String.get n s with
      | Some "."%char => substring 0 n s
      | _ => s
      end
  end.

(** [format_float_short] for the ['r'] type with [Py_DTSF_ADD_DOT_0],
    given the sign, the digits [ds] and [decpt]: steps 1 to 4 of the C
    code (sign, zeros on the left, digits with the point, zeros on the
    right), the trailing point dropped, then the exponent. *)
Definition format_float_short (neg : bool) (ds : string) (decpt : Z) : string :=
  let L := Z.of_nat (String.length ds) in
  let use_exp := (decpt <=? -4) || (16 <? decpt) in
  let exp := decpt - 1 in
  let dp := if use_exp then 1 else decpt in
  let vdigits_start := if dp <=? 0 then dp - 1 else 0 in
  let vdigits_end := if use_exp then Z.max L dp else Z.max L (dp + 1) in
  let body :=
    if dp <=? 0 then
      zeros_Z (dp - vdigits_start) ++ "." ++ zeros_Z (- dp) ++ ds ++ zeros_Z (vdigits_end - L)
    else if dp <=? L then
      substring 0 (Z.to_nat dp) ds ++ "." ++ substring (Z.to_nat dp) (Z.to_nat (L - dp)) ds
      ++ zeros_Z (vdigits_end - L)
    else
      ds ++ zeros_Z (dp - L) ++ "." ++ zeros_Z (vdigits_end - dp) in
  (if neg then "-" else "") ++ drop_trailing_dot body ++
  (if use_exp then "e" ++ exponent_text exp else "").

(** [float_repr]: special values first, then the shortest digits. *)
Definition float_repr (x : float) : string :=
  match x with
  | S754_nan => "nan"
  | S754_infinity neg => if neg then "-inf" else "inf"
  | S754_zero neg => format_float_short neg "0" 1
  | S754_finite neg m e =>
      let '(ds, decpt) := dtoa_shortest m e in
      format_float_short neg ds decpt
  end.

(** [repr] of a zero: [0.0] or [-0.0]. *)
Lemma float_repr_zero (s : bool) : float_repr (S754_zero s) = (if s then "-" else "") ++ "0.0".
Proof. now destruct s. Qed.

(** ** Integer-valued doubles

    For [x = m * 2^e] an integer [N] below [2^53], a decimal [D * 10^k]
    with [k >= 0] reads back as [x] only when it equals [N]
    ([in_interval_int]), so the search of [shortest_from] stops on [N]
    with its trailing zeros dropped, and [format_float_short] writes
    [N]'s digits followed by [.0]. *)

Lemma substring_all (s : string) : substring 0 (String.length s) s = s.
Proof. induction s as [|c t IH]; simpl; congruence. Qed.

Lemma substring_len0 (n : nat) (s : string) : substring n 0 s = "".
Proof. revert s. induction n as [|n IH]; intros [|c t]; simpl; auto. Qed.

Lemma length_app (a b : string) : String.length (a ++ b) = (String.length a + String.length b)%nat.
Proof. induction a as [|c t IH]; simpl; congruence. Qed.

Lemma get_app (a b : string) (i : nat) : String.get (String.length a + i) (a ++ b) = String.get i b.
Proof. induction a as [|c t IH]; simpl; auto. Qed.

Lemma drop_trailing_dot_point_zero (t : string) : drop_trailing_dot (t ++ ".0") = t ++ ".0".
Proof.
  unfold drop_trailing_dot. rewrite length_app. cbn [String.length].
  rewrite Nat.add_succ_r, Nat.add_1_r, <- Nat.add_1_r, get_app. reflexivity.
Qed.

(** The place of the decimal point of an integer-valued double. *)
Lemma decpt_int (m : positive) (e N : Z) :
  Zpos m = N * 2 ^ (- e) -> 0 < N -> e <= 0 -> decpt_of m e = ndigits N.
Proof.
  intros Hm HN He. unfold decpt_of.
  replace (Z.max e 0) with 0 by lia. replace (Z.max (- e) 0) with (- e) by lia.
  rewrite Z.pow_0_r, Z.mul_1_r, Hm. pose proof (Z.pow_pos_nonneg 2 (- e) ltac:(lia)).
  rewrite Z.div_mul by lia. destruct (Z.leb_spec (2 ^ (- e)) (N * 2 ^ (- e))); [reflexivity | nia].
Qed.

(** Near an integer-valued double, a decimal [D * 10^k] with [k >= 0]
    reads back exactly when it is the integer: the rounding interval has
    radius at most [1/2]. *)
Lemma in_interval_int (m : positive) (e N D k : Z) :
  Zpos m = N * 2 ^ (- e) -> e <= 0 -> 0 <= k -> in_interval m e D k = (D * 10 ^ k =? N).
Proof.
  intros Hm He Hk. unfold in_interval, cmp_dec_bin.
  replace (Z.max k 0) with k by lia. replace (Z.max (- (e - 2)) 0) with (2 - e) by lia.
  replace (Z.max (e - 2) 0) with 0 by lia. replace (Z.max (- k) 0) with 0 by lia.
  rewrite !Z.pow_0_r, !Z.mul_1_r.
  replace (2 ^ (2 - e)) with (4 * 2 ^ (- e))
    by (replace (2 - e) with (2 + - e) by lia; rewrite Z.pow_add_r by lia; reflexivity).
  pose proof (Z.pow_pos_nonneg 2 (- e) ltac:(lia)) as Ht.
  set (X := D * 10 ^ k). set (t := 2 ^ (- e)) in *.
  destruct ((Zpos m =? 2 ^ 52) && (-1074 <? e));
  destruct (Z.lt_trichotomy X N) as [H|[H|H]];
    [ rewrite (proj2 (Z.eqb_neq X N)) by lia | rewrite (proj2 (Z.eqb_eq X N)) by lia
    | rewrite (proj2 (Z.eqb_neq X N)) by lia | rewrite (proj2 (Z.eqb_neq X N)) by lia
    | rewrite (proj2 (Z.eqb_eq X N)) by lia | rewrite (proj2 (Z.eqb_neq X N)) by lia ];
  repeat match goal with |- context [Z.compare ?a ?b] =>
    destruct (Z.compare_spec a b); try (exfalso; nia) end; reflexivity.
Qed.

Lemma candidate_int (m : positive) (e N p n : Z) :
  Zpos m = N * 2 ^ (- e) -> 0 < N -> e <= 0 -> n <= p ->
  candidate m e p n =
  if N / 10 ^ (p - n) * 10 ^ (p - n) =? N then Some (N / 10 ^ (p - n), p - n) else None.
Proof.
  intros Hm HN He Hn. unfold candidate.
  replace (Z.max e 0) with 0 by lia. replace (Z.max (- (p - n)) 0) with 0 by lia.
  replace (Z.max (- e) 0) with (- e) by lia. replace (Z.max (p - n) 0) with (p - n) by lia.
  pose proof (Z.pow_pos_nonneg 2 (- e) ltac:(lia)). pose proof (Z.pow_pos_nonneg 10 (p - n) ltac:(lia)).
  rewrite !Z.pow_0_r, !Z.mul_1_r, Hm, (Z.mul_comm (2 ^ (- e))), Z.div_mul_cancel_r by lia.
  rewrite !(in_interval_int m e N) by lia.
  replace ((N / 10 ^ (p - n) + 1) * 10 ^ (p - n) =? N) with false.
  - now destruct (N / 10 ^ (p - n) * 10 ^ (p - n) =? N).
  - symmetry. apply Z.eqb_neq. pose proof (Z.div_mod N (10 ^ (p - n))).
    pose proof (Z.mod_pos_bound N (10 ^ (p - n))). lia.
Qed.

(** The search from [n] digits on stops, at the latest at the full
    number of digits [p], on the integer written [D * 10^k], whenever each
    [n]-digit candidate is the integer rounded to [n] digits if that is
    exact and nothing otherwise. *)
Lemma shortest_from_spec (m : positive) (e N p : Z) (fuel : nat) (n : Z) :
  (forall n', n <= n' <= p -> candidate m e p n' =
     if N / 10 ^ (p - n') * 10 ^ (p - n') =? N then Some (N / 10 ^ (p - n'), p - n') else None) ->
  1 <= n <= p -> p - n < Z.of_nat fuel ->
  exists D k, shortest_from m e p n fuel = (D, k) /\ D * 10 ^ k = N /\ 0 <= k.
Proof.
  revert n. induction fuel as [|f IH]; intros n Hc Hn Hf; [lia|].
  cbn [shortest_from]. rewrite Hc by lia.
  destruct (Z.eqb_spec (N / 10 ^ (p - n) * 10 ^ (p - n)) N) as [Hd|Hd].
  - exists (N / 10 ^ (p - n)), (p - n). repeat split; [exact Hd | lia].
  - apply IH; [intros n' Hn'; apply Hc; lia | | lia]. split; [lia|]. destruct (Z.eq_dec n p) as [->|]; [|lia].
    exfalso. apply Hd. rewrite Z.sub_diag, Z.pow_0_r, Z.div_1_r. ring.
Qed.

Lemma shortest_from_int (m : positive) (e N p : Z) (fuel : nat) (n : Z) :
  Zpos m = N * 2 ^ (- e) -> 0 < N -> e <= 0 -> 1 <= n <= p -> p - n < Z.of_nat fuel ->
  exists D k, shortest_from m e p n fuel = (D, k) /\ D * 10 ^ k = N /\ 0 <= k.
Proof.
  intros Hm HN He. apply shortest_from_spec. intros n' Hn'. apply candidate_int; assumption || lia.
Qed.

Lemma strip_zeros_int (fuel : nat) (D k : Z) : 0 < D -> 0 <= k ->
  exists D' k', strip_zeros fuel D k = (D', k') /\ D' * 10 ^ k' = D * 10 ^ k /\ 0 < D' /\ k <= k'.
Proof.
  revert D k. induction fuel as [|f IH]; intros D k HD Hk; [exists D, k; auto with zarith|].
  cbn [strip_zeros]. destruct ((0 <? D) && (D mod 10 =? 0)) eqn:Hz; [|exists D, k; auto with zarith].
  apply andb_true_iff in Hz as [_ Hz]. apply Z.eqb_eq in Hz.
  assert (HD10 : D = D / 10 * 10) by (pose proof (Z.div_mod D 10); lia).
  destruct (IH (D / 10) (k + 1)) as (D' & k' & -> & H1 & H2 & H3); [lia | lia |].
  exists D', k'. repeat split; [| lia | lia]. rewrite H1.
  transitivity (D / 10 * 10 * 10 ^ k); [rewrite Z.pow_add_r, Z.pow_1_r by lia; ring | now rewrite <- HD10].
Qed.

Lemma dtoa_shortest_spec (m : positive) (e N : Z) :
  decpt_of m e = ndigits N ->
  (forall n, 1 <= n <= ndigits N -> candidate m e (ndigits N) n =
     if N / 10 ^ (ndigits N - n) * 10 ^ (ndigits N - n) =? N
     then Some (N / 10 ^ (ndigits N - n), ndigits N - n) else None) ->
  0 < N -> ndigits N <= 16 ->
  exists D k, dtoa_shortest m e = (digits_of D, ndigits N) /\ D * 10 ^ k = N /\ 0 < D /\ 0 <= k.
Proof.
  intros Hp Hc HN H16. unfold dtoa_shortest. rewrite Hp.
  destruct (ndigits_spec N HN) as (Hd & _).
  destruct (shortest_from_spec m e N (ndigits N) 17 1) as (D0 & k0 & -> & H0 & Hk0); try lia; [exact Hc|].
  assert (HD0 : 0 < D0) by (pose proof (Z.pow_pos_nonneg 10 k0); nia).
  destruct (strip_zeros_int 20 D0 k0 HD0 Hk0) as (D & k & -> & H1 & H2 & H3).
  exists D, k. repeat split; [| lia | lia | lia].
  rewrite <- H0, <- H1, ndigits_mul_pow10 by lia. f_equal. lia.
Qed.

Lemma dtoa_shortest_int (m : positive) (e N : Z) :
  Zpos m = N * 2 ^ (- e) -> 0 < N -> e <= 0 -> ndigits N <= 16 ->
  exists D k, dtoa_shortest m e = (digits_of D, ndigits N) /\ D * 10 ^ k = N /\ 0 < D /\ 0 <= k.
Proof.
  intros Hm HN He H16. apply dtoa_shortest_spec; [now apply decpt_int | | assumption ..].
  intros n Hn. apply candidate_int; assumption || lia.
Qed.

(** ** Integer-valued doubles from [2^53] to [10^16]

    Above [2^53] a double [m * 2^1] is an even integer and its rounding
    interval has radius [1]: a decimal with a zero last digit is even,
    so it reads back only when it is the integer, and among the two
    full-length candidates the nearest is the integer itself. *)

Lemma in_interval_int1 (m : positive) (D k : Z) :
  1 <= k -> in_interval m 1 D k = (D * 10 ^ k =? 2 * Zpos m).
Proof.
  intros Hk. unfold in_interval, cmp_dec_bin.
  replace (Z.max k 0) with k by lia. replace (Z.max (- (1 - 2)) 0) with 1 by lia.
  replace (Z.max (1 - 2) 0) with 0 by lia. replace (Z.max (- k) 0) with 0 by lia.
  rewrite !Z.pow_0_r, Z.pow_1_r, !Z.mul_1_r.
  assert (HY : exists Y, D * 10 ^ k = 2 * Y).
  { exists (D * 5 * 10 ^ (k - 1)). replace k with (1 + (k - 1)) at 1 by lia.
    rewrite Z.pow_add_r, Z.pow_1_r by lia. ring. }
  destruct HY as [Y HY]. set (X := D * 10 ^ k) in *.
  destruct ((Zpos m =? 2 ^ 52) && (-1074 <? 1));
  destruct (Z.lt_trichotomy X (2 * Zpos m)) as [H|[H|H]];
    [ rewrite (proj2 (Z.eqb_neq X _)) by lia | rewrite (proj2 (Z.eqb_eq X _)) by lia
    | rewrite (proj2 (Z.eqb_neq X _)) by lia | rewrite (proj2 (Z.eqb_neq X _)) by lia
    | rewrite (proj2 (Z.eqb_eq X _)) by lia | rewrite (proj2 (Z.eqb_neq X _)) by lia ];
  repeat match goal with |- context [Z.compare ?a ?b] =>
    destruct (Z.compare_spec a b); try (exfalso; lia) end; reflexivity.
Qed.

Lemma in_interval_self1 (m : positive) : in_interval m 1 (2 * Zpos m) 0 = true.
Proof.
  unfold in_interval, cmp_dec_bin. cbn [Z.max Z.opp Z.sub Z.add]. rewrite !Z.pow_0_r, Z.pow_1_r, !Z.mul_1_r.
  destruct ((Zpos m =? 2 ^ 52) && (-1074 <? 1));
  repeat match goal with |- context [Z.compare ?a ?b] =>
    destruct (Z.compare_spec a b); try (exfalso; lia) end; reflexivity.
Qed.

Lemma candidate_int1 (m : positive) (p n : Z) : n <= p ->
  candidate m 1 p n =
  if 2 * Zpos m / 10 ^ (p - n) * 10 ^ (p - n) =? 2 * Zpos m
  then Some (2 * Zpos m / 10 ^ (p - n), p - n) else None.
Proof.
  intros Hn. unfold candidate.
  replace (Z.max 1 0) with 1 by lia. replace (Z.max (- (p - n)) 0) with 0 by lia.
  replace (Z.max (- 1) 0) with 0 by lia. replace (Z.max (p - n) 0) with (p - n) by lia.
  rewrite !Z.pow_0_r, Z.pow_1_r, !Z.mul_1_r, Z.mul_1_l, (Z.mul_comm (Zpos m) 2).
  pose proof (Z.pow_pos_nonneg 10 (p - n) ltac:(lia) ltac:(lia)).
  destruct (Z.eq_dec n p) as [->|Hlt].
  - rewrite Z.sub_diag, Z.pow_0_r, !Z.div_1_r, Z.mul_1_r, Z.eqb_refl, in_interval_self1.
    destruct (in_interval m 1 (2 * Zpos m + 1) 0); [|reflexivity].
    unfold cmp_dec_bin. cbn [Z.max Z.opp Z.sub Z.add]. rewrite !Z.pow_0_r, Z.pow_1_r, !Z.mul_1_r.
    destruct (Z.compare_spec ((2 * (2 * Zpos m) + 1) * 2) (8 * Zpos m)); [lia | lia | reflexivity].
  - rewrite !in_interval_int1 by lia.
    replace ((2 * Zpos m / 10 ^ (p - n) + 1) * 10 ^ (p - n) =? 2 * Zpos m) with false.
    + now destruct (2 * Zpos m / 10 ^ (p - n) * 10 ^ (p - n) =? 2 * Zpos m).
    + symmetry. apply Z.eqb_neq. pose proof (Z.div_mod (2 * Zpos m) (10 ^ (p - n))).
      pose proof (Z.mod_pos_bound (2 * Zpos m) (10 ^ (p - n))). lia.
Qed.

Lemma dtoa_shortest_int1 (m : positive) :
  ndigits (2 * Zpos m) <= 16 ->
  exists D k, dtoa_shortest m 1 = (digits_of D, ndigits (2 * Zpos m)) /\ D * 10 ^ k = 2 * Zpos m
    /\ 0 < D /\ 0 <= k.
Proof.
  intros H16. apply dtoa_shortest_spec; [| | lia | exact H16].
  - unfold decpt_of. cbn [Z.max Z.opp]. rewrite Z.pow_0_r, Z.pow_1_r, Z.div_1_r, (Z.mul_comm (Zpos m) 2).
    destruct (Z.leb_spec 1 (2 * Zpos m)); [reflexivity | lia].
  - intros n Hn. apply candidate_int1. lia.
Qed.

(** [format_float_short] on the digits of [D] with the point after
    [D * 10^k]: the digits, [k] zeros and [.0]. *)
Lemma format_float_short_int (s : bool) (D k : Z) :
  0 < D -> 0 <= k -> ndigits (D * 10 ^ k) <= 16 ->
  format_float_short s (digits_of D) (ndigits (D * 10 ^ k)) =
  (if s then "-" else "") ++ digits_of (D * 10 ^ k) ++ ".0".
Proof.
  intros HD Hk Hn. rewrite ndigits_mul_pow10 in * by lia.
  destruct (ndigits_spec D HD) as (Hd & _).
  rewrite <- (Z2Nat.id k), digits_of_mul_pow10 by lia.
  pose proof (length_digits_of D HD) as HL.
  unfold format_float_short. rewrite HL, Z2Nat.id by lia.
  replace ((ndigits D + k <=? -4) || (16 <? ndigits D + k)) with false
    by (symmetry; apply orb_false_iff; split; [apply Z.leb_gt | apply Z.ltb_ge]; lia).
  replace (ndigits D + k <=? 0) with false by (symmetry; apply Z.leb_gt; lia).
  replace (Z.max (ndigits D) (ndigits D + k + 1) - ndigits D) with (k + 1) by lia.
  destruct (Z.leb_spec (ndigits D + k) (ndigits D)).
  - replace k with 0 in * by lia. rewrite Z.add_0_r, Z.sub_diag.
    replace (Z.to_nat (ndigits D)) with (String.length (digits_of D)) by lia.
    rewrite substring_all, substring_len0. cbn [zeros_Z Z.to_nat zeros Z.add Pos.to_nat].
    change ("." ++ "" ++ zeros (Pos.to_nat 1)) with ".0".
    rewrite drop_trailing_dot_point_zero. py_simp. reflexivity.
  - replace (ndigits D + k - ndigits D) with k by lia.
    replace (Z.max (ndigits D) (ndigits D + k + 1) - (ndigits D + k)) with 1 by lia.
    change (zeros_Z 1) with "0". change ("." ++ "0") with ".0". unfold zeros_Z.
    rewrite <- (string_app_assoc (digits_of D)), drop_trailing_dot_point_zero.
    py_simp. reflexivity.
Qed.

Lemma ndigits_le16 (A : Z) : 0 < A < 10 ^ 16 -> ndigits A <= 16.
Proof.
  intros HA. destruct (ndigits_spec A) as (H1 & H2 & _); [lia|].
  destruct (Z.le_gt_cases (ndigits A) 16) as [|H]; [assumption|].
  pose proof (Z.pow_le_mono_r 10 16 (ndigits A - 1) ltac:(lia) ltac:(lia)). lia.
Qed.

(** [repr] of a double whose value is [+-A] for an integer [0 < A < 10^16],
    at an exponent [e <= 0] or at [e = 1]. *)
Lemma float_repr_abs (s : bool) (m : positive) (e A : Z) :
  0 < A < 10 ^ 16 -> (e <= 0 /\ Zpos m = A * 2 ^ (- e)) \/ (e = 1 /\ A = 2 * Zpos m) ->
  float_repr (S754_finite s m e) = (if s then "-" else "") ++ digits_of A ++ ".0".
Proof.
  intros HA Hc. pose proof (ndigits_le16 A HA) as H16.
  assert (Hdt : exists D k, dtoa_shortest m e = (digits_of D, ndigits A) /\ D * 10 ^ k = A /\ 0 < D /\ 0 <= k).
  { destruct Hc as [[He Hm]|[-> ->]]; [apply dtoa_shortest_int; assumption || lia | now apply dtoa_shortest_int1]. }
  destruct Hdt as (D & k & Hdt & HDk & HD & Hk).
  unfold float_repr. rewrite Hdt, <- HDk, format_float_short_int by (rewrite ?HDk; lia). reflexivity.
Qed.

Lemma float_repr_int (n : Z) : Z.abs n < 2 ^ 53 -> float_repr (of_Z n) = int_literal n ++ ".0".
Proof.
  intros Hn. destruct (Z.eq_dec n 0) as [->|Hn0]; [reflexivity|].
  destruct (of_Z_shape n Hn0 Hn) as (m & e & -> & Hm & He & _).
  rewrite (float_repr_abs _ m e (Z.abs n)) by lia. unfold int_literal. py_simp. reflexivity.
Qed.

(** The value of a valid finite double that is an integer below
    [10^16]: its exponent is at most [1] (a 53-bit mantissa at exponent
    [2] is already [2^54]). *)
Lemma integral_shape (s : bool) (m : positive) (e N : Z) :
  valid_binary prec emax (S754_finite s m e) = true ->
  int_value (S754_finite s m e) = Some N -> Z.abs N < 10 ^ 16 ->
  0 < Z.abs N /\ (N <? 0) = s /\
  ((e <= 0 /\ Zpos m = Z.abs N * 2 ^ (- e)) \/ (e = 1 /\ Z.abs N = 2 * Zpos m)).
Proof.
  intros Hv HN HB. apply valid_finite_iff in Hv as [Hc _]. cbn [int_value] in HN.
  pose proof (size_bounds m) as [Hs1 Hs2].
  destruct (Z.leb_spec 0 e) as [He|He].
  - injection HN as <-. pose proof (Z.pow_pos_nonneg 2 e ltac:(lia) He).
    assert (Hab : Z.abs (cond_Zopp s (Zpos m) * 2 ^ e) = Zpos m * 2 ^ e)
      by (destruct s; cbn [cond_Zopp]; rewrite ?Z.mul_opp_l, ?Z.abs_opp, Z.abs_mul, !Z.abs_eq by lia; reflexivity).
    rewrite Hab in *. split; [nia|].
    split; [destruct s; cbn [cond_Zopp]; [apply Z.ltb_lt | apply Z.ltb_ge]; nia|].
    destruct (Z.eq_dec e 0) as [->|He0]; [left; rewrite Z.pow_0_r in *; lia|].
    right. unfold fexp, emin, prec, emax in Hc.
    assert (Hsz : Zpos (Pos.size m) = 53) by lia. rewrite Hsz in Hs1. cbn in Hs1.
    destruct (Z.eq_dec e 1) as [->|He1]; [split; [reflexivity | lia]|].
    exfalso. assert (2 ^ 2 <= 2 ^ e) by (apply Z.pow_le_mono_r; lia). nia.
  - replace (0 <=? e) with false in HN by (symmetry; apply Z.leb_gt; lia).
    destruct (Z.eqb_spec (Zpos m mod 2 ^ (- e)) 0) as [Hd|]; [|discriminate].
    injection HN as <-. pose proof (Z.pow_pos_nonneg 2 (- e) ltac:(lia) ltac:(lia)).
    pose proof (Z.div_mod (Zpos m) (2 ^ (- e)) ltac:(lia)) as Em. rewrite Hd, Z.add_0_r in Em.
    assert (Hq : 0 < Zpos m / 2 ^ (- e)) by nia.
    assert (Hab : Z.abs (cond_Zopp s (Zpos m) / 2 ^ (- e)) = Zpos m / 2 ^ (- e)).
    { destruct s; cbn [cond_Zopp]; [|lia]. rewrite Z.div_opp_l_z by lia. lia. }
    assert (Hsg : (cond_Zopp s (Zpos m) / 2 ^ (- e) <? 0) = s).
    { destruct s; cbn [cond_Zopp]; [rewrite Z.div_opp_l_z by lia|]; apply Z.ltb_lt || apply Z.ltb_ge; lia. }
    rewrite Hab, Hsg. split; [lia|]. split; [reflexivity|]. left. split; [lia|]. lia.
Qed.

Lemma float_repr_finite_integral (s : bool) (m : positive) (e N : Z) :
  valid_binary prec emax (S754_finite s m e) = true ->
  int_value (S754_finite s m e) = Some N -> Z.abs N < 10 ^ 16 ->
  float_repr (S754_finite s m e) = int_literal N ++ ".0".
Proof.
  intros Hv HN HB. destruct (integral_shape s m e N Hv HN HB) as (Hpos & Hsg & Hc).
  rewrite (float_repr_abs s m e (Z.abs N)) by lia. unfold int_literal. rewrite Hsg. py_simp. reflexivity.
Qed.

(** The same for the float of an integer, zero included. *)
Lemma float_repr_of_Z_value (n r : Z) :
  int_value (of_Z n) = Some r -> Z.abs r < 10 ^ 16 -> float_repr (of_Z n) = int_literal r ++ ".0".
Proof.
  destruct (Z.eq_dec n 0) as [->|Hn]; [intros H _; injection H as <-; reflexivity|].
  pose proof (of_Z_valid n) as Hv. pose proof (proj1 (of_Z_zero_iff n)) as Hz.
  destruct (of_Z n) as [s|s| |s m e]; intros H Hr; try discriminate.
  - specialize (Hz eq_refl). congruence.
  - now apply float_repr_finite_integral.
Qed.

(** C26 (functional): [repr] of every finite double whose value is an
    integer [N] of magnitude below [10^16] is [N]'s decimal text followed
    by [.0]: exact integers below [2^53], and above [2^53] the even
    integers the doubles hold there ([f"Result: {result}"] prints
    [9007199254740994.0] for [2^53 + 2]).  From [10^16] on [repr] changes
    to exponent notation. *)
Theorem float_repr_integral (s : bool) (m : positive) (e N : Z) :
  valid_binary prec emax (S754_finite s m e) = true ->
  int_value (S754_finite s m e) = Some N -> Z.abs N < 10 ^ 16 ->
  float_repr (S754_finite s m e) = int_literal N ++ ".0".
Proof. exact (float_repr_finite_integral s m e N). Qed.

Lemma float_repr_integral_witness :
  float_repr (S754_finite false (2 ^ 52 + 1) 1) = int_literal (2 ^ 53 + 2) ++ ".0".
Proof. apply float_repr_integral; vm_compute; reflexivity. Defined.

End FloatRepr.
