(* ===== verification/FloatParse.v ===== *)
(** * [float(s)]: CPython's conversion of a string to a float

    [PyFloat_FromString] first checks and removes the underscores
    ([_Py_string_to_number_with_underscores]), then strips whitespace
    ([float_from_string_inner]) and reads the rest with
    [PyOS_string_to_double]: [_Py_dg_strtod] reads an optionally signed
    decimal literal with an optional exponent and rounds its exact value
    once to the nearest double (ties to even, [inf] on overflow, a signed
    zero on underflow); when it reads nothing, [_Py_parse_inf_or_nan]
    accepts [inf], [infinity] and [nan] in any case, optionally signed.
    Anything left unread raises [ValueError].

    The exact value [m * 10^e] is rounded with [SpecFloat]'s own rounding
    ([binary_normalize] for [e >= 0], the division core of [SFdiv] for
    [e < 0]).  Values whose binary magnitude is beyond [2^1100] or below
    [2^-1100] are sent to infinity or zero without computing [10^e]: both
    are far outside the range of doubles, so the result is the same. *)

From Stdlib Require Import ZArith Ascii String List Bool Floats.SpecFloat Lia.
From S2P Require Import Prelude Binary64 Digits PyStr.
Import Binary64 Digits.

Local Open Scope string_scope.
Local Open Scope Z_scope.

Module FloatParse.

Definition is_digit (c : ascii) : bool :=
  Nat.leb 48 (nat_of_ascii c) && Nat.leb (nat_of_ascii c) 57.

Definition digit_value (c : ascii) : Z := Z.of_nat (nat_of_ascii c) - 48.

(** [Py_TOLOWER]: ASCII letters only. *)
Definition ascii_lower (c : ascii) : ascii :=
  let n := nat_of_ascii c in
  if Nat.leb 65 n && Nat.leb n 90 then ascii_of_nat (n + 32) else c.

Fixpoint lower_ascii (s : string) : string :=
  match s with
  | EmptyString => EmptyString
  | String c t => String (ascii_lower c) (lower_ascii t)
  end.

Fixpoint has_char (x : ascii) (s : string) : bool :=
  match s with
  | EmptyString => false
  | String c t => Ascii.eqb c x || has_char x t
  end.

(** The loop of [_Py_string_to_number_with_underscores]: an underscore
    must follow a digit ([prev]) and be followed by a digit; the
    underscores are dropped. *)
Fixpoint drop_underscores (prev : ascii) (s : string) : option string :=
  match s with
  | EmptyString => if Ascii.eqb prev "_" then None else Some EmptyString
  | String c t =>
      if Ascii.eqb c "_" then
        if is_digit prev then drop_underscores c t else None
      else if Ascii.eqb prev "_" && negb (is_digit c) then None
      else option_map (String c) (drop_underscores c t)
  end.

(** A string without underscores is passed on unchanged. *)
Definition remove_underscores (s : string) : option string :=
  if has_char "_" s then drop_underscores Ascii.zero s else Some s.

(** [_Py_dg_strtod]'s reading of a run of digits: the digits are
    accumulated into [acc]; [n] counts them. *)
Fixpoint read_digits (s : string) (acc n : Z) : Z * Z * string :=
  match s with
  | String c t =>
      if is_digit c then read_digits t (acc * 10 + digit_value c) (n + 1)
      else (acc, n, s)
  | EmptyString => (acc, n, s)
  end.

Definition read_sign (s : string) : bool * string :=
  match s with
  | String "-" t => (true, t)
  | String "+" t => (false, t)
  | _ => (false, s)
  end.

(** The decimal literal [[sign] digits [. digits] [(e|E) [sign] digits]]
    with at least one mantissa digit, read to the end of the string:
    its sign, its digits as an integer [m] and its exponent [e], the value
    being [m * 10^e].  An [e] not followed by digits is not read, so it is
    left over and the string is refused. *)
Definition parse_decimal (s : string) : option (bool * Z * Z) :=
  let '(neg, s1) := read_sign s in
  let '(ipart, ni, s2) := read_digits s1 0 0 in
  let '(mant, nf, s3) :=
    match s2 with
    | String "." t => read_digits t ipart 0
    | _ => (ipart, 0, s2)
    end in
  if ni + nf =? 0 then None
  else
    match s3 with
    | EmptyString => Some (neg, mant, - nf)
    | String c t =>
        if Ascii.eqb c "e" || Ascii.eqb c "E" then
          let '(eneg, t1) := read_sign t in
          let '(ev, ne, t2) := read_digits t1 0 0 in
          match t2 with
          | EmptyString =>
              if ne =? 0 then None
              else Some (neg, mant, (if eneg then - ev else ev) - nf)
          | _ => None
          end
        else None
    end.

(** [_Py_parse_inf_or_nan] read to the end of the string. *)
Definition parse_inf_nan (s : string) : option float :=
  let '(neg, t) := read_sign s in
  let w := lower_ascii t in
  if String.eqb w "inf" || String.eqb w "infinity" then Some (S754_infinity neg)
  else if String.eqb w "nan" then Some S754_nan
  else None.

(** The double nearest to [(-1)^neg * m * 10^e], ties to even. *)
Definition decimal_to_float (neg : bool) (m e : Z) : float :=
  match m with
  | Zpos p =>
      if 0 <=? e then
        if 1100 <? Zpos (Pos.size p) - 1 + 3 * e then S754_infinity neg
        else binary_normalize prec emax (cond_Zopp neg (m * 10 ^ e)) 0 neg
      else if Zpos (Pos.size p) + 3 * e <? -1100 then S754_zero neg
      else
        let '(mz, ez, lz) := SFdiv_core_binary prec emax m 0 (10 ^ (- e)) 0 in
        binary_round_aux prec emax neg mz ez lz
  | _ => S754_zero neg
  end.

Definition could_not_convert (s : string) : exn :=
  ValueError ("could not convert string to float: '" ++ s ++ "'").

(** [float(s)] for a [str] argument. *)
Definition py_float (s : string) : result float :=
  match remove_underscores s with
  | None => Raise (could_not_convert s)
  | Some s' =>
      let t := PyStr.strip s' in
      match parse_decimal t with
      | Some (neg, m, e) => Ok (decimal_to_float neg m e)
      | None =>
          match parse_inf_nan t with
          | Some f => Ok f
          | None => Raise (could_not_convert s)
          end
      end
  end.

Fixpoint has_digit (s : string) : bool :=
  match s with
  | EmptyString => false
  | String c t => is_digit c || has_digit t
  end.

(** [float(s)] raises nothing but [ValueError]. *)
Lemma py_float_raises (s : string) (e : exn) :
  py_float s = Raise e -> exists msg, e = ValueError msg.
Proof.
  unfold py_float. destruct (remove_underscores s) as [s'|];
    [destruct (parse_decimal (PyStr.strip s')) as [[[? ?] ?]|];
     [|destruct (parse_inf_nan (PyStr.strip s'))]|];
    intros H; try discriminate; injection H as <-; eexists; reflexivity.
Qed.

(** ** Strings without a digit *)

Lemma drop_underscores_no_digit (prev : ascii) (s : string) :
  is_digit prev = false -> prev <> "_"%char -> has_digit s = false ->
  drop_underscores prev s = if has_char "_" s then None else Some s.
Proof.
  revert prev. induction s as [|c t IH]; intros prev Hp Hu Hs; simpl.
  - destruct (Ascii.eqb_spec prev "_"); congruence.
  - simpl in Hs. apply orb_false_iff in Hs as [Hc Ht].
    destruct (Ascii.eqb_spec c "_") as [->|Hcu]; [now rewrite Hp|].
    destruct (Ascii.eqb_spec prev "_"); [congruence|]. simpl.
    rewrite IH by assumption. now destruct (has_char "_" t).
Qed.

Lemma remove_underscores_no_digit (s s' : string) :
  has_digit s = false -> remove_underscores s = Some s' -> s' = s.
Proof.
  unfold remove_underscores. intros Hs.
  destruct (has_char "_" s) eqn:Hu; [|congruence].
  rewrite drop_underscores_no_digit by (reflexivity || discriminate || exact Hs).
  now rewrite Hu.
Qed.

Lemma lstrip_no_digit (s : string) : has_digit s = false -> has_digit (PyStr.lstrip s) = false.
Proof.
  induction s as [|c t IH]; simpl; [tauto|]. intros H.
  apply orb_false_iff in H as [Hc Ht]. destruct (PyStr.isspace c); simpl; auto.
  now rewrite Hc, Ht.
Qed.

Lemma rstrip_no_digit (s : string) : has_digit s = false -> has_digit (PyStr.rstrip s) = false.
Proof.
  induction s as [|c t IH]; simpl; [tauto|]. intros H.
  apply orb_false_iff in H as [Hc Ht].
  destruct (PyStr.rstrip t) eqn:Hr; [destruct (PyStr.isspace c)|]; simpl; rewrite ?Hc; auto.
Qed.

Lemma read_digits_no_digit (s : string) (acc n : Z) :
  has_digit s = false -> read_digits s acc n = (acc, n, s).
Proof.
  destruct s as [|c t]; simpl; [reflexivity|]. intros H.
  apply orb_false_iff in H as [-> _]. reflexivity.
Qed.

Lemma read_sign_no_digit (s : string) :
  has_digit s = false -> has_digit (snd (read_sign s)) = false.
Proof.
  intros H. destruct s as [|c t]; [exact H|]. simpl in H |- *.
  apply orb_false_iff in H as [Hc Ht].
  destruct c as [[] [] [] [] [] [] [] []]; simpl; try rewrite Hc, Ht; auto.
Qed.

Lemma parse_decimal_no_digit (s : string) : has_digit s = false -> parse_decimal s = None.
Proof.
  intros H. unfold parse_decimal.
  pose proof (read_sign_no_digit s H) as H1. destruct (read_sign s) as [neg s1]. simpl in H1.
  rewrite read_digits_no_digit by exact H1.
  destruct s1 as [|c t]; [reflexivity|].
  simpl in H1. apply orb_false_iff in H1 as [_ Ht].
  destruct c as [[] [] [] [] [] [] [] []]; try reflexivity.
  rewrite read_digits_no_digit by exact Ht. reflexivity.
Qed.

(** ** Integer literals *)

Lemma digit_char_digit (d : Z) :
  0 <= d < 10 -> is_digit (digit_char d) = true /\ digit_value (digit_char d) = d.
Proof.
  intros Hd. unfold is_digit, digit_value, digit_char.
  rewrite nat_ascii_embedding by lia. split; [apply andb_true_intro; split; apply Nat.leb_le|]; lia.
Qed.

(** [_Py_dg_strtod] reads back the digits [digits_fuel] writes. *)
Lemma read_digits_fuel (f : nat) (n : Z) (acc : string) (a c : Z) :
  0 < n < 10 ^ Z.of_nat f ->
  read_digits (digits_fuel f n acc) a c =
  read_digits acc (a * 10 ^ ndigits_fuel f n + n) (c + ndigits_fuel f n).
Proof.
  revert n acc a c. induction f as [|f IH]; intros n acc a c Hn; [simpl in Hn; lia|].
  destruct (digit_char_digit (n mod 10)) as [Hd Hv]; [apply Z.mod_pos_bound; lia|].
  cbn [digits_fuel ndigits_fuel]. destruct (Z.ltb_spec n 10).
  - cbn [read_digits]. rewrite Hd, Hv, Z.mod_small, Z.pow_1_r by lia. reflexivity.
  - rewrite IH by (apply div10_bound; lia). cbn [read_digits]. rewrite Hd, Hv.
    destruct (ndigits_fuel_spec f (n / 10)) as (H1 & _); [apply div10_bound; lia|].
    rewrite pow10_succ by lia. f_equal; [|lia]. pose proof (Z.div_mod n 10). nia.
Qed.

Lemma read_digits_of (n : Z) :
  0 <= n -> exists k, 0 < k /\ forall t, read_digits (digits_of n ++ t) 0 0 = read_digits t n k.
Proof.
  intros Hn. destruct n as [|p|p]; [exists 1; split; [lia | reflexivity] | | lia].
  exists (ndigits_fuel (Pos.to_nat (Pos.size p)) (Zpos p)). split.
  - pose proof (ndigits_fuel_spec (Pos.to_nat (Pos.size p)) (Zpos p)) as Hs.
    pose proof (pow10_size p). lia.
  - intros t. unfold digits_of. rewrite <- digits_fuel_app.
    rewrite read_digits_fuel by (split; [lia | apply pow10_size]). reflexivity.
Qed.

Lemma read_sign_digits (n : Z) (t : string) : read_sign (digits_of n ++ t) = (false, digits_of n ++ t).
Proof.
  pose proof (digits_of_forall is_digit (fun d Hd => proj1 (digit_char_digit d Hd)) n) as H.
  pose proof (digits_of_nonempty n) as Hne.
  destruct (digits_of n) as [|c t']; [congruence|].
  destruct c as [[] [] [] [] [] [] [] []]; cbn in H; try discriminate; reflexivity.
Qed.

Lemma read_sign_int_literal (n : Z) (t : string) :
  read_sign (int_literal n ++ t) = (n <? 0, digits_of (Z.abs n) ++ t).
Proof.
  unfold int_literal. rewrite string_app_assoc.
  destruct (n <? 0); [reflexivity | apply read_sign_digits].
Qed.

Lemma has_char_forall (x : ascii) (s : string) :
  has_char x s = negb (str_forall (fun c => negb (Ascii.eqb c x)) s).
Proof. induction s as [|c t IH]; simpl; [reflexivity|]. rewrite IH. now destruct (Ascii.eqb c x). Qed.

Lemma has_space_forall (s : string) :
  PyStr.has_space s = negb (str_forall (fun c => negb (PyStr.isspace c)) s).
Proof. induction s as [|c t IH]; simpl; [reflexivity|]. rewrite IH. now destruct (PyStr.isspace c). Qed.

Lemma int_literal_forall (P : ascii -> bool) (n : Z) :
  P "-"%char = true -> str_forall P "0123456789" = true -> str_forall P (int_literal n) = true.
Proof.
  intros Hm Hd. unfold int_literal. rewrite str_forall_app, digits_of_forall.
  - destruct (n <? 0); simpl; rewrite ?Hm; reflexivity.
  - apply digit_char_forall, Hd.
Qed.

Lemma parse_decimal_int_literal (n : Z) :
  parse_decimal (int_literal n) = Some (n <? 0, Z.abs n, 0).
Proof.
  unfold parse_decimal. rewrite <- (string_app_nil_r (int_literal n)), read_sign_int_literal.
  cbv beta iota. destruct (read_digits_of (Z.abs n)) as (k & Hk & ->); [lia|].
  cbn [read_digits]. cbv beta iota.
  replace (k + 0 =? 0) with false by (symmetry; apply Z.eqb_neq; lia). reflexivity.
Qed.

(** The text [repr] gives an integral float: digits, a point, a zero. *)
Lemma parse_decimal_int_point (n : Z) :
  parse_decimal (int_literal n ++ ".0") = Some (n <? 0, Z.abs n * 10, -1).
Proof.
  unfold parse_decimal. rewrite read_sign_int_literal.
  cbv beta iota. destruct (read_digits_of (Z.abs n)) as (k & Hk & ->); [lia|].
  simpl.
  replace (k + 1 =? 0) with false by (symmetry; apply Z.eqb_neq; lia).
  change (digit_value "0") with 0. rewrite Z.add_0_r. reflexivity.
Qed.

Lemma decimal_to_float_int (n : Z) : decimal_to_float (n <? 0) (Z.abs n) 0 = of_Z n.
Proof.
  destruct n as [|p|p]; [reflexivity | |]; unfold decimal_to_float; cbn [Z.abs Z.leb Z.compare];
    (destruct (1100 <? Zpos (Pos.size p) - 1 + 3 * 0) eqn:H;
     [| change (10 ^ 0) with 1; rewrite Z.mul_1_r; reflexivity]);
    apply Z.ltb_lt in H; symmetry; rewrite of_Z_infinity; try reflexivity;
    cbn [Z.abs]; apply pow2_le_pos; lia.
Qed.

Lemma py_float_of_int_literal (n : Z) : py_float (int_literal n) = Ok (of_Z n).
Proof.
  unfold py_float, remove_underscores.
  rewrite has_char_forall, int_literal_forall by reflexivity. cbn [negb].
  rewrite PyStr.strip_no_space
    by (rewrite has_space_forall, int_literal_forall by reflexivity; reflexivity).
  rewrite parse_decimal_int_literal, decimal_to_float_int. reflexivity.
Qed.

(** A decimal [N * 10 / 10] is read through the division core of
    [_Py_dg_strtod]'s model: the shift is exact and the quotient is [N]. *)
Lemma decimal_to_float_tenth (neg : bool) (N : Z) : 0 < N ->
  decimal_to_float neg (N * 10) (-1) = of_Z (if neg then - N else N).
Proof.
  intros HN.
  assert (E : decimal_to_float neg (N * 10) (-1) = div_Z (if neg then - (N * 10) else N * 10) 10).
  { unfold decimal_to_float, div_Z. destruct (N * 10) as [|p|p] eqn:Hp; try lia.
    change (0 <=? -1) with false. cbv iota.
    replace (Zpos (Pos.size p) + 3 * -1 <? -1100) with false by (symmetry; apply Z.ltb_ge; lia).
    destruct neg; reflexivity. }
  rewrite E, (div_Z_exact _ 10 (if neg then - N else N)) by (destruct neg; lia).
  replace ((if neg then - (N * 10) else N * 10) =? 0) with false by (symmetry; apply Z.eqb_neq; destruct neg; lia).
  reflexivity.
Qed.

Lemma py_float_int_point (n : Z) : py_float (int_literal n ++ ".0") = Ok (of_Z n).
Proof.
  unfold py_float, remove_underscores.
  rewrite has_char_forall, str_forall_app, int_literal_forall by reflexivity.
  cbv [negb andb str_forall Ascii.eqb Bool.eqb].
  rewrite PyStr.strip_no_space
    by (rewrite has_space_forall, str_forall_app, int_literal_forall by reflexivity; reflexivity).
  rewrite parse_decimal_int_point. f_equal.
  destruct (Z.eq_dec n 0) as [->|Hn0]; [reflexivity|].
  rewrite decimal_to_float_tenth by lia. f_equal. destruct (Z.ltb_spec n 0); lia.
Qed.


(** ** Underscores between digits *)

Lemma is_digit_underscore : is_digit "_" = false.
Proof. reflexivity. Qed.

Lemma digit_not_underscore (c : ascii) : is_digit c = true -> c <> "_"%char.
Proof. intros H ->. discriminate H. Qed.

Lemma digit_not_space (c : ascii) : is_digit c = true -> PyStr.isspace c = false.
Proof.
  intros H. pose proof (ascii_forall (fun c => negb (is_digit c) || negb (PyStr.isspace c))
                          ltac:(vm_compute; reflexivity) c) as Hc. cbv beta in Hc.
  rewrite H in Hc. now destruct (PyStr.isspace c).
Qed.

(** A string of digits has no underscore and no whitespace. *)
Lemma digits_no_underscore (s : string) : str_forall is_digit s = true -> has_char "_" s = false.
Proof.
  intros H. rewrite has_char_forall, (str_forall_impl is_digit); [reflexivity | | exact H].
  intros c Hc. apply digit_not_underscore in Hc. now destruct (Ascii.eqb_spec c "_").
Qed.

Lemma digits_no_space (s : string) : str_forall is_digit s = true -> PyStr.has_space s = false.
Proof.
  intros H. rewrite has_space_forall, (str_forall_impl is_digit); [reflexivity | | exact H].
  intros c Hc. now rewrite digit_not_space.
Qed.

Lemma drop_underscores_digits (prev : ascii) (s : string) :
  prev <> "_"%char -> str_forall is_digit s = true -> drop_underscores prev s = Some s.
Proof.
  revert prev. induction s as [|c t IH]; intros prev Hp Hs; simpl.
  - destruct (Ascii.eqb_spec prev "_"); congruence.
  - simpl in Hs. apply andb_true_iff in Hs as [Hc Ht].
    destruct (Ascii.eqb_spec c "_") as [->|_]; [discriminate|].
    destruct (Ascii.eqb_spec prev "_"); [congruence|]. simpl.
    rewrite IH by (apply digit_not_underscore in Hc; assumption). reflexivity.
Qed.

(** [_Py_string_to_number_with_underscores] drops an underscore that
    has a digit on each side. *)
Lemma drop_underscores_split (prev : ascii) (d1 d2 : string) :
  prev <> "_"%char -> (is_digit prev = true \/ d1 <> "") -> d2 <> "" ->
  str_forall is_digit d1 = true -> str_forall is_digit d2 = true ->
  drop_underscores prev (d1 ++ "_" ++ d2) = Some (d1 ++ d2).
Proof.
  revert prev. induction d1 as [|c t IH]; intros prev Hp Hpd Hne H1 H2.
  - destruct Hpd as [Hd|]; [|congruence].
    destruct d2 as [|c' t']; [congruence|]. simpl in H2 |- *. rewrite Hd.
    apply andb_true_iff in H2 as [Hc' Ht'].
    destruct (Ascii.eqb_spec c' "_") as [->|_]; [discriminate|]. rewrite Hc'. simpl.
    rewrite drop_underscores_digits by (apply digit_not_underscore in Hc'; assumption). reflexivity.
  - simpl in H1 |- *. apply andb_true_iff in H1 as [Hc Ht].
    destruct (Ascii.eqb_spec c "_") as [->|_]; [discriminate|].
    destruct (Ascii.eqb_spec prev "_"); [congruence|]. simpl.
    rewrite IH by (try apply digit_not_underscore; auto). reflexivity.
Qed.

Lemma read_digits_all (s : string) (a c : Z) :
  str_forall is_digit s = true -> exists v, read_digits s a c = (v, c + Z.of_nat (String.length s), "").
Proof.
  revert a c. induction s as [|x t IH]; intros a c Hs; simpl.
  - exists a. f_equal. f_equal. lia.
  - simpl in Hs. apply andb_true_iff in Hs as [Hx Ht]. rewrite Hx.
    destruct (IH (a * 10 + digit_value x) (c + 1) Ht) as [v ->]. exists v. f_equal. f_equal. lia.
Qed.

Lemma parse_decimal_digits (s : string) :
  s <> "" -> str_forall is_digit s = true -> exists r, parse_decimal s = Some r.
Proof.
  intros Hne Hs. unfold parse_decimal.
  assert (Hr : read_sign s = (false, s)).
  { destruct s as [|c t]; [congruence|]. simpl in Hs. apply andb_true_iff in Hs as [Hc _].
    destruct c as [[] [] [] [] [] [] [] []]; cbn in Hc; try discriminate; reflexivity. }
  rewrite Hr. cbv beta iota. destruct (read_digits_all s 0 0 Hs) as [v ->]. cbv beta iota.
  replace (0 + Z.of_nat (String.length s) + 0 =? 0) with false.
  - eexists. reflexivity.
  - symmetry. apply Z.eqb_neq. destruct s; [congruence | simpl; lia].
Qed.

(** Every double [float()] returns is valid: the finite ones come out of
    [binary_normalize] or of the division core. *)
Lemma decimal_to_float_valid (neg : bool) (m e : Z) :
  valid_binary prec emax (decimal_to_float neg m e) = true.
Proof.
  unfold decimal_to_float. destruct m as [|p|p]; [reflexivity | | reflexivity].
  destruct (Z.leb_spec 0 e); [destruct (1100 <? _); [reflexivity | apply binary_normalize_valid]|].
  destruct (_ <? -1100); [reflexivity|].
  apply div_core_valid; [lia | apply Z.pow_pos_nonneg; lia].
Qed.

Lemma py_float_valid (s : string) (f : float) : py_float s = Ok f -> valid_binary prec emax f = true.
Proof.
  unfold py_float. destruct (remove_underscores s) as [s'|]; [|discriminate].
  destruct (parse_decimal (PyStr.strip s')) as [[[neg m] e]|].
  - intros H. injection H as <-. apply decimal_to_float_valid.
  - unfold parse_inf_nan. destruct (read_sign (PyStr.strip s')) as [neg t].
    destruct (_ || _); [intros H; injection H as <-; reflexivity|].
    destruct (String.eqb _ _); [intros H; injection H as <-; reflexivity | discriminate].
Qed.

(** C33 (error): a string with no decimal digit is a float only when it
    spells an infinity or a NaN ([inf], [infinity], [nan] in any case,
    signed, padded with whitespace); anything else raises [ValueError],
    so [five] is refused. *)
Theorem py_float_no_digit (s : string) (f : float) :
  has_digit s = false -> py_float s = Ok f -> is_inf f = true \/ is_nan f = true.
Proof.
  intros Hs. unfold py_float.
  destruct (remove_underscores s) as [s'|] eqn:Hu; [|discriminate].
  apply remove_underscores_no_digit in Hu as ->; [|exact Hs].
  rewrite parse_decimal_no_digit
    by (unfold PyStr.strip; apply rstrip_no_digit, lstrip_no_digit, Hs).
  unfold parse_inf_nan. destruct (read_sign (PyStr.strip s)) as [neg t].
  destruct (String.eqb _ "inf" || String.eqb _ "infinity");
    [intros H; injection H as <-; auto|].
  destruct (String.eqb _ "nan"); [intros H; injection H as <-; auto | discriminate].
Qed.

Lemma py_float_no_digit_witness :
  is_inf (S754_infinity true) = true \/ is_nan (S754_infinity true) = true.
Proof. apply (py_float_no_digit "-Infinity"); reflexivity. Defined.

(** C25 (roundtrip): [float()] reads the text [int.__repr__] writes for
    any integer [n] as the float nearest to [n]: exactly [n] below
    [2^53], the rounded value above, an infinity from [2^1024] on. *)
Theorem py_float_int_literal (n : Z) : py_float (int_literal n) = Ok (of_Z n).
Proof. exact (py_float_of_int_literal n). Qed.

(** C34 (functional): [float()] ignores an underscore between two runs
    of digits: [float("1_000")] is [float("1000")], so the calculator
    answers [1_000 + 1] with [Result: 1001.0]. *)
Theorem py_float_underscore (d1 d2 : string) :
  d1 <> "" -> d2 <> "" -> str_forall is_digit d1 = true -> str_forall is_digit d2 = true ->
  py_float (d1 ++ "_" ++ d2) = py_float (d1 ++ d2).
Proof.
  intros H1 H2 Hd1 Hd2. unfold py_float, remove_underscores.
  assert (Hall : str_forall is_digit (d1 ++ d2) = true) by (rewrite str_forall_app, Hd1, Hd2; reflexivity).
  replace (has_char "_" (d1 ++ "_" ++ d2)) with true
    by (rewrite has_char_forall, str_forall_app; simpl; now rewrite andb_false_r).
  rewrite digits_no_underscore, drop_underscores_split by (try discriminate; auto).
  rewrite PyStr.strip_no_space by (apply digits_no_space, Hall).
  assert (Hne : d1 ++ d2 <> "") by (destruct d1; [congruence | discriminate]).
  destruct (parse_decimal_digits (d1 ++ d2) Hne Hall) as [[[neg m] e] ->]. reflexivity.
Qed.

Lemma py_float_underscore_witness : py_float "1_000" = py_float "1000".
Proof. apply (py_float_underscore "1" "000"); reflexivity || discriminate. Defined.

End FloatParse.
