(* ===== verification/Calculator.v ===== *)
(** * [app/calculator]: the read-evaluate-print loop

    [calculator()] builds the [operators] dictionary once, prints the
    banner and runs [while True]: read a line with [input(prompt)], strip
    it, stop on [exit] in any case, otherwise split it into three words,
    convert the outer two with [float()], look the middle one up in
    [operators], call the method and print the result or the error.

    The loop is defined over any four operations (the values of the
    dictionary): its theorems about errors only use the contract
    [ArithContract] of the operations module, and the program is the
    instance at [MathOperations].  Standard input is the list of lines
    [input()] returns; standard output is the list of events written:
    a prompt (no newline) or a printed line.  [input()] on an exhausted
    stream raises [EOFError], which nothing catches. *)

From stdpp Require Import base gmap strings.
From Stdlib Require Import ZArith Ascii String List Bool Floats.SpecFloat Lia.
From S2P Require Import Prelude Binary64 Digits Operations PyStr FloatParse FloatRepr.
Import Binary64 Operations.
Import ListNotations.

Local Open Scope string_scope.

Module Calculator.

(** A value of the [operators] dictionary. *)
Definition operation : Type := Number -> Number -> result Number.

(** ** The strings the program prints *)

Definition banner : string := "Welcome to the REPL calculator! Type 'exit' to quit".
Definition prompt : string := "Please enter a calculation: ".
Definition exit_notice : string := "Exiting the calculator...".
Definition format_error : string :=
  "Invalid input. Format: <number> <operator> <number>. Include spaces between each component.".
Definition operator_error : string := "Invalid operator. Please use one of these: +, -, *, or /".

(** [str(result)]: [int.__repr__] or [float.__repr__]. *)
Definition py_str (v : Number) : string :=
  match v with
  | PyInt n => Digits.int_literal n
  | PyFloat f => FloatRepr.float_repr f
  end.

(** What the program writes on standard output. *)
Inductive event : Type :=
| Prompt (s : string)
| Print (s : string).

(** How [calculator()] ends: it returns, or an exception escapes it. *)
Inductive outcome : Type :=
| Finished
| Crashed (e : exn).

(** What one pass of the loop body does after reading a line: [break]
    after printing the exit notice, or print one line and [continue]. *)
Inductive iter_out : Type :=
| IExit
| IPrint (line : string).

(** [num1_str, operator, num2_str = user_input.split()]: unpacking
    raises [ValueError] unless there are exactly three words. *)
Definition unpack3 (ws : list string) : result (string * string * string) :=
  match ws with
  | [a; b; c] => Ok (a, b, c)
  | _ =>
      if Nat.ltb (length ws) 3
      then Raise (ValueError "not enough values to unpack (expected 3)")
      else Raise (ValueError "too many values to unpack (expected 3)")
  end.

(** The [try] block of lines 38-42: split, unpack, convert. *)
Definition parse_line (user_input : string) : result (float * string * float) :=
  match unpack3 (PyStr.split user_input) with
  | Raise e => Raise e
  | Ok (num1_str, op, num2_str) =>
      match FloatParse.py_float num1_str with
      | Raise e => Raise e
      | Ok num1 =>
          match FloatParse.py_float num2_str with
          | Raise e => Raise e
          | Ok num2 => Ok (num1, op, num2)
          end
      end
  end.

Section Loop.

Variables addition subtraction multiplication division : operation.

(** [operators = {'+': ..., '-': ..., '*': ..., '/': ...}] *)
Definition operators : gmap string operation :=
  list_to_map [("+", addition); ("-", subtraction); ("*", multiplication); ("/", division)].

(** The loop body after [input()] returned [raw]. *)
Definition iteration (raw : string) : result iter_out :=
  let user_input := PyStr.strip raw in
  if String.eqb (PyStr.lower user_input) "exit" then Ok IExit
  else
    match parse_line user_input with
    | Raise (ValueError _) => Ok (IPrint format_error)
    | Raise e => Raise e
    | Ok (num1, op, num2) =>
        match operators !! op with
        | None => Ok (IPrint operator_error)
        | Some f =>
            match f (PyFloat num1) (PyFloat num2) with
            | Raise (ValueError msg) => Ok (IPrint msg)
            | Raise e => Raise e
            | Ok r => Ok (IPrint ("Result: " ++ py_str r))
            end
        end
    end.

(** [while True:] over the remaining input lines; each pass writes the
    prompt, then what the body prints.  The recursion is on the input:
    every pass consumes one line. *)
Fixpoint loop (inputs : list string) : list event * outcome :=
  match inputs with
  | [] => ([Prompt prompt], Crashed EOFError)
  | raw :: rest =>
      match iteration raw with
      | Ok IExit => ([Prompt prompt; Print exit_notice], Finished)
      | Ok (IPrint line) =>
          let '(evs, o) := loop rest in (Prompt prompt :: Print line :: evs, o)
      | Raise e => ([Prompt prompt], Crashed e)
      end
  end.

(** [calculator()] *)
Definition calculator (inputs : list string) : list event * outcome :=
  let '(evs, o) := loop inputs in (Print banner :: evs, o).

End Loop.

(** The program: [from app.operations import MathOperations] and the
    dictionary bound to its methods. *)
Definition main (inputs : list string) : list event * outcome :=
  calculator (op_addition MathOperations) (op_subtraction MathOperations)
    (op_multiplication MathOperations) (op_division MathOperations) inputs.

(** Standard output as text: [input] writes its prompt as is, [print]
    adds a newline. *)
Fixpoint stdout_text (evs : list event) : string :=
  match evs with
  | [] => ""
  | Prompt s :: t => s ++ stdout_text t
  | Print s :: t => s ++ String "010"%char (stdout_text t)
  end.

(** ** The abstract specification of a session (spec 4.2) *)

(** Step 2: the trimmed line, compared case-insensitively, is [exit]. *)
Definition is_exit_line (raw : string) : bool :=
  String.eqb (PyStr.lower (PyStr.strip raw)) "exit".

(** Steps 4 and 5: the answer to two numbers and a symbol, division by
    a zero refused. *)
Definition spec_answer (op : string) (x y : float) : string :=
  if String.eqb op "+" then "Result: " ++ FloatRepr.float_repr (fadd x y)
  else if String.eqb op "-" then "Result: " ++ FloatRepr.float_repr (fsub x y)
  else if String.eqb op "*" then "Result: " ++ FloatRepr.float_repr (fmul x y)
  else if String.eqb op "/" then
    if is_zero y then division_by_zero_message
    else "Result: " ++ FloatRepr.float_repr (fdiv x y)
  else operator_error.

(** Step 3 for a line that is not the exit keyword: three words, the
    outer two numbers. *)
Definition spec_response (raw : string) : string :=
  match PyStr.split raw with
  | [a; op; b] =>
      match FloatParse.py_float a, FloatParse.py_float b with
      | Ok x, Ok y => spec_answer op x y
      | _, _ => format_error
      end
  | _ => format_error
  end.

(** A session: a prompt per line read, one answer per line, the exit
    notice on the exit keyword; input running out ends it with
    [EOFError]. *)
Fixpoint spec_session (inputs : list string) : list event * outcome :=
  match inputs with
  | [] => ([Prompt prompt], Crashed EOFError)
  | raw :: rest =>
      if is_exit_line raw then ([Prompt prompt; Print exit_notice], Finished)
      else let '(evs, o) := spec_session rest in
           (Prompt prompt :: Print (spec_response raw) :: evs, o)
  end.

(** ** The loop as a state machine *)

(** [RUNNING] with the input still to read, or [TERMINATED]. *)
Inductive state : Type :=
| Running (inputs : list string)
| Terminated (o : outcome).

Section MachineDef.

Variables add sub mul div : operation.

(** One pass of [while True]: read a line (or fail to), run the body. *)
Inductive step : state * list event -> state * list event -> Prop :=
| step_print raw rest out line :
    iteration add sub mul div raw = Ok (IPrint line) ->
    step (Running (raw :: rest), out) (Running rest, (out ++ [Prompt prompt; Print line])%list)
| step_exit raw rest out :
    iteration add sub mul div raw = Ok IExit ->
    step (Running (raw :: rest), out)
         (Terminated Finished, (out ++ [Prompt prompt; Print exit_notice])%list)
| step_raise raw rest out e :
    iteration add sub mul div raw = Raise e ->
    step (Running (raw :: rest), out) (Terminated (Crashed e), (out ++ [Prompt prompt])%list)
| step_eof out :
    step (Running [], out) (Terminated (Crashed EOFError), (out ++ [Prompt prompt])%list).

End MachineDef.

(** The projections of [MathOperations] are the four methods. *)
Lemma main_calculator :
  main = calculator Operations.addition Operations.subtraction Operations.multiplication
           Operations.division.
Proof. reflexivity. Qed.

(** ** Parsing a line raises only [ValueError] *)

Lemma unpack3_raises (ws : list string) (e : exn) :
  unpack3 ws = Raise e -> exists msg, e = ValueError msg.
Proof.
  unfold unpack3. destruct ws as [|a [|b [|c [|d ws]]]]; simpl; intros H;
    try discriminate; injection H as <-; eauto.
Qed.

Lemma parse_line_raises (u : string) (e : exn) :
  parse_line u = Raise e -> exists msg, e = ValueError msg.
Proof.
  unfold parse_line. destruct (unpack3 (PyStr.split u)) as [[[a op] b]|e0] eqn:Hu.
  - destruct (FloatParse.py_float a) as [x|e1] eqn:Ha; [|intros H; injection H as <-; eapply FloatParse.py_float_raises; eauto].
    destruct (FloatParse.py_float b) as [y|e2] eqn:Hb; [discriminate|].
    intros H; injection H as <-; eapply FloatParse.py_float_raises; eauto.
  - intros H; injection H as <-. eapply unpack3_raises; eauto.
Qed.

(** ** The operator table *)

Section Table.

Variables add sub mul div : operation.

(** [operators] binds each of the four symbols to its method; every other
    string is absent, so that [operator not in operators] holds for it. *)
Lemma operators_lookup (op : string) :
  operators add sub mul div !! op =
  if String.eqb op "+" then Some add
  else if String.eqb op "-" then Some sub
  else if String.eqb op "*" then Some mul
  else if String.eqb op "/" then Some div
  else None.
Proof.
  unfold operators. simpl list_to_map.
  rewrite !lookup_insert, lookup_empty.
  destruct (String.eqb_spec op "+") as [->|H1]; [reflexivity|].
  rewrite decide_False by congruence.
  destruct (String.eqb_spec op "-") as [->|H2]; [reflexivity|].
  rewrite decide_False by congruence.
  destruct (String.eqb_spec op "*") as [->|H3]; [reflexivity|].
  rewrite decide_False by congruence.
  destruct (String.eqb_spec op "/") as [->|H4]; [reflexivity|].
  rewrite decide_False by congruence. reflexivity.
Qed.

End Table.

(** The loop body stops exactly on the exit keyword. *)
Lemma iteration_exit (add sub mul div : operation) (raw : string) :
  iteration add sub mul div raw = Ok IExit <-> is_exit_line raw = true.
Proof.
  unfold iteration, is_exit_line. destruct (String.eqb _ "exit"); [tauto|].
  split; [|discriminate]. repeat case_match; congruence.
Qed.

(** ** The loop body under the contract of the operations module *)

Section WithContract.

Variables add sub mul div : operation.
Context `{Hc : ArithContract add sub mul div}.

(** Under the contract of spec 4.1, no pass of the loop body raises:
    every line gives either the exit or exactly one printed line. *)
Lemma iteration_total (raw : string) : exists o, iteration add sub mul div raw = Ok o.
Proof.
  unfold iteration. destruct (String.eqb _ "exit"); [eauto|].
  destruct (parse_line (PyStr.strip raw)) as [[[x op] y]|e] eqn:Hp.
  - rewrite operators_lookup.
    destruct (String.eqb op "+"); [destruct (ac_add (add:=add) (sub:=sub) (mul:=mul) (div:=div) x y) as [r ->]; eauto|].
    destruct (String.eqb op "-"); [destruct (ac_sub (add:=add) (sub:=sub) (mul:=mul) (div:=div) x y) as [r ->]; eauto|].
    destruct (String.eqb op "*"); [destruct (ac_mul (add:=add) (sub:=sub) (mul:=mul) (div:=div) x y) as [r ->]; eauto|].
    destruct (String.eqb op "/"); [|eauto].
    destruct (is_zero y) eqn:Hz.
    + rewrite (ac_div_zero (add:=add) (sub:=sub) (mul:=mul) (div:=div) x y Hz). eauto.
    + destruct (ac_div_nonzero (add:=add) (sub:=sub) (mul:=mul) (div:=div) x y Hz) as [r ->]. eauto.
  - destruct (parse_line_raises _ _ Hp) as [msg ->]. eauto.
Qed.

(** C2 (safety): with operations that meet the contract, the program
    ends normally exactly when some line is the exit keyword; otherwise
    it reads past the end of the input and dies with the uncaught
    [EOFError] of [input()].  No other exception ever escapes. *)
Theorem calculator_outcome (inputs : list string) :
  snd (calculator add sub mul div inputs) =
  if existsb is_exit_line inputs then Finished else Crashed EOFError.
Proof.
  unfold calculator.
  enough (H : snd (loop add sub mul div inputs) =
              if existsb is_exit_line inputs then Finished else Crashed EOFError)
    by (destruct (loop add sub mul div inputs); exact H).
  induction inputs as [|raw rest IH]; [reflexivity|]. simpl.
  destruct (iteration_total raw) as [[|line] Ho]; rewrite Ho.
  - apply iteration_exit in Ho. now rewrite Ho.
  - destruct (is_exit_line raw) eqn:He.
    + apply (iteration_exit add sub mul div) in He. congruence.
    + destruct (loop add sub mul div rest). exact IH.
Qed.

End WithContract.

(** The program's loop body answers a line with [spec_response]. *)
Lemma iteration_main (raw : string) :
  is_exit_line raw = false ->
  iteration Operations.addition Operations.subtraction Operations.multiplication
    Operations.division raw = Ok (IPrint (spec_response raw)).
Proof.
  unfold iteration, is_exit_line, spec_response, spec_answer, parse_line. intros ->.
  rewrite PyStr.split_of_strip.
  destruct (PyStr.split raw) as [|a [|op [|b [|d ws]]]]; try reflexivity.
  simpl unpack3. cbv iota beta.
  destruct (FloatParse.py_float a) as [x|e] eqn:Ha;
    [| destruct (FloatParse.py_float_raises _ _ Ha) as [m ->]; reflexivity].
  destruct (FloatParse.py_float b) as [y|e] eqn:Hb;
    [| destruct (FloatParse.py_float_raises _ _ Hb) as [m ->]; reflexivity].
  rewrite operators_lookup.
  destruct (String.eqb op "+"); [reflexivity|].
  destruct (String.eqb op "-"); [reflexivity|].
  destruct (String.eqb op "*"); [reflexivity|].
  destruct (String.eqb op "/"); [|reflexivity].
  unfold Operations.division. rewrite py_truediv_float. now destruct (is_zero y).
Qed.

(** The program's loop is the abstract session. *)
Lemma loop_main (inputs : list string) :
  loop Operations.addition Operations.subtraction Operations.multiplication
    Operations.division inputs = spec_session inputs.
Proof.
  induction inputs as [|raw rest IH]; [reflexivity|]. simpl.
  destruct (is_exit_line raw) eqn:He.
  - now rewrite (proj2 (iteration_exit _ _ _ _ raw) He).
  - rewrite iteration_main by exact He. rewrite IH.
    now destruct (spec_session rest).
Qed.

(** C1 (refinement): the program implements the abstract session of
    spec 4.2: after the banner, each line read is answered exactly as
    [spec_response] says, independently of the lines before it, until the
    exit keyword; on input without it the program ends with [EOFError]. *)
Theorem main_refines (inputs : list string) :
  main inputs = (Print banner :: fst (spec_session inputs), snd (spec_session inputs)).
Proof.
  rewrite main_calculator. unfold calculator. rewrite loop_main. now destruct (spec_session inputs).
Qed.

(** C6 (invariant): the loop keeps no state from one line to the next:
    after lines without the exit keyword, the program goes on with the
    rest of the input exactly as if it had started there, each earlier
    line having written its prompt and its answer. *)
Theorem loop_stateless (l1 l2 : list string) :
  existsb is_exit_line l1 = false ->
  loop Operations.addition Operations.subtraction Operations.multiplication Operations.division (l1 ++ l2) =
  ((flat_map (fun raw => [Prompt prompt; Print (spec_response raw)]) l1 ++
    fst (loop Operations.addition Operations.subtraction Operations.multiplication Operations.division l2))%list,
   snd (loop Operations.addition Operations.subtraction Operations.multiplication Operations.division l2)).
Proof.
  rewrite !loop_main. induction l1 as [|raw rest IH]; intros H.
  - simpl. now destruct (spec_session l2).
  - simpl in H |- *. apply orb_false_iff in H as [Hr Hrest]. rewrite Hr, IH by exact Hrest.
    reflexivity.
Qed.

(** ** The lines the program prints *)

(** An answer is one of the three messages or the [repr] of a valid
    double: [float()] returns valid doubles and the four float
    operations keep them valid. *)
Lemma spec_response_cases (raw : string) :
  let line := spec_response raw in
  line = format_error \/ line = operator_error \/ line = division_by_zero_message \/
  exists f, valid_binary prec emax f = true /\ line = "Result: " ++ FloatRepr.float_repr f.
Proof.
  unfold spec_response. destruct (PyStr.split raw) as [|a [|op [|b [|d ws]]]]; auto.
  destruct (FloatParse.py_float a) as [x|] eqn:Ha, (FloatParse.py_float b) as [y|] eqn:Hb; auto.
  apply FloatParse.py_float_valid in Ha, Hb. unfold spec_answer.
  destruct (String.eqb op "+"); [right; right; right; exists (fadd x y); split; [apply fadd_valid; assumption | reflexivity]|].
  destruct (String.eqb op "-"); [right; right; right; exists (fsub x y); split; [apply fsub_valid; assumption | reflexivity]|].
  destruct (String.eqb op "*"); [right; right; right; exists (fmul x y); split; [apply fmul_valid; assumption | reflexivity]|].
  destruct (String.eqb op "/"); [|auto]. destruct (is_zero y); [auto|].
  right; right; right; exists (fdiv x y); split; [apply fdiv_valid; assumption | reflexivity].
Qed.

(** C20 (invariant): every line the program prints in answer to an
    input line is the format message, the operator message, the
    division message, or [Result: ] followed by the [repr] of a valid
    binary64 double: the parser and the four methods compose without
    producing anything else (no [int], no ill-formed float). *)
Theorem answer_lines_valid (raw line : string) :
  iteration Operations.addition Operations.subtraction Operations.multiplication
    Operations.division raw = Ok (IPrint line) ->
  line = format_error \/ line = operator_error \/ line = division_by_zero_message \/
  exists f, valid_binary prec emax f = true /\ line = "Result: " ++ FloatRepr.float_repr f.
Proof.
  intros H. destruct (is_exit_line raw) eqn:He.
  - apply (iteration_exit Operations.addition Operations.subtraction Operations.multiplication
             Operations.division) in He. congruence.
  - rewrite iteration_main in H by exact He. injection H as <-. apply spec_response_cases.
Qed.

(** ** Integer operands *)

(** A line of three words is not the exit keyword. *)
Lemma three_words_not_exit (raw a op b : string) :
  PyStr.split raw = [a; op; b] -> is_exit_line raw = false.
Proof.
  intros Hs. unfold is_exit_line.
  destruct (String.eqb_spec (PyStr.lower (PyStr.strip raw)) "exit") as [He|]; [|reflexivity].
  apply PyStr.split_lower_exit in He. rewrite PyStr.split_of_strip, Hs in He. discriminate.
Qed.

(** The program's answer to a line of three words. *)
Lemma iteration_three (raw a op b : string) :
  PyStr.split raw = [a; op; b] ->
  iteration Operations.addition Operations.subtraction Operations.multiplication
    Operations.division raw =
  Ok (IPrint (match FloatParse.py_float a, FloatParse.py_float b with
              | Ok x, Ok y => spec_answer op x y
              | _, _ => format_error
              end)).
Proof.
  intros Hs. rewrite iteration_main by exact (three_words_not_exit raw a op b Hs).
  unfold spec_response. rewrite Hs. reflexivity.
Qed.

(** The program's answer to a line whose words are two integer literals
    around a symbol: [float()] reads each as the nearest float. *)
Lemma iteration_literals (raw op : string) (a b : Z) :
  PyStr.split raw = [Digits.int_literal a; op; Digits.int_literal b] ->
  iteration Operations.addition Operations.subtraction Operations.multiplication
    Operations.division raw = Ok (IPrint (spec_answer op (of_Z a) (of_Z b))).
Proof.
  intros Hs. rewrite (iteration_three _ _ _ _ Hs), !FloatParse.py_float_of_int_literal. reflexivity.
Qed.

(** C7 (functional): on [a + b] with integers [a], [b] below [2^53] in
    magnitude, the program prints the double nearest to the exact sum:
    the sum itself below [2^53] ([3 + 3] gives [Result: 6.0], spec 8),
    the nearest even integer above it ([9007199254740991 + 2] gives
    [Result: 9007199254740992.0]), whenever that double is below
    [10^16]. *)
Theorem answer_sum (raw : string) (a b r : Z) :
  PyStr.split raw = [Digits.int_literal a; "+"; Digits.int_literal b] ->
  (Z.abs a < 2 ^ 53)%Z -> (Z.abs b < 2 ^ 53)%Z ->
  int_value (of_Z (a + b)) = Some r -> (Z.abs r < 10 ^ 16)%Z ->
  iteration Operations.addition Operations.subtraction Operations.multiplication
    Operations.division raw = Ok (IPrint ("Result: " ++ Digits.int_literal r ++ ".0")).
Proof.
  intros Hs Ha Hb Hr Hr16. rewrite (iteration_literals raw "+" a b Hs).
  unfold spec_answer. simpl String.eqb. cbv iota.
  rewrite fadd_of_Z, (FloatRepr.float_repr_of_Z_value _ r) by assumption. reflexivity.
Qed.

(** C11 (functional): on [a - b] with integers below [2^53] in
    magnitude, the program prints the double nearest to the exact
    difference, when it is below [10^16]: [5 - 3] gives [Result: 2.0]. *)
Theorem answer_difference (raw : string) (a b r : Z) :
  PyStr.split raw = [Digits.int_literal a; "-"; Digits.int_literal b] ->
  (Z.abs a < 2 ^ 53)%Z -> (Z.abs b < 2 ^ 53)%Z ->
  int_value (of_Z (a - b)) = Some r -> (Z.abs r < 10 ^ 16)%Z ->
  iteration Operations.addition Operations.subtraction Operations.multiplication
    Operations.division raw = Ok (IPrint ("Result: " ++ Digits.int_literal r ++ ".0")).
Proof.
  intros Hs Ha Hb Hr Hr16. rewrite (iteration_literals raw "-" a b Hs).
  unfold spec_answer. simpl String.eqb. cbv iota.
  rewrite fsub_of_Z, (FloatRepr.float_repr_of_Z_value _ r) by assumption. reflexivity.
Qed.

(** C10 (functional): on [a * b] with integers below [2^53] in
    magnitude, the program prints the double nearest to the exact
    product, when it is below [10^16]; a zero product carries the sign
    rule of IEEE-754, so [0 * -3] prints [Result: -0.0]. *)
Theorem answer_product (raw : string) (a b r : Z) :
  PyStr.split raw = [Digits.int_literal a; "*"; Digits.int_literal b] ->
  (Z.abs a < 2 ^ 53)%Z -> (Z.abs b < 2 ^ 53)%Z ->
  int_value (of_Z (a * b)) = Some r -> (Z.abs r < 10 ^ 16)%Z ->
  iteration Operations.addition Operations.subtraction Operations.multiplication
    Operations.division raw =
  Ok (IPrint ("Result: " ++ (if (a * b =? 0)%Z && xorb (a <? 0)%Z (b <? 0)%Z then "-" else "")
              ++ Digits.int_literal r ++ ".0")).
Proof.
  intros Hs Ha Hb Hr Hr16. rewrite (iteration_literals raw "*" a b Hs).
  unfold spec_answer. simpl String.eqb. cbv iota.
  rewrite fmul_of_Z by assumption. destruct (Z.eqb_spec (a * b) 0) as [H0|H0].
  - rewrite H0 in Hr. injection Hr as <-. rewrite FloatRepr.float_repr_zero. reflexivity.
  - rewrite (FloatRepr.float_repr_of_Z_value _ r) by assumption. reflexivity.
Qed.

(** C8 (functional): on [a / b] with integers below [2^53] where [b]
    divides [a], the program prints the exact quotient [q]; a zero
    quotient has the divisor's sign, so [0 / -3] prints [Result: -0.0]. *)
Theorem answer_quotient (raw : string) (a b q : Z) :
  PyStr.split raw = [Digits.int_literal a; "/"; Digits.int_literal b] ->
  (Z.abs a < 2 ^ 53)%Z -> (Z.abs b < 2 ^ 53)%Z -> b <> 0%Z -> a = (q * b)%Z ->
  iteration Operations.addition Operations.subtraction Operations.multiplication
    Operations.division raw =
  Ok (IPrint ("Result: " ++ (if (a =? 0)%Z && (b <? 0)%Z then "-" else "")
              ++ Digits.int_literal q ++ ".0")).
Proof.
  intros Hs Ha Hb Hb0 Hq. rewrite (iteration_literals raw "/" a b Hs).
  unfold spec_answer. simpl String.eqb. cbv iota.
  destruct (is_zero (of_Z b)) eqn:Hz; [apply of_Z_zero_iff in Hz; congruence|].
  rewrite (fdiv_of_Z a b q) by assumption. destruct (Z.eqb_spec a 0) as [H0|H0].
  - replace q with 0%Z by nia. rewrite FloatRepr.float_repr_zero. reflexivity.
  - rewrite FloatRepr.float_repr_int by (rewrite Hq, Z.abs_mul in Ha; nia). reflexivity.
Qed.

(** C9 (error): on [a / 0] with an integer [a], the program prints
    [Division by zero is not allowed.] and goes on (spec 8). *)
Theorem answer_division_by_zero (raw : string) (a : Z) :
  PyStr.split raw = [Digits.int_literal a; "/"; "0"] ->
  iteration Operations.addition Operations.subtraction Operations.multiplication
    Operations.division raw = Ok (IPrint division_by_zero_message).
Proof.
  intros Hs. rewrite (iteration_literals raw "/" a 0 Hs). reflexivity.
Qed.

(** C27 (roundtrip): what the calculator prints for an integral result
    reads back as the same float: [float(repr(x)) == x], sign of a zero
    included, for every valid double [x] whose value is an integer below
    [10^16] ([repr] writes its digits and [.0], [float()] reads them as
    the nearest double, which is [x]). *)
Theorem py_float_repr_integral (x : float) (N : Z) :
  valid_binary prec emax x = true -> int_value x = Some N -> (Z.abs N < 10 ^ 16)%Z ->
  FloatParse.py_float (FloatRepr.float_repr x) = Ok x.
Proof.
  destruct x as [s|s| |s m e]; intros Hv HN HB; try discriminate; [destruct s; reflexivity|].
  rewrite (FloatRepr.float_repr_finite_integral s m e N), FloatParse.py_float_int_point by assumption.
  f_equal. now apply of_Z_int_value.
Qed.

(** ** Malformed lines *)

(** C14 (error): a line that is not the exit keyword and does not split
    into exactly three words is answered with the format message, and
    the loop goes on (spec 4.2, step 3). *)
Theorem answer_wrong_word_count (raw : string) :
  is_exit_line raw = false -> List.length (PyStr.split raw) <> 3%nat ->
  iteration Operations.addition Operations.subtraction Operations.multiplication
    Operations.division raw = Ok (IPrint format_error).
Proof.
  intros He Hl. rewrite iteration_main by exact He. unfold spec_response.
  destruct (PyStr.split raw) as [|a [|op [|b [|d ws]]]]; try reflexivity. simpl in Hl. congruence.
Qed.

(** C12 (error): the operands are converted before the operator is
    looked up, so a line of three words whose first or third word is not
    a number is answered with the format message whatever its middle
    word is: [five + one] and [five ^ one] alike (spec 8). *)
Theorem answer_bad_number (raw a op b : string) :
  PyStr.split raw = [a; op; b] ->
  is_ok (FloatParse.py_float a) = false \/ is_ok (FloatParse.py_float b) = false ->
  iteration Operations.addition Operations.subtraction Operations.multiplication
    Operations.division raw = Ok (IPrint format_error).
Proof.
  intros Hs Hbad. rewrite (iteration_three _ _ _ _ Hs).
  destruct (FloatParse.py_float a), (FloatParse.py_float b); simpl in Hbad;
    [intuition discriminate | reflexivity ..].
Qed.

(** C13 (error): two numbers around a word that is not one of the four
    symbols are answered with the operator message (spec 4.2, step 4). *)
Theorem answer_unknown_operator (raw a op b : string) (x y : float) :
  PyStr.split raw = [a; op; b] -> FloatParse.py_float a = Ok x -> FloatParse.py_float b = Ok y ->
  ~ In op ["+"; "-"; "*"; "/"] ->
  iteration Operations.addition Operations.subtraction Operations.multiplication
    Operations.division raw = Ok (IPrint operator_error).
Proof.
  intros Hs Ha Hb Hop. rewrite (iteration_three _ _ _ _ Hs), Ha, Hb. unfold spec_answer.
  destruct (String.eqb_spec op "+"); [subst; simpl in Hop; tauto|].
  destruct (String.eqb_spec op "-"); [subst; simpl in Hop; tauto|].
  destruct (String.eqb_spec op "*"); [subst; simpl in Hop; tauto|].
  destruct (String.eqb_spec op "/"); [subst; simpl in Hop; tauto | reflexivity].
Qed.

(** C5 (safety): nothing after the exit keyword is read: whatever the
    operations, [calculator()] on input that has an exit line behaves
    as on the input cut just after it. *)
Theorem exit_stops_reading (add sub mul div : operation) (l1 l2 : list string) (raw : string) :
  is_exit_line raw = true ->
  calculator add sub mul div (l1 ++ raw :: l2) = calculator add sub mul div (l1 ++ [raw]).
Proof.
  intros He. unfold calculator. f_equal.
  enough (H : loop add sub mul div (l1 ++ raw :: l2) = loop add sub mul div (l1 ++ [raw])) by now rewrite H.
  induction l1 as [|x rest IH]; simpl.
  - now rewrite (proj2 (iteration_exit add sub mul div raw) He).
  - destruct (iteration add sub mul div x) as [[|line]|e]; [reflexivity | now rewrite IH | reflexivity].
Qed.

Section Machine.

Variables add sub mul div : operation.

Lemma terminated_final (o : outcome) (out : list event) (c : state * list event) :
  ~ step add sub mul div (Terminated o, out) c.
Proof. intros H. inversion H. Qed.

(** C3 (invariant): [TERMINATED] is reached normally only through the
    exit keyword: a run that ends with [Finished] has read a line that is
    [exit] in some case. *)
Theorem finished_only_by_exit (inputs : list string) (out evs : list event) :
  star (step add sub mul div) (Running inputs, out) (Terminated Finished, evs) ->
  exists raw, In raw inputs /\ is_exit_line raw = true.
Proof.
  remember (Running inputs, out) as c eqn:Hc. remember (Terminated Finished, evs) as d eqn:Hd.
  intros H. revert inputs out Hc. induction H as [a|a b c Hs Hst IH]; intros inputs out Hc; subst.
  - discriminate.
  - inversion Hs; subst.
    + destruct (IH eq_refl rest _ eq_refl) as (r & Hin & Hr). exists r. simpl. auto.
    + exists raw. split; [left; reflexivity | eapply iteration_exit; eassumption].
    + inversion Hst as [|? ? ? Hs']; subst; exfalso; eapply terminated_final; eauto.
    + inversion Hst as [|? ? ? Hs']; subst; exfalso; eapply terminated_final; eauto.
Qed.

(** C15 (termination): from every [RUNNING] state the machine reaches
    [TERMINATED], whatever the operations: [while True] ends on every
    finite input, by the exit keyword, an escaping exception or the
    [EOFError] of an exhausted input. *)
Theorem machine_terminates (inputs : list string) (out : list event) :
  exists o evs, star (step add sub mul div) (Running inputs, out) (Terminated o, evs).
Proof.
  revert out. induction inputs as [|raw rest IH]; intros out.
  - eexists _, _. apply star_one, step_eof.
  - destruct (iteration add sub mul div raw) as [[|line]|e] eqn:Hi.
    + eexists _, _. apply star_one, step_exit, Hi.
    + destruct (IH (out ++ [Prompt prompt; Print line])%list) as (o & evs & H).
      exists o, evs. eapply star_step; [apply step_print, Hi | exact H].
    + eexists _, _. apply star_one, step_raise, Hi.
Qed.

(** What a step from [RUNNING] with a line to read leads to. *)
Lemma step_running_inv (raw : string) (rest : list string) (out : list event) (c : state * list event) :
  step add sub mul div (Running (raw :: rest), out) c ->
  match iteration add sub mul div raw with
  | Ok IExit => c = (Terminated Finished, (out ++ [Prompt prompt; Print exit_notice])%list)
  | Ok (IPrint line) => c = (Running rest, (out ++ [Prompt prompt; Print line])%list)
  | Raise e => c = (Terminated (Crashed e), (out ++ [Prompt prompt])%list)
  end.
Proof.
  intros H. inversion H as [r rs o l Hi| r rs o Hi | r rs o e Hi |]; subst; rewrite Hi; reflexivity.
Qed.

Section Live.

Context `{Hc : ArithContract add sub mul div}.

(** C4 (liveness): with operations that meet the contract, a run from
    [RUNNING] on input that has an exit line eventually ends normally:
    every run reaches [TERMINATED] with [Finished], none gets stuck or
    crashes before. *)
Theorem exit_eventually_finishes (inputs : list string) (out : list event) :
  existsb is_exit_line inputs = true ->
  eventually (step add sub mul div) (fun c => fst c = Terminated Finished) (Running inputs, out).
Proof.
  revert out. induction inputs as [|raw rest IH]; intros out Hex; [discriminate|].
  destruct (iteration_total add sub mul div raw) as [[|line] Hi].
  - apply eventually_step; [eexists; apply step_exit, Hi|].
    intros c Hs. apply step_running_inv in Hs. rewrite Hi in Hs. subst. now constructor.
  - assert (Hr : is_exit_line raw = false)
      by (destruct (is_exit_line raw) eqn:E; [apply (iteration_exit add sub mul div) in E; congruence | reflexivity]).
    simpl in Hex. rewrite Hr in Hex.
    apply eventually_step; [eexists; apply step_print, Hi|].
    intros c Hs. apply step_running_inv in Hs. rewrite Hi in Hs. subst. apply IH, Hex.
Qed.

End Live.

End Machine.

Lemma calculator_outcome_witness : snd (main ["1 + 1"]) = Crashed EOFError.
Proof.
  rewrite main_calculator.
  rewrite (calculator_outcome Operations.addition Operations.subtraction
             Operations.multiplication Operations.division ["1 + 1"]).
  reflexivity.
Defined.

Lemma finished_only_by_exit_witness :
  exists raw, In raw ["3 + 3"; "EXIT"] /\ is_exit_line raw = true.
Proof.
  eapply (finished_only_by_exit Operations.addition Operations.subtraction
            Operations.multiplication Operations.division ["3 + 3"; "EXIT"] [Print banner]).
  eapply star_step; [apply step_print; vm_compute; reflexivity|].
  eapply star_step; [apply step_exit; vm_compute; reflexivity|].
  apply star_refl.
Defined.

Lemma answer_sum_witness :
  iteration Operations.addition Operations.subtraction Operations.multiplication
    Operations.division "3 + 3" = Ok (IPrint "Result: 6.0") /\
  iteration Operations.addition Operations.subtraction Operations.multiplication
    Operations.division "9007199254740991 + 2" = Ok (IPrint "Result: 9007199254740992.0").
Proof.
  split; [apply (answer_sum "3 + 3" 3 3 6) | apply (answer_sum "9007199254740991 + 2" (2 ^ 53 - 1) 2 (2 ^ 53))];
    (vm_compute; reflexivity) || lia.
Defined.

Lemma answer_difference_witness :
  iteration Operations.addition Operations.subtraction Operations.multiplication
    Operations.division "5 - 3" = Ok (IPrint "Result: 2.0").
Proof. apply (answer_difference "5 - 3" 5 3 2); (vm_compute; reflexivity) || lia. Defined.

Lemma answer_product_witness :
  iteration Operations.addition Operations.subtraction Operations.multiplication
    Operations.division "0 * -3" = Ok (IPrint "Result: -0.0").
Proof. apply (answer_product "0 * -3" 0 (-3) 0); (vm_compute; reflexivity) || lia. Defined.

Lemma answer_quotient_witness :
  iteration Operations.addition Operations.subtraction Operations.multiplication
    Operations.division "30 / 10" = Ok (IPrint "Result: 3.0").
Proof. apply (answer_quotient "30 / 10" 30 10 3); [vm_compute; reflexivity | lia ..]. Defined.

Lemma answer_division_by_zero_witness :
  iteration Operations.addition Operations.subtraction Operations.multiplication
    Operations.division "3 / 0" = Ok (IPrint division_by_zero_message).
Proof. apply (answer_division_by_zero "3 / 0" 3). vm_compute. reflexivity. Defined.

Lemma py_float_repr_integral_witness :
  FloatParse.py_float (FloatRepr.float_repr (S754_finite false (2 ^ 52 + 1) 1)) =
  Ok (S754_finite false (2 ^ 52 + 1) 1).
Proof. apply (py_float_repr_integral _ (2 ^ 53 + 2)); vm_compute; reflexivity. Defined.

Lemma answer_wrong_word_count_witness :
  iteration Operations.addition Operations.subtraction Operations.multiplication
    Operations.division "3 +" = Ok (IPrint format_error).
Proof. apply answer_wrong_word_count; vm_compute; [reflexivity | discriminate]. Defined.

Lemma answer_bad_number_witness :
  iteration Operations.addition Operations.subtraction Operations.multiplication
    Operations.division "five + one" = Ok (IPrint format_error).
Proof. apply (answer_bad_number "five + one" "five" "+" "one"); vm_compute; [reflexivity | left; reflexivity]. Defined.

Lemma answer_unknown_operator_witness :
  iteration Operations.addition Operations.subtraction Operations.multiplication
    Operations.division "8 % 2" = Ok (IPrint operator_error).
Proof.
  apply (answer_unknown_operator "8 % 2" "8" "%" "2" (of_Z 8) (of_Z 2)); try (vm_compute; reflexivity).
  simpl. intuition discriminate.
Defined.

Lemma loop_stateless_witness :
  loop Operations.addition Operations.subtraction Operations.multiplication Operations.division
    (["3 + 3"] ++ ["exit"]) =
  ((flat_map (fun raw => [Prompt prompt; Print (spec_response raw)]) ["3 + 3"] ++
    fst (loop Operations.addition Operations.subtraction Operations.multiplication Operations.division ["exit"]))%list,
   snd (loop Operations.addition Operations.subtraction Operations.multiplication Operations.division ["exit"])).
Proof. apply loop_stateless. vm_compute. reflexivity. Defined.

Lemma exit_stops_reading_witness :
  main ([] ++ "Exit" :: ["3 + 3"]) = main ([] ++ ["Exit"]).
Proof.
  apply (exit_stops_reading Operations.addition Operations.subtraction Operations.multiplication
           Operations.division [] ["3 + 3"] "Exit").
  vm_compute. reflexivity.
Defined.

Lemma exit_eventually_finishes_witness :
  eventually (step Operations.addition Operations.subtraction Operations.multiplication Operations.division)
    (fun c => fst c = Terminated Finished) (Running ["3 + 3"; "exit"], []).
Proof.
  apply (@exit_eventually_finishes Operations.addition Operations.subtraction Operations.multiplication
           Operations.division Operations.math_operations_contract).
  vm_compute. reflexivity.
Defined.

Lemma answer_lines_valid_witness :
  let line := "Result: 0.30000000000000004" in
  line = format_error \/ line = operator_error \/ line = division_by_zero_message \/
  exists f, valid_binary prec emax f = true /\ line = "Result: " ++ FloatRepr.float_repr f.
Proof. apply (answer_lines_valid "0.1 + 0.2"). vm_compute. reflexivity. Defined.

End Calculator.
