(* ===== verification/TestCalculator.v ===== *)
(** * [tests/test_calculator.py]: the REPL tests

    [run_calculator_with_input] replaces [builtins.input] by
    [lambda _: next(input_iterator)], which ignores its prompt argument
    and prints nothing, redirects [sys.stdout] to a [StringIO], calls
    [calculator()] and returns what was printed.  So the captured text
    holds the [print] lines only, no prompts; and when [calculator()]
    does not return (the iterator runs out and [next] raises
    [StopIteration], or another exception escapes) the helper raises and
    the test fails, which is [None] here.  Each test checks that one
    expected line occurs in the text ([in] on strings). *)

From Stdlib Require Import Ascii String List.
From S2P Require Import Prelude Calculator.
Import Calculator ListNotations.

Local Open Scope string_scope.

Module TestCalculator.

(** What [print] writes into the [StringIO]: each printed line and a
    newline; the mocked [input] writes nothing. *)
Fixpoint printed_text (evs : list event) : string :=
  match evs with
  | [] => ""
  | Prompt _ :: t => printed_text t
  | Print s :: t => s ++ String "010"%char (printed_text t)
  end.

Definition run_calculator_with_input (inputs : list string) : option string :=
  match main inputs with
  | (evs, Finished) => Some (printed_text evs)
  | (_, Crashed _) => None
  end.

(** [needle in hay] for strings. *)
Definition contains (needle hay : string) : bool :=
  match String.index 0 needle hay with Some _ => true | None => false end.

(** [assert needle in run_calculator_with_input(monkeypatch, inputs)]:
    false when the helper raises. *)
Definition output_contains (needle : string) (inputs : list string) : bool :=
  match run_calculator_with_input inputs with Some out => contains needle out | None => false end.

Definition test_calculator_addition : bool :=
  output_contains "Result: 6.0" ["3 + 3"; "exit"].
Definition test_calculator_subtraction : bool :=
  output_contains "Result: 2.0" ["5 - 3"; "exit"].
Definition test_calculator_multiplication : bool :=
  output_contains "Result: 12.0" ["4 * 3"; "exit"].
Definition test_calculator_division : bool :=
  output_contains "Result: 3.0" ["30 / 10"; "exit"].
Definition test_invalid_operator : bool :=
  output_contains "Invalid operator. Please use one of these: +, -, *, or /"
    ["8 % 2"; "exit"].
Definition test_invalid_input_format : bool :=
  output_contains "Invalid input. Format: <number> <operator> <number>. Include spaces between each component."
    ["five + one"; "exit"].
Definition test_calculator_division_by_zero : bool :=
  output_contains "Division by zero is not allowed." ["3 / 0"; "exit"].

(** The program's session on one line followed by [exit]. *)
Lemma main_single_line (raw : string) :
  is_exit_line raw = false ->
  main [raw; "exit"] = ([Print banner; Prompt prompt; Print (spec_response raw);
                         Prompt prompt; Print exit_notice], Finished).
Proof.
  intros He. rewrite main_calculator. unfold calculator. rewrite loop_main.
  cbn [spec_session]. rewrite He. reflexivity.
Qed.

(** C35 (functional): what every test of [tests/test_calculator.py]
    sees: for any line other than the exit keyword, followed by [exit],
    [run_calculator_with_input] returns the banner, the program's
    answer to the line and the exit notice, each on its own line, and no
    prompt; the seven tests are instances with the answers of spec 8. *)
Theorem run_single_line (raw : string) :
  is_exit_line raw = false ->
  run_calculator_with_input [raw; "exit"] =
  Some (banner ++ String "010"%char (spec_response raw ++ String "010"%char
        (exit_notice ++ String "010"%char ""))).
Proof. intros He. unfold run_calculator_with_input. now rewrite main_single_line. Qed.

Lemma run_single_line_witness :
  test_calculator_addition = true /\ test_calculator_subtraction = true /\
  test_calculator_multiplication = true /\ test_calculator_division = true /\
  test_invalid_operator = true /\ test_invalid_input_format = true /\
  test_calculator_division_by_zero = true.
Proof.
  unfold test_calculator_addition, test_calculator_subtraction, test_calculator_multiplication,
    test_calculator_division, test_invalid_operator, test_invalid_input_format,
    test_calculator_division_by_zero, output_contains.
  rewrite !run_single_line by (vm_compute; reflexivity). vm_compute. repeat split.
Defined.

End TestCalculator.
