(* ===== verification/TestOperations.v ===== *)
(** * [tests/test_operations.py]: the parameterized tests of [MathOperations]

    [assert_numeric_equal] compares two numbers exactly when both are
    [int]s and otherwise after [round(x, 1)]: CPython's [double_round]
    rounds the exact binary value to one decimal ([_Py_dg_dtoa] mode 3,
    ties to even) and reads the decimal back ([_Py_dg_strtod]), which is
    [decimal_to_float] of the rounded value.  [==] between an [int] and
    a [float] compares exact values.  Float literals of the test tables
    are read as the Python compiler reads them, by correctly rounded
    decimal conversion ([lit]). *)

From Stdlib Require Import ZArith String List Floats.SpecFloat Lia.
From S2P Require Import Prelude Binary64 Operations FloatParse.
Import Binary64 Operations ListNotations.

Local Open Scope Z_scope.

Module TestOperations.

(** A float literal of the test source. *)
Definition lit (s : string) : Number :=
  match FloatParse.py_float s with Ok f => PyFloat f | Raise _ => PyFloat S754_nan end.

(** [round(x, 1)] for a float. *)
Definition round_float1 (x : float) : float :=
  match x with
  | S754_finite s m e =>
      let num := Zpos m * 10 * 2 ^ Z.max e 0 in
      let den := 2 ^ Z.max (- e) 0 in
      let q := num / den in
      let r := num mod den in
      let d := match Z.compare (2 * r) den with
               | Lt => q | Gt => q + 1 | Eq => if Z.even q then q else q + 1 end in
      FloatParse.decimal_to_float s d (-1)
  | _ => x
  end.

(** [round(v, 1)]: an [int] is returned unchanged. *)
Definition py_round1 (v : Number) : Number :=
  match v with PyInt n => PyInt n | PyFloat f => PyFloat (round_float1 f) end.

(** [a == b] on [int | float]. *)
Definition py_eq (a b : Number) : bool :=
  match a, b with
  | PyInt x, PyInt y => Z.eqb x y
  | PyFloat f, PyFloat g => feq f g
  | PyInt x, PyFloat f | PyFloat f, PyInt x =>
      match int_value f with Some y => Z.eqb x y | None => false end
  end.

Definition is_float (v : Number) : bool := match v with PyFloat _ => true | PyInt _ => false end.

Definition assert_numeric_equal (result expected : Number) : bool :=
  if orb (is_float result) (is_float expected)
  then py_eq (py_round1 result) (py_round1 expected)
  else py_eq result expected.

(** One parameterized test: the call returns and the result matches. *)
Definition check_case (op : Number -> Number -> result Number) (t : Number * Number * Number) : bool :=
  let '(a, b, expected) := t in
  match op a b with Ok r => assert_numeric_equal r expected | Raise _ => false end.

Definition addition_cases : list (Number * Number * Number) :=
  [(PyInt 5, PyInt 5, PyInt 10); (PyInt (-3), PyInt (-4), PyInt (-7));
   (PyInt (-8), PyInt 12, PyInt 4); (PyInt 0, PyInt 0, PyInt 0);
   (lit "1.2", lit "3.8", lit "5.0"); (lit "-4.0", lit "-2.5", lit "-6.5");
   (lit "-3.2", lit "4.0", lit "0.8")].

Definition subtraction_cases : list (Number * Number * Number) :=
  [(PyInt 2, PyInt 2, PyInt 0); (PyInt (-3), PyInt (-1), PyInt (-2));
   (PyInt (-8), PyInt 3, PyInt (-11)); (PyInt 0, PyInt 0, PyInt 0);
   (lit "2.5", lit "1.5", lit "1.0"); (lit "-3.0", lit "-2.0", lit "-1.0");
   (lit "-5.0", lit "3.0", lit "-8.0")].

Definition multiplication_cases : list (Number * Number * Number) :=
  [(PyInt 3, PyInt 3, PyInt 9); (PyInt (-2), PyInt (-2), PyInt 4);
   (PyInt (-4), PyInt 3, PyInt (-12)); (PyInt 0, PyInt 0, PyInt 0);
   (lit "2.0", lit "3.0", lit "6.0"); (lit "-1.0", lit "-3.0", lit "3.0");
   (lit "-3.0", lit "8.0", lit "-24.0")].

Definition division_cases : list (Number * Number * Number) :=
  [(PyInt 4, PyInt 2, PyInt 2); (PyInt (-4), PyInt (-2), PyInt 2);
   (PyInt (-8), PyInt 2, PyInt (-4)); (lit "3.0", lit "3.0", lit "1.0");
   (lit "-9.0", lit "-3.0", lit "3.0"); (lit "-12.0", lit "4.0", lit "-3.0")].

Definition division_by_zero_cases : list (Number * Number) :=
  [(PyInt 8, PyInt 0); (PyInt (-3), PyInt 0); (lit "5.0", PyInt 0); (lit "-3.5", PyInt 0)].

Definition test_addition : bool := forallb (check_case addition) addition_cases.
Definition test_subtraction : bool := forallb (check_case subtraction) subtraction_cases.
Definition test_multiplication : bool := forallb (check_case multiplication) multiplication_cases.
Definition test_division : bool := forallb (check_case division) division_cases.

(** [pytest.raises(ValueError, match="Division by zero is not allowed.")] *)
Definition test_division_by_zero : bool :=
  forallb (fun '(a, b) =>
             match division a b with
             | Raise (ValueError msg) => String.eqb msg division_by_zero_message
             | _ => false
             end) division_by_zero_cases.

(** C18 (error): spec 8 says [divide(a, 0)] fails with the division
    message for every [a]; the code does so for every dividend and every
    zero divisor ([0], [0.0], [-0.0]) but one case: an [int] too large
    for a double divided by a float zero raises [OverflowError], since
    [float_div] converts its operands before it tests the divisor.  So
    [test_division_by_zero] passes whatever dividend it is given, as long
    as it is not such an [int] against [0.0]. *)
Theorem division_by_zero_any (a b : Number) :
  is_zero_number b = true ->
  division a b =
  match a, b with
  | PyInt n, PyFloat _ =>
      if 2 ^ 1024 - 2 ^ 970 <=? Z.abs n
      then Raise (OverflowError "int too large to convert to float")
      else Raise (ValueError division_by_zero_message)
  | _, _ => Raise (ValueError division_by_zero_message)
  end.
Proof.
  intros Hz. unfold division.
  destruct a as [n|x], b as [z|y]; cbn [is_zero_number] in Hz; cbn [py_truediv].
  - apply Z.eqb_eq in Hz. subst z. reflexivity.
  - cbn [to_double]. destruct (Z.leb_spec (2 ^ 1024 - 2 ^ 970) (Z.abs n)) as [Hn|Hn].
    + now rewrite (proj2 (of_Z_inf_iff n) Hn).
    + destruct (is_inf (of_Z n)) eqn:Hi; [apply of_Z_inf_iff in Hi; lia|].
      cbn [bind]. now rewrite (proj2 (feq_zero_iff y) Hz).
  - apply Z.eqb_eq in Hz. subst z. reflexivity.
  - cbn [to_double bind]. now rewrite (proj2 (feq_zero_iff y) Hz).
Qed.

Lemma division_by_zero_any_witness :
  test_division_by_zero = true /\
  division (PyInt (2 ^ 1024)) (PyFloat fzero) = Raise (OverflowError "int too large to convert to float").
Proof.
  split.
  - unfold test_division_by_zero, division_by_zero_cases. cbn [forallb].
    rewrite !(division_by_zero_any _ (PyInt 0)) by reflexivity. vm_compute. reflexivity.
  - rewrite (division_by_zero_any _ (PyFloat fzero)) by reflexivity. reflexivity.
Defined.

End TestOperations.
